(** * LinkedInProfileExtractor: the heuristic record extractor of
    [linked_scrapper_v3.py], embedded as pure functions.

    Python [str] values are lists of Unicode code points, the parsed
    document is a tree of tags and strings, the regular expressions of the
    source are values of a small pattern type run by a backtracking matcher
    with the priorities of Python's [re], and [self.profile_data] is a record
    threaded through the [_extract_*] methods. *)

From Stdlib Require Import String Ascii NArith Bool Arith Lia List.
Import ListNotations.
Set Warnings "-register-all".
Open Scope string_scope.
Open Scope list_scope.
Open Scope nat_scope.

(** ** Text *)

(** A code point, and a Python [str]. *)
Definition char := N.
Definition str := list char.

(** A source literal made of Basic Latin characters. *)
Definition py (s : string) : str := map N_of_ascii (list_ascii_of_string s).

Definition SPACE : char := 32%N.
Definition NEWLINE : char := 10%N.
Definition COMMA : char := 44%N.
Definition HYPHEN : char := 45%N.
Definition UNDERSCORE : char := 95%N.
(** U+00B7, the dot LinkedIn puts between a date range and its duration. *)
Definition MIDDLE_DOT : char := 183%N.
(** U+2013. *)
Definition EN_DASH : char := 8211%N.

Definition in_range (lo hi c : char) : bool := (lo <=? c)%N && (c <=? hi)%N.
Arguments in_range (lo hi c)%_N_scope.

Fixpoint str_eqb (a b : str) : bool :=
  match a, b with
  | [], [] => true
  | x :: a', y :: b' => (x =? y)%N && str_eqb a' b'
  | _, _ => false
  end.

(** [x in l] for a list of strings. *)
Definition mem (x : str) (l : list str) : bool := existsb (str_eqb x) l.

(** [text.startswith(prefix)]. *)
Fixpoint startswith (text prefix : str) : bool :=
  match prefix, text with
  | [], _ => true
  | p :: prefix', c :: text' => (p =? c)%N && startswith text' prefix'
  | _ :: _, [] => false
  end.

(** [needle in hay] for two strings. *)
Fixpoint contains (needle hay : str) : bool :=
  startswith hay needle ||
  match hay with
  | [] => false
  | _ :: hay' => contains needle hay'
  end.

(** [any(x in text for x in needles)]. *)
Definition any_in (needles : list str) (text : str) : bool :=
  existsb (fun x => contains x text) needles.

(** [text.split(',')]: the pieces between the separators, never empty. *)
Fixpoint split (sep : char) (text : str) : list str :=
  match text with
  | [] => [[]]
  | c :: text' =>
      if (c =? sep)%N then [] :: split sep text'
      else match split sep text' with
           | piece :: pieces => (c :: piece) :: pieces
           | [] => [[c]]
           end
  end.

(** [list.remove(x)]: drops the first element equal to [x]. *)
Fixpoint remove_first (x : str) (l : list str) : list str :=
  match l with
  | [] => []
  | y :: l' => if str_eqb x y then l' else y :: remove_first x l'
  end.

(** The shape [for text in l[:]: if p(text): ...; l.remove(text); break]:
    the first element that satisfies [p], and the list it was removed from. *)
Definition take_first (p : str -> bool) (l : list str) : option str * list str :=
  match find p l with
  | Some x => (Some x, remove_first x l)
  | None => (None, l)
  end.

(** Truth value of an [Optional[str]]: [None] and [''] are false. *)
Definition truthy (o : option str) : bool :=
  match o with
  | Some (_ :: _) => true
  | _ => false
  end.

(** The character tables of the Python runtime that the extractor reads:
    [str.isspace] (also [\s] and [str.strip]), decimal digits ([\d]),
    alphanumerics ([\w] adds the underscore), [str.lower], and the other
    characters a character is equal to under [re.IGNORECASE]. *)
Class Unicode := {
  isspace : char -> bool;
  isdecimal : char -> bool;
  isalnum : char -> bool;
  lower : str -> str;
  ignorecase : char -> list char
}.

Definition ascii_lower (c : char) : char :=
  if in_range 65 90 c then (c + 32)%N else c.

(** The tables on Basic Latin. Whitespace is the whole of Python's set;
    digits, letters and case are those of Basic Latin, with the four
    characters that [re.IGNORECASE] adds to the letters i, s and k. *)
Definition basic_latin : Unicode := {|
  isspace c :=
    in_range 9 13 c || in_range 28 32 c || (c =? 133)%N || (c =? 160)%N ||
    (c =? 5760)%N || in_range 8192 8202 c || in_range 8232 8233 c ||
    (c =? 8239)%N || (c =? 8287)%N || (c =? 12288)%N;
  isdecimal c := in_range 48 57 c;
  isalnum c := in_range 48 57 c || in_range 65 90 c || in_range 97 122 c;
  lower s := map ascii_lower s;
  ignorecase c :=
    if in_range 65 90 c then [(c + 32)%N]
    else if in_range 97 122 c then [(c - 32)%N]
    else if (c =? 304)%N || (c =? 305)%N then [105%N; 73%N]
    else if (c =? 383)%N then [115%N; 83%N]
    else if (c =? 8490)%N then [107%N; 75%N]
    else []
|}.

Section Text.
Context {U : Unicode}.

Fixpoint lstrip (s : str) : str :=
  match s with
  | c :: s' => if isspace c then lstrip s' else s
  | [] => []
  end.

(** [text.strip()]. *)
Definition strip (s : str) : str := rev (lstrip (rev (lstrip s))).

(** [re.sub(r'\s+', ' ', text)]: every maximal run of whitespace becomes
    one space; [in_run] says that the previous character was whitespace. *)
Fixpoint sub_spaces (in_run : bool) (s : str) : str :=
  match s with
  | [] => []
  | c :: s' =>
      if isspace c
      then (if in_run then sub_spaces true s' else SPACE :: sub_spaces true s')
      else c :: sub_spaces false s'
  end.

(** [_normalize_text]; the argument is always the [str] of [get_text()]. *)
Definition _normalize_text (text : str) : option str :=
  match text with
  | [] => None
  | _ =>
      match sub_spaces false (strip text) with
      | [] => None
      | cleaned => Some cleaned
      end
  end.
End Text.

(** ** Regular expressions *)

Module Re.

Inductive item :=
| IChar (c : char)            (* a character in a set *)
| IRange (lo hi : char)       (* lo-hi *)
| IWord                       (* \w *)
| ISpace                      (* \s *)
| IDigit.                     (* \d *)

Inductive pattern :=
| Empty
| Chr (c : char)
| Set_ (items : list item)    (* [...] and the classes \d \s \w *)
| Dot                         (* . *)
| Bol                         (* ^ *)
| Eol                         (* $ *)
| Boundary                    (* \b *)
| Seq (a b : pattern)
| Alt (a b : pattern)         (* a|b, [a] tried first *)
| Star (greedy : bool) (a : pattern)   (* a* and a*? *)
| Group (n : nat) (a : pattern).       (* the n-th capturing group *)

Arguments Chr c%_N_scope.
Arguments IChar c%_N_scope.
Arguments IRange (lo hi)%_N_scope.

Definition Plus (greedy : bool) (a : pattern) : pattern := Seq a (Star greedy a).

(** [a{n}]. *)
Fixpoint Rep (n : nat) (a : pattern) : pattern :=
  match n with
  | 0 => Empty
  | 1 => a
  | S n' => Seq a (Rep n' a)
  end.

Fixpoint Seqs (l : list pattern) : pattern :=
  match l with
  | [] => Empty
  | [a] => a
  | a :: l' => Seq a (Seqs l')
  end.

Fixpoint Alts (l : list pattern) : pattern :=
  match l with
  | [] => Empty
  | [a] => a
  | a :: l' => Alt a (Alts l')
  end.

(** A literal word. *)
Definition Lit (s : string) : pattern := Seqs (map Chr (py s)).

Definition digit : pattern := Set_ [IDigit].
Definition space : pattern := Set_ [ISpace].

Fixpoint ngroups (r : pattern) : nat :=
  match r with
  | Seq a b | Alt a b => ngroups a + ngroups b
  | Star _ a => ngroups a
  | Group _ a => S (ngroups a)
  | _ => 0
  end.

(** A position of the matcher in the subject: the character before it
    ([None] at the start), the text from it on, and the groups closed so
    far. *)
Record cursor := { prev : option char; rest : str; groups : list (nat * str) }.

Definition advance (c : char) (t : str) (st : cursor) : cursor :=
  {| prev := Some c; rest := t; groups := groups st |}.

Definition close_group (n : nat) (from st : cursor) : cursor :=
  {| prev := prev st; rest := rest st;
     groups := (n, firstn (length (rest from) - length (rest st)) (rest from))
               :: groups st |}.

Section Matcher.
Context {U : Unicode}.
(** [re.IGNORECASE]. *)
Variable ic : bool.

Definition isword (c : char) : bool := isalnum c || (c =? UNDERSCORE)%N.

Definition chr_matches (p c : char) : bool :=
  (p =? c)%N || (ic && existsb (N.eqb p) (ignorecase c)).

Definition item_matches (i : item) (c : char) : bool :=
  match i with
  | IChar p => chr_matches p c
  | IRange lo hi =>
      in_range lo hi c || (ic && existsb (in_range lo hi) (ignorecase c))
  | IWord => isword c
  | ISpace => isspace c
  | IDigit => isdecimal c
  end.

Definition at_boundary (st : cursor) : bool :=
  let before := match prev st with Some c => isword c | None => false end in
  let after := match rest st with c :: _ => isword c | [] => false end in
  xorb before after.

Definition at_end (st : cursor) : bool :=
  match rest st with
  | [] => true
  | [c] => (c =? NEWLINE)%N
  | _ => false
  end.

Definition one (ok : char -> bool) (st : cursor)
    (k : cursor -> option cursor) : option cursor :=
  match rest st with
  | c :: t => if ok c then k (advance c t st) else None
  | [] => None
  end.

Definition guard (b : bool) (st : cursor)
    (k : cursor -> option cursor) : option cursor :=
  if b then k st else None.

Definition orelse (x : option cursor) (y : unit -> option cursor) : option cursor :=
  match x with
  | Some st => Some st
  | None => y tt
  end.

(** [a*] and [a*?] by iteration: [step] matches [a] once. The greedy form
    tries one more iteration before it hands over to [k], the lazy form
    hands over first. An iteration that consumed nothing is given up, and
    [fuel], the length of the text left plus one, is never used up. *)
Fixpoint repeat_ (step : cursor -> (cursor -> option cursor) -> option cursor)
    (greedy : bool) (k : cursor -> option cursor) (fuel : nat) (st : cursor)
    {struct fuel} : option cursor :=
  match fuel with
  | 0 => k st
  | S fuel' =>
      let again := fun _ : unit =>
        step st (fun st' =>
          if length (rest st') <? length (rest st)
          then repeat_ step greedy k fuel' st' else None) in
      if greedy then orelse (again tt) (fun _ => k st)
      else orelse (k st) again
  end.

(** The backtracking matcher: [run r st k] matches [r] at [st] and hands
    every way of doing so to the continuation [k], in the order of
    preference of [re], until one succeeds. *)
Fixpoint run (r : pattern) (st : cursor) (k : cursor -> option cursor)
    {struct r} : option cursor :=
  match r with
  | Empty => k st
  | Chr p => one (chr_matches p) st k
  | Set_ items => one (fun c => existsb (fun i => item_matches i c) items) st k
  | Dot => one (fun c => negb (c =? NEWLINE)%N) st k
  | Bol => guard (match prev st with None => true | Some _ => false end) st k
  | Eol => guard (at_end st) st k
  | Boundary => guard (at_boundary st) st k
  | Seq a b => run a st (fun st' => run b st' k)
  | Alt a b => orelse (run a st k) (fun _ => run b st k)
  | Star greedy a => repeat_ (run a) greedy k (S (length (rest st))) st
  | Group n a => run a st (fun st' => k (close_group n st st'))
  end.

(** A match object: where the match starts and where it ends. *)
Record match_ := { m_from : cursor; m_to : cursor }.

Definition match_at (r : pattern) (st : cursor) : option match_ :=
  match run r st Some with
  | Some st' => Some {| m_from := st; m_to := st' |}
  | None => None
  end.

(** [m.group(0)]. *)
Definition group0 (m : match_) : str :=
  firstn (length (rest (m_from m)) - length (rest (m_to m))) (rest (m_from m)).

(** [m.group(n)] for [n > 0]; [None] when the group took no part. *)
Definition group (m : match_) (n : nat) : option str :=
  match find (fun g => fst g =? n) (groups (m_to m)) with
  | Some g => Some (snd g)
  | None => None
  end.

Fixpoint search_from (r : pattern) (before : option char) (text : str)
    {struct text} : option match_ :=
  match match_at r {| prev := before; rest := text; groups := [] |} with
  | Some m => Some m
  | None =>
      match text with
      | [] => None
      | c :: text' => search_from r (Some c) text'
      end
  end.

(** [re.search(r, text)]: the match at the leftmost position that has one. *)
Definition search (r : pattern) (text : str) : option match_ :=
  search_from r None text.

(** The successive non-overlapping matches, left to right. After a
    match the scan goes on where it ended, one character further when
    the match was empty. *)
Fixpoint finditer_from (fuel : nat) (r : pattern) (before : option char)
    (text : str) {struct fuel} : list match_ :=
  match fuel with
  | 0 => []
  | S fuel' =>
      match search_from r before text with
      | None => []
      | Some m =>
          let e := m_to m in
          if length (rest e) <? length (rest (m_from m))
          then m :: finditer_from fuel' r (prev e) (rest e)
          else m :: match rest e with
                    | [] => []
                    | c :: t => finditer_from fuel' r (Some c) t
                    end
      end
  end.

Definition finditer (r : pattern) (text : str) : list match_ :=
  finditer_from (S (length text)) r None text.

(** [re.findall(r, text)] for a pattern with at most one group: the
    list of whole matches when [r] has no group, and the list of what
    its group captured when it has one. *)
Definition findall (r : pattern) (text : str) : list str :=
  map (fun m =>
         match ngroups r with
         | 0 => group0 m
         | _ => match group m 1 with Some g => g | None => [] end
         end)
      (finditer r text).
End Matcher.

End Re.

(** ** The parsed document *)

Module Soup.

(** What [BeautifulSoup(html, 'html.parser')] builds, as far as the
    extractor looks at it: tags with a name, attributes and contents, and
    the strings between them. *)
Inductive node :=
| NavigableString (text : str)
| Tag (name : string) (attrs : list (string * str)) (contents : list node).

(** A handle on a node of the document: the node and its ancestors,
    nearest first, up to the document itself. *)
Record element := { node_of : node; parents : list node }.

Definition named (names : list string) (n : node) : bool :=
  match n with
  | Tag name _ _ => existsb (String.eqb name) names
  | NavigableString _ => false
  end.

(** The tag has every attribute of [keys], whatever its value: the filter
    that the keyword arguments [key=True] of a search make. *)
Definition has_attrs (keys : list string) (n : node) : bool :=
  match n with
  | Tag _ attrs _ =>
      forallb (fun key => existsb (fun a => String.eqb (fst a) key) attrs) keys
  | NavigableString _ => false
  end.

Fixpoint text_of (n : node) : str :=
  match n with
  | NavigableString text => text
  | Tag _ _ contents => flat_map text_of contents
  end.

(** [tag.get_text()]. *)
Definition get_text (e : element) : str := text_of (node_of e).

(** All the nodes below [n], in document order. *)
Fixpoint descendants (above : list node) (n : node) : list element :=
  match n with
  | NavigableString _ => []
  | Tag _ _ contents =>
      flat_map (fun c => {| node_of := c; parents := n :: above |}
                         :: descendants (n :: above) c) contents
  end.

(** [tag.find_all(names)]. *)
Definition find_all (names : list string) (e : element) : list element :=
  filter (fun x => named names (node_of x)) (descendants (parents e) (node_of e)).

Fixpoint nearest (names keys : list string) (above : list node) : option element :=
  match above with
  | [] => None
  | p :: above' =>
      if named names p && has_attrs keys p
      then Some {| node_of := p; parents := above' |}
      else nearest names keys above'
  end.

(** [tag.find_parent(names, **kwargs)]: the nearest ancestor that has one
    of the names and passes the attribute filters. [find_parent] takes a
    name, [attrs] and keyword arguments, and every keyword argument is a
    filter on the attribute of that name; the value [True] asks for the
    attribute to be there. [keys] are the keywords given with [True]. *)
Definition find_parent (names keys : list string) (e : element) : option element :=
  nearest names keys (parents e).

(** [tag.children]. *)
Definition children (e : element) : list element :=
  match node_of e with
  | Tag _ _ contents =>
      map (fun c => {| node_of := c; parents := node_of e :: parents e |}) contents
  | NavigableString _ => []
  end.

(** The document object, itself a tag whose name no search asks for. *)
Definition BeautifulSoup (contents : list node) : element :=
  {| node_of := Tag "[document]" [] contents; parents := [] |}.

End Soup.

(** ** The output structure *)

Module BasicProfile.
Record t := {
  full_name : option str;
  headline : option str;
  location : option str;
  current_company : option str;
  profile_summary : option str
}.
End BasicProfile.

Module Experience.
Record t := {
  job_title : option str;
  company_name : option str;
  employment_type : option str;
  start_date : option str;
  end_date : option str;
  duration : option str;
  location : option str;
  description : list str
}.
End Experience.

Module Education.
Record t := {
  institution_name : option str;
  degree : option str;
  field_of_study : option str;
  start_year : option str;
  end_year : option str;
  grade : option str;
  activities : option str
}.
End Education.

Module Certification.
Record t := {
  name : option str;
  issuing_organization : option str;
  issue_date : option str;
  expiration_date : option str
}.
End Certification.

Module Project.
Record t := {
  project_name : option str;
  role : option str;
  description : option str;
  associated_dates : option str
}.
End Project.

Module Honor.
Record t := {
  title : option str;
  issuer : option str;
  date : option str;
  description : option str
}.
End Honor.

Module Volunteer.
Record t := {
  organization : option str;
  role : option str;
  cause : option str;
  date_range : option str;
  description : option str
}.
End Volunteer.

Module ProfileData.
Record t := {
  basic_profile : BasicProfile.t;
  experience : list Experience.t;
  education : list Education.t;
  skills : list str;
  certifications : list Certification.t;
  projects : list Project.t;
  honors_awards : list Honor.t;
  volunteering : list Volunteer.t
}.

Definition set_basic_profile (v : BasicProfile.t) (pd : t) : t :=
  {| basic_profile := v; experience := experience pd; education := education pd;
     skills := skills pd; certifications := certifications pd;
     projects := projects pd; honors_awards := honors_awards pd;
     volunteering := volunteering pd |}.

Definition set_experience (v : list Experience.t) (pd : t) : t :=
  {| basic_profile := basic_profile pd; experience := v; education := education pd;
     skills := skills pd; certifications := certifications pd;
     projects := projects pd; honors_awards := honors_awards pd;
     volunteering := volunteering pd |}.

Definition set_education (v : list Education.t) (pd : t) : t :=
  {| basic_profile := basic_profile pd; experience := experience pd; education := v;
     skills := skills pd; certifications := certifications pd;
     projects := projects pd; honors_awards := honors_awards pd;
     volunteering := volunteering pd |}.

Definition set_skills (v : list str) (pd : t) : t :=
  {| basic_profile := basic_profile pd; experience := experience pd;
     education := education pd; skills := v; certifications := certifications pd;
     projects := projects pd; honors_awards := honors_awards pd;
     volunteering := volunteering pd |}.

Definition set_certifications (v : list Certification.t) (pd : t) : t :=
  {| basic_profile := basic_profile pd; experience := experience pd;
     education := education pd; skills := skills pd; certifications := v;
     projects := projects pd; honors_awards := honors_awards pd;
     volunteering := volunteering pd |}.

Definition set_projects (v : list Project.t) (pd : t) : t :=
  {| basic_profile := basic_profile pd; experience := experience pd;
     education := education pd; skills := skills pd;
     certifications := certifications pd; projects := v;
     honors_awards := honors_awards pd; volunteering := volunteering pd |}.

Definition set_honors_awards (v : list Honor.t) (pd : t) : t :=
  {| basic_profile := basic_profile pd; experience := experience pd;
     education := education pd; skills := skills pd;
     certifications := certifications pd; projects := projects pd;
     honors_awards := v; volunteering := volunteering pd |}.

Definition set_volunteering (v : list Volunteer.t) (pd : t) : t :=
  {| basic_profile := basic_profile pd; experience := experience pd;
     education := education pd; skills := skills pd;
     certifications := certifications pd; projects := projects pd;
     honors_awards := honors_awards pd; volunteering := v |}.
End ProfileData.

Definition set_current_company (v : option str) (bp : BasicProfile.t) : BasicProfile.t :=
  {| BasicProfile.full_name := BasicProfile.full_name bp;
     BasicProfile.headline := BasicProfile.headline bp;
     BasicProfile.location := BasicProfile.location bp;
     BasicProfile.current_company := v;
     BasicProfile.profile_summary := BasicProfile.profile_summary bp |}.

(** [_initialize_structure]. *)
Definition _initialize_structure : ProfileData.t :=
  {| ProfileData.basic_profile :=
       {| BasicProfile.full_name := None;
          BasicProfile.headline := None;
          BasicProfile.location := None;
          BasicProfile.current_company := None;
          BasicProfile.profile_summary := None |};
     ProfileData.experience := [];
     ProfileData.education := [];
     ProfileData.skills := [];
     ProfileData.certifications := [];
     ProfileData.projects := [];
     ProfileData.honors_awards := [];
     ProfileData.volunteering := [] |}.

(** [SECTION_HEADERS]; the source only looks up keys of the table. *)
Definition SECTION_HEADERS (key : string) : list str :=
  if String.eqb key "about" then [py "about"; py "summary"]
  else if String.eqb key "experience" then [py "experience"]
  else if String.eqb key "education" then [py "education"]
  else if String.eqb key "skills" then [py "skills"; py "skills & endorsements"]
  else if String.eqb key "certifications"
       then [py "licenses & certifications"; py "certifications"]
  else if String.eqb key "projects" then [py "projects"]
  else if String.eqb key "honors" then [py "honors & awards"; py "honors"; py "awards"]
  else if String.eqb key "volunteering"
       then [py "volunteering"; py "volunteer experience"]
  else [].

(** ** The patterns of the source *)

Module Patterns.
Import Re.

(** [[A-Za-z]]. *)
Definition letter : pattern := Set_ [IRange 65 90; IRange 97 122].

(** [[A-Za-z]+\s+\d{4}]. *)
Definition month_year : pattern :=
  Seqs [Plus true letter; Plus true space; Rep 4 digit].

(** [([A-Za-z]+\s+\d{4}|\d{4})\s*[–-]\s*([A-Za-z]+\s+\d{4}|\d{4}|Present)]. *)
Definition date_pattern : pattern :=
  Seqs [Group 1 (Alt month_year (Rep 4 digit));
        Star true space;
        Set_ [IChar EN_DASH; IChar HYPHEN];
        Star true space;
        Group 2 (Alts [month_year; Rep 4 digit; Lit "Present"])].

(** [·\s*(.+?)(?:\s*·|$)]. *)
Definition duration_pattern : pattern :=
  Seqs [Chr MIDDLE_DOT;
        Star true space;
        Group 1 (Plus false Dot);
        Alt (Seq (Star true space) (Chr MIDDLE_DOT)) Eol].

(** [\b(area|region|country)\b]. *)
Definition region_pattern : pattern :=
  Seqs [Boundary; Group 1 (Alts [Lit "area"; Lit "region"; Lit "country"]); Boundary].

(** [^[\w\s,]+,[\w\s,]+$]. *)
Definition place_pattern : pattern :=
  Seqs [Bol;
        Plus true (Set_ [IWord; ISpace; IChar COMMA]);
        Chr COMMA;
        Plus true (Set_ [IWord; ISpace; IChar COMMA]);
        Eol].

Definition months : list pattern :=
  map Lit ["Jan"; "Feb"; "Mar"; "Apr"; "May"; "Jun";
           "Jul"; "Aug"; "Sep"; "Oct"; "Nov"; "Dec"].

(** [\d{4}|Jan|Feb|Mar|Apr|May|Jun|Jul|Aug|Sep|Oct|Nov|Dec]. *)
Definition dated_pattern : pattern := Alts (Rep 4 digit :: months).

(** [\d{4}|Jan|Feb|Mar|Apr|May|Jun|Jul|Aug|Sep|Oct|Nov|Dec|Present]. *)
Definition dated_or_present_pattern : pattern :=
  Alts (Rep 4 digit :: months ++ [Lit "Present"]).

(** [\b(19|20)\d{2}\b]. *)
Definition year_pattern : pattern :=
  Seqs [Boundary; Group 1 (Alt (Lit "19") (Lit "20")); Rep 2 digit; Boundary].

(** [issued|expires]. *)
Definition issued_or_expires_pattern : pattern := Alt (Lit "issued") (Lit "expires").

(** [issued\s+([A-Za-z]+\s+\d{4})]. *)
Definition issued_pattern : pattern :=
  Seqs [Lit "issued"; Plus true space; Group 1 month_year].

(** [expires\s+([A-Za-z]+\s+\d{4})]. *)
Definition expires_pattern : pattern :=
  Seqs [Lit "expires"; Plus true space; Group 1 month_year].
End Patterns.

(** ** LinkedInProfileExtractor *)

Section Extractor.
Context {U : Unicode}.
Import Soup.

(** [_extract_date_range]. *)
Definition _extract_date_range (text : str)
    : option str * option str * option str :=
  let '(start_date, end_date) :=
    match Re.search true Patterns.date_pattern text with
    | Some date_match =>
        (option_map strip (Re.group date_match 1),
         option_map strip (Re.group date_match 2))
    | None => (None, None)
    end in
  let duration :=
    match Re.search false Patterns.duration_pattern text with
    | Some duration_match => option_map strip (Re.group duration_match 1)
    | None => None
    end in
  (start_date, end_date, duration).

(** [re.search(pattern, text)] read as a truth value. *)
Definition found (ic : bool) (r : Re.pattern) (text : str) : bool :=
  match Re.search ic r text with
  | Some _ => true
  | None => false
  end.

(** The normalized texts of [elems] that [keep] lets through: the loop
    [for elem in elems: text = normalize(elem.get_text()); if text and
    keep(text): out.append(text)]. *)
Definition texts (keep : str -> bool) (elems : list element) : list str :=
  flat_map (fun elem =>
              match _normalize_text (get_text elem) with
              | Some text => if keep text then [text] else []
              | None => []
              end) elems.

(** The text of the first of [elems] whose normalized text satisfies [p]:
    the loop [for elem in elems: text = ...; if text and p(text): ...; break]. *)
Definition first_text (p : str -> bool) (elems : list element) : option str :=
  hd_error (texts p elems).

(** The inner loop of [_find_section_by_header] for one element. The
    source calls [element.find_parent(['section', 'div'], recursive=True)]:
    [recursive] is no parameter of [find_parent], so it is a filter on an
    attribute named [recursive]. *)
Fixpoint section_of (text_lower : str) (elem : element)
    (header_keywords : list str) : option element :=
  match header_keywords with
  | [] => None
  | keyword :: header_keywords' =>
      if str_eqb text_lower (lower keyword) || startswith text_lower (lower keyword)
      then match find_parent ["section"; "div"] ["recursive"] elem with
           | Some section => Some section
           | None => section_of text_lower elem header_keywords'
           end
      else section_of text_lower elem header_keywords'
  end.

Fixpoint find_section_in (elements : list element) (header_keywords : list str)
    : option element :=
  match elements with
  | [] => None
  | elem :: elements' =>
      match _normalize_text (get_text elem) with
      | None => find_section_in elements' header_keywords
      | Some text =>
          match section_of (lower text) elem header_keywords with
          | Some section => Some section
          | None => find_section_in elements' header_keywords
          end
      end
  end.

(** [_find_section_by_header]. *)
Definition _find_section_by_header (soup : element) (header_keywords : list str)
    : option element :=
  find_section_in (find_all ["h2"; "h3"; "h4"; "span"; "div"] soup) header_keywords.

(** [[child for child in container.children
      if isinstance(child, Tag) and child.name == 'div']]. *)
Definition direct_children (container : element) : list element :=
  filter (fun child => named ["div"] (node_of child)) (children container).

Fixpoint first_repeating (containers : list element) : list element :=
  match containers with
  | [] => []
  | container :: containers' =>
      if 2 <=? length (direct_children container)
      then direct_children container
      else first_repeating containers'
  end.

(** [_get_list_items_from_section]. *)
Definition _get_list_items_from_section (section : element) : list element :=
  match find_all ["li"] section with
  | [] => first_repeating (find_all ["ul"; "ol"; "div"] section)
  | list_items => list_items
  end.

(** [max(paragraphs, key=len)] for a list that starts with [best]: the
    first of the longest. *)
Fixpoint max_by_len (best : str) (paragraphs : list str) : str :=
  match paragraphs with
  | [] => best
  | text :: paragraphs' =>
      max_by_len (if length best <? length text then text else best) paragraphs'
  end.

Definition opt_eqb (text : str) (o : option str) : bool :=
  match o with
  | Some x => str_eqb text x
  | None => false
  end.

(** [_extract_basic_profile]. *)
Definition _extract_basic_profile (soup : element) (pd : ProfileData.t)
    : ProfileData.t :=
  let bp := ProfileData.basic_profile pd in
  let h1_tags := find_all ["h1"] soup in
  let full_name :=
    match first_text (fun name => length name <? 100) h1_tags with
    | Some name => Some name
    | None => BasicProfile.full_name bp
    end in
  let found_headline :=
    match h1_tags with
    | [] => None
    | h1 :: _ =>
        match find_parent ["div"; "section"] [] h1 with
        | None => None
        | Some parent =>
            first_text
              (fun text =>
                 (10 <? length text) && (length text <? 200) &&
                 negb (opt_eqb text full_name) &&
                 negb (found false Patterns.region_pattern (lower text)))
              (find_all ["div"; "p"; "span"] parent)
        end
    end in
  let headline :=
    match found_headline with
    | Some text => Some text
    | None => BasicProfile.headline bp
    end in
  let location :=
    match first_text
            (fun text =>
               any_in [py "area"; py "location"; py ","] (lower text) &&
               found false Patterns.place_pattern text &&
               (length text <? 100))
            (find_all ["span"; "div"; "p"] soup) with
    | Some text => Some text
    | None => BasicProfile.location bp
    end in
  let profile_summary :=
    match _find_section_by_header soup (SECTION_HEADERS "about") with
    | None => BasicProfile.profile_summary bp
    | Some about_section =>
        match texts (fun text =>
                       negb (mem (lower text) (SECTION_HEADERS "about")) &&
                       (20 <? length text))
                    (find_all ["p"; "div"; "span"] about_section) with
        | [] => BasicProfile.profile_summary bp
        | text :: paragraphs => Some (max_by_len text paragraphs)
        end
    end in
  ProfileData.set_basic_profile
    {| BasicProfile.full_name := full_name;
       BasicProfile.headline := headline;
       BasicProfile.location := location;
       BasicProfile.current_company := BasicProfile.current_company bp;
       BasicProfile.profile_summary := profile_summary |} pd.

(** *** Experience *)

(** The test of the job title loop of [_parse_experience_item]. *)
Definition is_title (text : str) : bool :=
  (3 <? length text) &&
  negb (any_in [py "experience"; [MIDDLE_DOT]] (lower text)).

(** [for i, text in enumerate(text_elements): if is_title(text): ...;
    text_elements = text_elements[i+1:]; break]: the title and the
    elements after it. *)
Fixpoint title_scan (text_elements : list str) : option (str * list str) :=
  match text_elements with
  | [] => None
  | text :: text_elements' =>
      if is_title text then Some (text, text_elements')
      else title_scan text_elements'
  end.

(** [x = l[0]; l = l[1:]] under [if l:]. *)
Definition shift (l : list str) : option str * list str :=
  match l with
  | x :: l' => (Some x, l')
  | [] => (None, [])
  end.

Definition EMPLOYMENT_TYPES : list str :=
  [py "Full-time"; py "Part-time"; py "Contract";
   py "Freelance"; py "Internship"; py "Self-employed"].

(** The test of the date loop: the text looks dated and
    [_extract_date_range] finds a start date in it. *)
Definition has_date_range (text : str) : bool :=
  found true Patterns.dated_or_present_pattern text &&
  truthy (fst (fst (_extract_date_range text))).

Definition is_location (text : str) : bool :=
  (contains (py ",") text || any_in [py "remote"; py "hybrid"] (lower text)) &&
  (length text <? 100).

(** The body of [_parse_experience_item] once [text_elements] and
    [description_list = item.find_all('li')] are collected. *)
Definition experience_rules (text_elements : list str)
    (description_list : list element) : Experience.t :=
  match text_elements with
  | [] =>
      {| Experience.job_title := None; Experience.company_name := None;
         Experience.employment_type := None; Experience.start_date := None;
         Experience.end_date := None; Experience.duration := None;
         Experience.location := None; Experience.description := [] |}
  | _ =>
      let '(job_title, text_elements) :=
        match title_scan text_elements with
        | Some (text, after) => (Some text, after)
        | None => (None, text_elements)
        end in
      let '(company_name, text_elements) := shift text_elements in
      let '(employment_type, text_elements) :=
        take_first (any_in EMPLOYMENT_TYPES) text_elements in
      let '(dated, text_elements) := take_first has_date_range text_elements in
      let '(start_date, end_date, duration) :=
        match dated with
        | Some text => _extract_date_range text
        | None => (None, None, None)
        end in
      let '(location, text_elements) := take_first is_location text_elements in
      let description :=
        match description_list with
        | [] => filter (fun text => 50 <? length text) text_elements
        | _ => texts (fun _ => true) description_list
        end in
      {| Experience.job_title := job_title;
         Experience.company_name := company_name;
         Experience.employment_type := employment_type;
         Experience.start_date := start_date;
         Experience.end_date := end_date;
         Experience.duration := duration;
         Experience.location := location;
         Experience.description := description |}
  end.

Definition FRAGMENT_TAGS : list string := ["span"; "div"; "p"; "h3"; "h4"].

(** [_parse_experience_item]. *)
Definition _parse_experience_item (item : element) : Experience.t :=
  experience_rules (texts (fun _ => true) (find_all FRAGMENT_TAGS item))
                   (find_all ["li"] item).

Definition is_present (exp : Experience.t) : bool :=
  match Experience.end_date exp with
  | Some (c :: end_date) => str_eqb (lower (c :: end_date)) (py "present")
  | _ => false
  end.

(** The last loop of [_extract_experience]. *)
Definition derive_current_company (experience : list Experience.t)
    (bp : BasicProfile.t) : BasicProfile.t :=
  match find is_present experience with
  | Some exp => set_current_company (Experience.company_name exp) bp
  | None => bp
  end.

(** [_extract_experience]. *)
Definition _extract_experience (soup : element) (pd : ProfileData.t)
    : ProfileData.t :=
  match _find_section_by_header soup (SECTION_HEADERS "experience") with
  | None => pd
  | Some experience_section =>
      let list_items := _get_list_items_from_section experience_section in
      let experience :=
        ProfileData.experience pd ++
        filter (fun experience => truthy (Experience.job_title experience))
               (map _parse_experience_item list_items) in
      ProfileData.set_basic_profile
        (derive_current_company experience (ProfileData.basic_profile pd))
        (ProfileData.set_experience experience pd)
  end.

(** *** Education *)

Definition DEGREES : list str :=
  [py "Bachelor"; py "Master"; py "PhD"; py "Associate";
   py "Doctorate"; py "Diploma"; py "Certificate"].

(** The test of the year loop: [re.findall] gives one or two results. *)
Definition has_years (text : str) : bool :=
  let year_match := Re.findall false Patterns.year_pattern text in
  (length year_match =? 2) || (length year_match =? 1).

(** The body of [_parse_education_item] once [text_elements] is collected. *)
Definition education_rules (text_elements : list str) : Education.t :=
  match text_elements with
  | [] =>
      {| Education.institution_name := None; Education.degree := None;
         Education.field_of_study := None; Education.start_year := None;
         Education.end_year := None; Education.grade := None;
         Education.activities := None |}
  | institution_name :: text_elements =>
      let '(graded, text_elements) := take_first (any_in DEGREES) text_elements in
      let '(degree, field_of_study) :=
        match graded with
        | None => (None, None)
        | Some text =>
            match split COMMA text with
            | part0 :: part1 :: _ => (Some (strip part0), Some (strip part1))
            | part0 :: [] => (Some (strip part0), None)
            | [] => (None, None)
            end
        end in
      let '(dated, text_elements) := take_first has_years text_elements in
      let '(start_year, end_year) :=
        match dated with
        | None => (None, None)
        | Some text =>
            match Re.findall false Patterns.year_pattern text with
            | [year0; year1] => (Some year0, Some year1)
            | [year0] => (None, Some year0)
            | _ => (None, None)
            end
        end in
      let '(grade, text_elements) :=
        take_first (fun text =>
                      any_in [py "gpa"; py "grade"; py "cgpa"; py "score"] (lower text))
                   text_elements in
      let activities :=
        find (fun text => contains (py "activities") (lower text) || (30 <? length text))
             text_elements in
      {| Education.institution_name := Some institution_name;
         Education.degree := degree;
         Education.field_of_study := field_of_study;
         Education.start_year := start_year;
         Education.end_year := end_year;
         Education.grade := grade;
         Education.activities := activities |}
  end.

(** [_parse_education_item]. *)
Definition _parse_education_item (item : element) : Education.t :=
  education_rules
    (texts (fun text => negb (str_eqb (lower text) (py "education")))
           (find_all FRAGMENT_TAGS item)).

(** [_extract_education]. *)
Definition _extract_education (soup : element) (pd : ProfileData.t)
    : ProfileData.t :=
  match _find_section_by_header soup (SECTION_HEADERS "education") with
  | None => pd
  | Some education_section =>
      let list_items := _get_list_items_from_section education_section in
      ProfileData.set_education
        (ProfileData.education pd ++
         filter (fun education => truthy (Education.institution_name education))
                (map _parse_education_item list_items)) pd
  end.

(** *** Skills *)

(** One turn of the loop of [_extract_skills] on a normalized text. *)
Definition skills_step (skills : list str) (text : str) : list str :=
  if (2 <? length text) && (length text <? 50) &&
     negb (mem (lower text) [py "skills"; py "endorsements"])
  then if negb (mem text skills) && negb (existsb (contains text) skills)
       then skills ++ [text]
       else skills
  else skills.

(** The loop of [_extract_skills] over the normalized texts, from
    [skills = []]. *)
Definition skills_of (fragments : list str) : list str :=
  fold_left skills_step fragments [].

(** [_extract_skills]. *)
Definition _extract_skills (soup : element) (pd : ProfileData.t)
    : ProfileData.t :=
  match _find_section_by_header soup (SECTION_HEADERS "skills") with
  | None => pd
  | Some skills_section =>
      ProfileData.set_skills
        (skills_of (texts (fun _ => true)
                          (find_all ["span"; "div"; "li"; "p"] skills_section))) pd
  end.

(** *** Certifications *)

(** One turn of the last loop of [_parse_certification_item], on the
    dates found so far. *)
Definition certification_dates (dates : option str * option str) (text : str)
    : option str * option str :=
  if found true Patterns.issued_or_expires_pattern text then
    (match Re.search true Patterns.issued_pattern text with
     | Some issued_match => Re.group issued_match 1
     | None => fst dates
     end,
     match Re.search true Patterns.expires_pattern text with
     | Some expires_match => Re.group expires_match 1
     | None => snd dates
     end)
  else dates.

Definition certification_rules (text_elements : list str) : Certification.t :=
  match text_elements with
  | [] =>
      {| Certification.name := None; Certification.issuing_organization := None;
         Certification.issue_date := None; Certification.expiration_date := None |}
  | name :: text_elements =>
      let '(issuing_organization, text_elements) := shift text_elements in
      let '(issue_date, expiration_date) :=
        fold_left certification_dates text_elements (None, None) in
      {| Certification.name := Some name;
         Certification.issuing_organization := issuing_organization;
         Certification.issue_date := issue_date;
         Certification.expiration_date := expiration_date |}
  end.

(** [_parse_certification_item]. *)
Definition _parse_certification_item (item : element) : Certification.t :=
  certification_rules (texts (fun _ => true) (find_all FRAGMENT_TAGS item)).

(** [_extract_certifications]. *)
Definition _extract_certifications (soup : element) (pd : ProfileData.t)
    : ProfileData.t :=
  match _find_section_by_header soup (SECTION_HEADERS "certifications") with
  | None => pd
  | Some cert_section =>
      let list_items := _get_list_items_from_section cert_section in
      ProfileData.set_certifications
        (ProfileData.certifications pd ++
         filter (fun cert => truthy (Certification.name cert))
                (map _parse_certification_item list_items)) pd
  end.

(** *** Projects *)

Definition project_rules (text_elements : list str) : Project.t :=
  match text_elements with
  | [] =>
      {| Project.project_name := None; Project.role := None;
         Project.description := None; Project.associated_dates := None |}
  | project_name :: text_elements =>
      let '(associated_dates, text_elements) :=
        take_first (found true Patterns.dated_pattern) text_elements in
      {| Project.project_name := Some project_name;
         Project.role := None;
         Project.description := find (fun text => 30 <? length text) text_elements;
         Project.associated_dates := associated_dates |}
  end.

(** [_parse_project_item]. *)
Definition _parse_project_item (item : element) : Project.t :=
  project_rules (texts (fun _ => true) (find_all FRAGMENT_TAGS item)).

(** [_extract_projects]. *)
Definition _extract_projects (soup : element) (pd : ProfileData.t)
    : ProfileData.t :=
  match _find_section_by_header soup (SECTION_HEADERS "projects") with
  | None => pd
  | Some projects_section =>
      let list_items := _get_list_items_from_section projects_section in
      ProfileData.set_projects
        (ProfileData.projects pd ++
         filter (fun project => truthy (Project.project_name project))
                (map _parse_project_item list_items)) pd
  end.

(** *** Honors and awards *)

Definition honor_rules (text_elements : list str) : Honor.t :=
  match text_elements with
  | [] =>
      {| Honor.title := None; Honor.issuer := None;
         Honor.date := None; Honor.description := None |}
  | title :: text_elements =>
      let '(issuer, text_elements) := shift text_elements in
      let '(date, text_elements) :=
        take_first (found true Patterns.dated_pattern) text_elements in
      {| Honor.title := Some title;
         Honor.issuer := issuer;
         Honor.date := date;
         Honor.description := find (fun text => 20 <? length text) text_elements |}
  end.

(** [_parse_honor_item]. *)
Definition _parse_honor_item (item : element) : Honor.t :=
  honor_rules (texts (fun _ => true) (find_all FRAGMENT_TAGS item)).

(** [_extract_honors_awards]. *)
Definition _extract_honors_awards (soup : element) (pd : ProfileData.t)
    : ProfileData.t :=
  match _find_section_by_header soup (SECTION_HEADERS "honors") with
  | None => pd
  | Some honors_section =>
      let list_items := _get_list_items_from_section honors_section in
      ProfileData.set_honors_awards
        (ProfileData.honors_awards pd ++
         filter (fun honor => truthy (Honor.title honor))
                (map _parse_honor_item list_items)) pd
  end.

(** *** Volunteering *)

Definition volunteer_rules (text_elements : list str) : Volunteer.t :=
  match text_elements with
  | [] =>
      {| Volunteer.organization := None; Volunteer.role := None;
         Volunteer.cause := None; Volunteer.date_range := None;
         Volunteer.description := None |}
  | role :: text_elements =>
      let '(organization, text_elements) := shift text_elements in
      let '(date_range, text_elements) :=
        take_first (found true Patterns.dated_or_present_pattern) text_elements in
      let '(cause, text_elements) :=
        take_first (fun text =>
                      contains (py "cause") (lower text) ||
                      any_in [py "Education"; py "Environment"; py "Health"] text)
                   text_elements in
      {| Volunteer.organization := organization;
         Volunteer.role := Some role;
         Volunteer.cause := cause;
         Volunteer.date_range := date_range;
         Volunteer.description := find (fun text => 30 <? length text) text_elements |}
  end.

(** [_parse_volunteer_item]. *)
Definition _parse_volunteer_item (item : element) : Volunteer.t :=
  volunteer_rules (texts (fun _ => true) (find_all FRAGMENT_TAGS item)).

(** [_extract_volunteering]. *)
Definition _extract_volunteering (soup : element) (pd : ProfileData.t)
    : ProfileData.t :=
  match _find_section_by_header soup (SECTION_HEADERS "volunteering") with
  | None => pd
  | Some volunteering_section =>
      let list_items := _get_list_items_from_section volunteering_section in
      ProfileData.set_volunteering
        (ProfileData.volunteering pd ++
         filter (fun volunteer => truthy (Volunteer.organization volunteer))
                (map _parse_volunteer_item list_items)) pd
  end.

(** *** The orchestrator *)

(** [extract], on the structure [__init__] has just initialized. *)
Definition extract (soup : element) : ProfileData.t :=
  let pd := _initialize_structure in
  let pd := _extract_basic_profile soup pd in
  let pd := _extract_experience soup pd in
  let pd := _extract_education soup pd in
  let pd := _extract_skills soup pd in
  let pd := _extract_certifications soup pd in
  let pd := _extract_projects soup pd in
  let pd := _extract_honors_awards soup pd in
  let pd := _extract_volunteering soup pd in
  pd.
End Extractor.

(** ** Vocabulary of the properties *)

Section Vocabulary.
Context {U : Unicode}.

(** The sub-blocks of the section that [_extract_<key>] works on, none
    when the section is not found. *)
Definition list_items_of (soup : Soup.element) (key : string) : list Soup.element :=
  match _find_section_by_header soup (SECTION_HEADERS key) with
  | Some section => _get_list_items_from_section section
  | None => []
  end.

(** What the length and name tests of the skills loop let through. *)
Definition skill_shaped (text : str) : Prop :=
  2 < length text /\ length text < 50 /\
  lower text <> py "skills" /\ lower text <> py "endorsements".

(** No accepted skill occurs inside one accepted before it. *)
Definition ordered_apart (skills : list str) : Prop :=
  forall pre x post, skills = pre ++ x :: post ->
  forall y, In y pre -> contains x y = false.

(** The skills dedup as the specification words it: the list never holds
    both a fragment and another fragment that contains it. *)
Definition free_of_substrings (skills : list str) : Prop :=
  forall a b, In a skills -> In b skills -> a <> b -> contains a b = false.

(** A field that is set to a non-empty text. *)
Definition non_empty (field : option str) : Prop :=
  exists text, field = Some text /\ text <> [].


(** The tags [_find_section_by_header] scans. *)
Definition HEADER_TAGS : list string := ["h2"; "h3"; "h4"; "span"; "div"].

(** The normalized, lower-cased text of [elem] equals a keyword or
    starts with one. *)
Definition matches_header (header_keywords : list str) (elem : Soup.element) : Prop :=
  exists text keyword,
    _normalize_text (Soup.get_text elem) = Some text /\
    In keyword header_keywords /\
    (lower text = lower keyword \/
     startswith (lower text) (lower keyword) = true).

Definition header_matches (header_keywords : list str) (elem : Soup.element) : bool :=
  match _normalize_text (Soup.get_text elem) with
  | Some text =>
      existsb (fun keyword =>
                 str_eqb (lower text) (lower keyword) ||
                 startswith (lower text) (lower keyword)) header_keywords
  | None => false
  end.

(** The container lookup of the locator, as the source calls it. *)
Definition container_of (elem : Soup.element) : option Soup.element :=
  Soup.find_parent ["section"; "div"] ["recursive"] elem.

(** The section locator as the specification words it: the first node
    that matches decides, and the result is its nearest [section] or [div]
    ancestor. *)
Definition spec_find_section (soup : Soup.element) (header_keywords : list str)
    : option Soup.element :=
  match find (header_matches header_keywords) (Soup.find_all HEADER_TAGS soup) with
  | Some elem => Soup.find_parent ["section"; "div"] [] elem
  | None => None
  end.

(** A fragment the job title rule accepts. *)
Definition title_like (text : str) : Prop :=
  3 < length text /\
  contains (py "experience") (lower text) = false /\
  contains [MIDDLE_DOT] (lower text) = false.

(** An experience whose end date is "Present" in any case. *)
Definition ends_present (exp : Experience.t) : Prop :=
  exists end_date, Experience.end_date exp = Some end_date /\
                   end_date <> [] /\ lower end_date = py "present".
End Vocabulary.

(** *** The shapes of the date grammar *)

Definition is_letter (c : char) : bool := in_range 65 90 c || in_range 97 122 c.
Definition is_digit (c : char) : bool := in_range 48 57 c.

(** [YYYY]: four digits. *)
Definition is_year (y : str) : Prop :=
  exists d1 d2 d3 d4, y = [d1; d2; d3; d4] /\
    is_digit d1 = true /\ is_digit d2 = true /\ is_digit d3 = true /\ is_digit d4 = true.

(** [Month YYYY]: a word of letters, a space, four digits. *)
Definition is_month_year (s : str) : Prop :=
  exists c w y, s = (c :: w) ++ SPACE :: y /\
    Forall (fun c => is_letter c = true) (c :: w) /\ is_year y.

Definition is_date (s : str) : Prop := is_month_year s \/ is_year s.

(** "Present" in any case. *)
Definition says_present (e : str) : Prop := map ascii_lower e = py "present".

Definition is_end (e : str) : Prop := is_date e \/ says_present e.

Definition is_dash (c : char) : Prop := c = HYPHEN \/ c = EN_DASH.

(** Whitespace, possibly none. *)
Definition is_gap (g : str) : Prop :=
  Forall (fun c => isspace (Unicode := basic_latin) c = true) g.

(** The cursor after the characters [w], when the text goes on with [t]. *)
Fixpoint over (w t : str) (st : Re.cursor) : Re.cursor :=
  match w with
  | [] => st
  | c :: w' => over w' t (Re.advance c (w' ++ t) st)
  end.

(** Membership in a character set under [re.IGNORECASE]. *)
Definition in_set (items : list Re.item) (c : char) : bool :=
  existsb (fun i => Re.item_matches (U := basic_latin) true i c) items.

(** A text that does not begin with whitespace. *)
Definition solid (s : str) : Prop :=
  match s with
  | c :: _ => isspace (Unicode := basic_latin) c = false
  | [] => True
  end.

(** A text without a middle dot. *)
Definition dotless (s : str) : Prop := Forall (fun c => c <> MIDDLE_DOT) s.


(** A duration: a text without middle dot or newline that begins and ends
    with something else than whitespace. *)
Definition is_duration (d : str) : Prop :=
  d <> [] /\ solid d /\ solid (rev d) /\ dotless d /\ Forall (fun c => c <> NEWLINE) d.

(** What may follow a duration: the end of the text, or a gap and a middle
    dot. *)
Definition is_closer (t : str) : Prop :=
  t = [] \/ exists g r, is_gap g /\ t = g ++ MIDDLE_DOT :: r.

(** The tests of [\s] and of [.]. *)
Definition sp (c : char) : bool :=
  existsb (fun i => Re.item_matches (U := basic_latin) false i c) [Re.ISpace].
Definition dot (c : char) : bool := negb (c =? NEWLINE)%N.

(** [(?:\s*·|$)], the end of [duration_pattern]. *)
Definition closer_pattern : Re.pattern :=
  Re.Alt (Re.Seq (Re.Star true Re.space) (Re.Chr MIDDLE_DOT)) Re.Eol.

(** ** Example documents *)

Module Examples.
Import Soup.

(** [<name>text</name>]. *)
Definition leaf (name text : string) : node := Tag name [] [NavigableString (py text)].

(** [<name recursive="">...</name>]: a tag that carries the attribute the
    container lookup of the locator asks for. *)
Definition box (name : string) (contents : list node) : node :=
  Tag name [("recursive", [])] contents.

(** The handle of a node whose ancestors are [above], nearest first. *)
Definition at_ (n : node) (above : list node) : element :=
  {| node_of := n; parents := above |}.

Definition python : str := py "Python".
Definition python_programming : str := py "Python Programming".
Definition sql : str := py "SQL".

(** [<div recursive=""><h2>Skills</h2><li>Python</li>
    <li>Python Programming</li><li>SQL</li></div>]. *)
Definition skills_document : element :=
  BeautifulSoup
    [box "div" [leaf "h2" "Skills"; leaf "li" "Python";
                leaf "li" "Python Programming"; leaf "li" "SQL"]].

Definition engineer_item : node :=
  Tag "li" []
    [leaf "span" "Software Engineer"; leaf "span" "Acme Corp";
     leaf "span" "Full-time";
     Tag "span" [] [NavigableString
                      (py "Jan 2020 - Present " ++ [MIDDLE_DOT] ++ py " 3 yrs")];
     leaf "span" "Remote"].

Definition intern_item : node :=
  Tag "li" [] [leaf "span" "Intern"; leaf "span" "Beta Inc";
               leaf "span" "Jun 2018 - Aug 2018"].

(** A list item whose only text is whitespace. *)
Definition blank_item : node := Tag "li" [] [leaf "span" "   "].

(** The end-to-end scenario of the specification, with a blank third item. *)
Definition experience_document : element :=
  BeautifulSoup
    [box "div" [leaf "h2" "Experience";
                Tag "ul" [] [engineer_item; intern_item; blank_item]]].

(** [<div recursive=""><h2>Education</h2></div>]. *)
Definition education_div : node := box "div" [leaf "h2" "Education"].
Definition education_document : element := BeautifulSoup [education_div].

(** [<section recursive=""><div recursive=""><h2>Education</h2><p>MIT</p>
    </div></section>]. *)
Definition school_div : node := box "div" [leaf "h2" "Education"; leaf "p" "MIT"].
Definition school_section : node := box "section" [school_div].
Definition school_document : element := BeautifulSoup [school_section].

(** The same document without the attribute:
    [<section><div><h2>Education</h2><p>MIT</p></div></section>]. *)
Definition plain_school_document : element :=
  BeautifulSoup
    [Tag "section" [] [Tag "div" [] [leaf "h2" "Education"; leaf "p" "MIT"]]].

(** A section laid out as repeated [div]s: the first [div] holds no
    [div], the second holds two. *)
Definition card (text : string) : node := Tag "div" [] [leaf "p" text].
Definition lone_div : node := Tag "div" [] [leaf "span" "Education"].
Definition cards_div : node :=
  Tag "div" [] [card "MIT"; card "ETH"; leaf "p" "more"].
Definition cards_section : element :=
  at_ (Tag "section" [] [lone_div; cards_div]) [].

Definition list_section : element :=
  at_ (Tag "div" [] [leaf "h2" "Experience";
                     Tag "ul" [] [engineer_item; intern_item];
                     Tag "div" [] [card "a"; card "b"]]) [].

Definition plain_section : element :=
  at_ (Tag "div" [] [leaf "h2" "Projects"; Tag "div" [] [leaf "p" "none yet"]]) [].

(** [<li><span>MIT</span><span>years</span></li>]. *)
Definition school_item (years : string) : element :=
  at_ (Tag "li" [] [leaf "span" "MIT"; leaf "span" years]) [].

(** "Jan 2019 - Present · 3 yrs 2 mos ·". *)
Definition dated_line : str :=
  py "Jan 2019 - Present " ++ [MIDDLE_DOT] ++ py " 3 yrs 2 mos " ++ [MIDDLE_DOT].

(** The handle of the [k]-th sub-block of the section [key]. *)
Definition item_of (soup : element) (key : string) (k : nat) : element :=
  nth k (list_items_of (U := basic_latin) soup key)
        {| node_of := NavigableString []; parents := [] |}.
End Examples.

(** ** Vocabulary of the further properties *)

Section Shapes.
Context {U : Unicode}.

(** A text that does not begin with whitespace. *)
Definition edge_solid (s : str) : Prop :=
  match s with
  | c :: _ => isspace c = false
  | [] => True
  end.

(** Every whitespace character of the text is a single space between two
    other characters; [in_run] says that whitespace came just before. *)
Fixpoint spaced (in_run : bool) (s : str) : Prop :=
  match s with
  | [] => True
  | c :: s' =>
      if isspace c then c = SPACE /\ in_run = false /\ spaced true s'
      else spaced false s'
  end.

(** A text of whitespace only, the empty text among them. *)
Definition blank (s : str) : Prop := Forall (fun c => isspace c = true) s.

(** The shape of a normalized text. *)
Definition normal (s : str) : Prop :=
  s <> [] /\ edge_solid s /\ edge_solid (rev s) /\ spaced false s.
End Shapes.

(** The groups [g'] are the groups [g] and those closed since. *)
Definition grown (g g' : list (nat * str)) : Prop := exists more, g' = more ++ g.

(** The fragments of a sub-block: the normalized texts of its
    [span], [div], [p], [h3] and [h4] tags, in document order. A text that
    sits in nested tags is there once for each of them. *)
Definition fragments {U : Unicode} (item : Soup.element) : list str :=
  texts (fun _ => true) (Soup.find_all FRAGMENT_TAGS item).

(** What a date of a certification was read from: a text of [l] that the
    pattern of the date matches, the date being the first group. *)
Definition read_from {U : Unicode} (r : Re.pattern) (l : list str)
    (date : option str) : Prop :=
  forall d, date = Some d ->
  exists text m, In text l /\ Re.search true r text = Some m /\ Re.group m 1 = Some d.

(** [s] is [l] with some elements left out, the order of the others kept. *)
Inductive subsequence {A : Type} : list A -> list A -> Prop :=
| subsequence_nil : subsequence [] []
| subsequence_keep (x : A) (s l : list A) :
    subsequence s l -> subsequence (x :: s) (x :: l)
| subsequence_skip (x : A) (s l : list A) :
    subsequence s l -> subsequence s (x :: l).

(** No tag of the tree [n] has an attribute named [key]. *)
Fixpoint lacks (key : string) (n : Soup.node) : bool :=
  match n with
  | Soup.NavigableString _ => true
  | Soup.Tag _ attrs contents =>
      negb (existsb (fun a => String.eqb (fst a) key) attrs) &&
      forallb (lacks key) contents
  end.

Section Consumption.
Context {U : Unicode}.
Variable ic : bool.
Variable ok : char -> Prop.

(** Every character that the pattern can take satisfies [ok]. *)
Fixpoint eats (r : Re.pattern) : Prop :=
  match r with
  | Re.Chr p => forall c, Re.chr_matches ic p c = true -> ok c
  | Re.Set_ items =>
      forall c, existsb (fun i => Re.item_matches ic i c) items = true -> ok c
  | Re.Dot => forall c, (c =? NEWLINE)%N = false -> ok c
  | Re.Seq a b | Re.Alt a b => eats a /\ eats b
  | Re.Star _ a | Re.Group _ a => eats a
  | _ => True
  end.

(** The matcher went from [st] to [st'] over characters that satisfy [ok]. *)
Definition fed (st st' : Re.cursor) : Prop :=
  exists w, Re.rest st = w ++ Re.rest st' /\ Forall ok w.
End Consumption.

(** A character of a place line: a word character, a space or a comma. *)
Definition place_char {U : Unicode} (c : char) : Prop :=
  Re.isword c = true \/ c = SPACE \/ c = COMMA.

(** ** Further sample documents *)

Module Samples.
Import Soup.
Import Examples.

Definition licence_item : node :=
  Tag "li" []
    [leaf "span" "Cloud Architect"; leaf "span" "Acme Academy";
     leaf "span" "Issued Jan 2020"; leaf "span" "Expires Feb 2023"].

(** [<div recursive=""><h2>Certifications</h2><ul>] two items [</ul></div>],
    the second item blank. *)
Definition licences_document : element :=
  BeautifulSoup
    [box "div" [leaf "h2" "Certifications"; Tag "ul" [] [licence_item; blank_item]]].

Definition tutor_item : node :=
  Tag "li" [] [leaf "span" "Tutor"; leaf "span" "City Library"].

(** A sub-block that names a role and nothing else. *)
Definition lone_role_item : node := Tag "li" [] [leaf "span" "Tutor"].

Definition volunteering_document : element :=
  BeautifulSoup
    [box "div" [leaf "h2" "Volunteering"; Tag "ul" [] [tutor_item; lone_role_item]]].
(** A profile page: the name block, and an about section that has the
    attribute the locator asks for. *)
Definition profile_document : element :=
  BeautifulSoup
    [Tag "div" []
       [leaf "h1" "Ada Lovelace";
        leaf "p" "Analyst of the Analytical Engine.";
        leaf "span" "London, United Kingdom"];
     box "section"
       [leaf "h2" "About";
        leaf "p" "I write programs for engines.";
        leaf "p" "Numbers are my second language";
        leaf "p" "I study the flight of birds too"]].
(** [<div><p>MIT</p><h2>Education</h2></div>]: an ordinary page, no tag
    of which has an attribute named [recursive]. The [h2] is the only
    scanned node that matches "education". *)
Definition plain_heading_div : node :=
  Tag "div" [] [leaf "p" "MIT"; leaf "h2" "Education"].
Definition plain_heading_document : element := BeautifulSoup [plain_heading_div].

(** [<div recursive=""><div><h2>Intro</h2><h3>Education</h3></div></div>]:
    the nearest [div] above the heading has no attribute [recursive], the
    one above it has. *)
Definition inner_div : node :=
  Tag "div" [] [leaf "h2" "Intro"; leaf "h3" "Education"].
Definition outer_div : node := box "div" [inner_div].
Definition nested_document : element := BeautifulSoup [outer_div].

End Samples.

(** * Properties *)

(** ** Strings and lists *)

Lemma str_eqb_eq (a b : str) : str_eqb a b = true <-> a = b.
Proof.
  revert b; induction a as [|x a IH]; intros [|y b]; simpl;
    try (split; [discriminate | discriminate]); try tauto.
  rewrite andb_true_iff, N.eqb_eq, IH.
  split; [intros [-> ->]; reflexivity | intros E; inversion E; auto].
Qed.

Lemma str_eqb_refl (a : str) : str_eqb a a = true.
Proof. apply str_eqb_eq; reflexivity. Qed.

Lemma str_eqb_neq (a b : str) : str_eqb a b = false <-> a <> b.
Proof.
  rewrite <- str_eqb_eq. destruct (str_eqb a b); split; congruence.
Qed.

Lemma mem_false (x : str) (l : list str) :
  mem x l = false <-> forall y, In y l -> x <> y.
Proof.
  unfold mem; induction l as [|z l IH]; simpl.
  - split; [intros _ y [] | reflexivity].
  - rewrite orb_false_iff, IH, str_eqb_neq. split.
    + intros [Hz Hl] y [<-|Hy]; auto.
    + intros H; split; [apply H; auto | intros y Hy; apply H; auto].
Qed.

Lemma startswith_refl (a : str) : startswith a a = true.
Proof. induction a as [|x a IH]; simpl; [|rewrite N.eqb_refl]; auto. Qed.

Lemma contains_refl (a : str) : contains a a = true.
Proof. destruct a; simpl; [reflexivity|]. rewrite N.eqb_refl, startswith_refl. reflexivity. Qed.

(** A list that ends with [x] splits either inside its front or at [x]. *)
Lemma snoc_split {A} (l pre post : list A) (x y : A) :
  l ++ [x] = pre ++ y :: post ->
  (post = [] /\ y = x /\ pre = l) \/
  (exists post', post = post' ++ [x] /\ l = pre ++ y :: post').
Proof.
  intros E. destruct (exists_last (l := y :: post)) as [post' [z Ez]]; [discriminate|].
  rewrite Ez, app_assoc in E. apply app_inj_tail in E as [El <-].
  destruct post' as [|w post'].
  - left. inversion Ez; subst. rewrite app_nil_r. auto.
  - right. inversion Ez; subst. exists post'.
    split; [reflexivity|]. reflexivity.
Qed.

Lemma find_split {A} (p : A -> bool) (l : list A) (x : A) :
  find p l = Some x <->
  exists pre post, l = pre ++ x :: post /\ p x = true /\
                   forall y, In y pre -> p y = false.
Proof.
  induction l as [|a l IH]; simpl.
  - split; [discriminate | intros (pre & post & E & _); destruct pre; discriminate].
  - destruct (p a) eqn:Ha.
    + split.
      * intros E; inversion E; subst. exists [], l. simpl; intuition.
      * intros (pre & post & E & Hx & Hpre). destruct pre as [|b pre].
        -- inversion E; reflexivity.
        -- inversion E; subst. rewrite (Hpre b) in Ha; [discriminate | left; auto].
    + rewrite IH. split.
      * intros (pre & post & -> & Hx & Hpre). exists (a :: pre), post.
        simpl; repeat split; auto. intros y [<-|Hy]; auto.
      * intros (pre & post & E & Hx & Hpre). destruct pre as [|b pre].
        -- inversion E; subst. congruence.
        -- inversion E; subst. exists pre, post. repeat split; auto.
           intros y Hy; apply Hpre; right; auto.
Qed.

Lemma find_none_iff {A} (p : A -> bool) (l : list A) :
  find p l = None <-> forall y, In y l -> p y = false.
Proof.
  split; [apply find_none|].
  induction l as [|a l IH]; simpl; intros H; [reflexivity|].
  rewrite (H a) by auto. apply IH; auto.
Qed.

(** ** The skills loop *)

Section Skills.
Context {U : Unicode}.

Lemma skills_step_cases (skills : list str) (text : str) :
  skills_step skills text = skills \/
  (skills_step skills text = skills ++ [text] /\ skill_shaped text /\
   forall y, In y skills -> contains text y = false).
Proof.
  unfold skills_step.
  destruct (2 <? length text) eqn:H2; cbn [andb negb]; auto.
  destruct (length text <? 50) eqn:H50; cbn [andb negb]; auto.
  destruct (mem (lower text) [py "skills"; py "endorsements"]) eqn:Hm;
    cbn [andb negb]; auto.
  destruct (mem text skills); cbn [andb negb]; auto.
  destruct (existsb (contains text) skills) eqn:He; cbn [andb negb]; auto.
  right. split; [reflexivity|]. split.
  - apply Nat.ltb_lt in H2, H50. rewrite mem_false in Hm.
    repeat split; auto; apply Hm; simpl; auto.
  - intros y Hy. destruct (contains text y) eqn:Hc; auto.
    assert (existsb (contains text) skills = true) by (apply existsb_exists; eauto).
    congruence.
Qed.

Lemma skills_loop_invariant (fragments skills : list str) :
  ordered_apart skills -> Forall skill_shaped skills ->
  let skills' := fold_left skills_step fragments skills in
  ordered_apart skills' /\ Forall skill_shaped skills' /\
  incl skills' (skills ++ fragments).
Proof.
  revert skills; induction fragments as [|text fragments IH]; intros skills Ho Hs;
    cbn [fold_left]; cbv zeta.
  - rewrite app_nil_r. repeat split; auto. apply incl_refl.
  - destruct (skills_step_cases skills text) as [-> | (-> & Hshape & Hnew)].
    + destruct (IH skills Ho Hs) as (H1 & H2 & H3). repeat split; auto.
      intros x Hx. apply H3 in Hx. apply in_app_or in Hx as [Hx|Hx];
        apply in_or_app; [left | right; right]; auto.
    + destruct (IH (skills ++ [text])) as (H1 & H2 & H3).
      * intros pre x post E y Hy.
        apply snoc_split in E as [(-> & -> & ->) | (post' & -> & ->)]; eauto.
      * apply Forall_app; split; auto.
      * repeat split; auto. intros x Hx. apply H3 in Hx.
        rewrite <- app_assoc in Hx. exact Hx.
Qed.

Lemma skills_of_invariant (fragments : list str) :
  ordered_apart (skills_of fragments) /\
  Forall skill_shaped (skills_of fragments) /\
  incl (skills_of fragments) fragments.
Proof.
  apply (skills_loop_invariant fragments []); [|constructor].
  intros pre x post E. destruct pre; discriminate.
Qed.
End Skills.

(** ** What [extract] leaves in each field *)

Section Orchestrator.
Context {U : Unicode}.

Lemma set_education_id (pd : ProfileData.t) :
  ProfileData.set_education (ProfileData.education pd ++ []) pd = pd.
Proof. destruct pd; unfold ProfileData.set_education; simpl. rewrite app_nil_r. reflexivity. Qed.

Lemma set_certifications_id (pd : ProfileData.t) :
  ProfileData.set_certifications (ProfileData.certifications pd ++ []) pd = pd.
Proof. destruct pd; unfold ProfileData.set_certifications; simpl. rewrite app_nil_r. reflexivity. Qed.

Lemma set_projects_id (pd : ProfileData.t) :
  ProfileData.set_projects (ProfileData.projects pd ++ []) pd = pd.
Proof. destruct pd; unfold ProfileData.set_projects; simpl. rewrite app_nil_r. reflexivity. Qed.

Lemma set_honors_awards_id (pd : ProfileData.t) :
  ProfileData.set_honors_awards (ProfileData.honors_awards pd ++ []) pd = pd.
Proof. destruct pd; unfold ProfileData.set_honors_awards; simpl. rewrite app_nil_r. reflexivity. Qed.

Lemma set_volunteering_id (pd : ProfileData.t) :
  ProfileData.set_volunteering (ProfileData.volunteering pd ++ []) pd = pd.
Proof. destruct pd; unfold ProfileData.set_volunteering; simpl. rewrite app_nil_r. reflexivity. Qed.

(** Each of the extractors after [_extract_experience] writes one list. *)
Lemma _extract_education_sets (soup : Soup.element) (pd : ProfileData.t) :
  _extract_education soup pd =
  ProfileData.set_education
    (ProfileData.education pd ++
     filter (fun education => truthy (Education.institution_name education))
            (map _parse_education_item (list_items_of soup "education"))) pd.
Proof.
  unfold _extract_education, list_items_of.
  destruct (_find_section_by_header soup (SECTION_HEADERS "education"));
    [reflexivity | symmetry; apply set_education_id].
Qed.

Lemma _extract_skills_sets (soup : Soup.element) (pd : ProfileData.t) :
  _extract_skills soup pd =
  ProfileData.set_skills
    (match _find_section_by_header soup (SECTION_HEADERS "skills") with
     | Some skills_section =>
         skills_of (texts (fun _ => true)
                          (Soup.find_all ["span"; "div"; "li"; "p"] skills_section))
     | None => ProfileData.skills pd
     end) pd.
Proof.
  unfold _extract_skills.
  destruct (_find_section_by_header soup (SECTION_HEADERS "skills"));
    [reflexivity | destruct pd; reflexivity].
Qed.

Lemma _extract_certifications_sets (soup : Soup.element) (pd : ProfileData.t) :
  _extract_certifications soup pd =
  ProfileData.set_certifications
    (ProfileData.certifications pd ++
     filter (fun cert => truthy (Certification.name cert))
            (map _parse_certification_item (list_items_of soup "certifications"))) pd.
Proof.
  unfold _extract_certifications, list_items_of.
  destruct (_find_section_by_header soup (SECTION_HEADERS "certifications"));
    [reflexivity | symmetry; apply set_certifications_id].
Qed.

Lemma _extract_projects_sets (soup : Soup.element) (pd : ProfileData.t) :
  _extract_projects soup pd =
  ProfileData.set_projects
    (ProfileData.projects pd ++
     filter (fun project => truthy (Project.project_name project))
            (map _parse_project_item (list_items_of soup "projects"))) pd.
Proof.
  unfold _extract_projects, list_items_of.
  destruct (_find_section_by_header soup (SECTION_HEADERS "projects"));
    [reflexivity | symmetry; apply set_projects_id].
Qed.

Lemma _extract_honors_awards_sets (soup : Soup.element) (pd : ProfileData.t) :
  _extract_honors_awards soup pd =
  ProfileData.set_honors_awards
    (ProfileData.honors_awards pd ++
     filter (fun honor => truthy (Honor.title honor))
            (map _parse_honor_item (list_items_of soup "honors"))) pd.
Proof.
  unfold _extract_honors_awards, list_items_of.
  destruct (_find_section_by_header soup (SECTION_HEADERS "honors"));
    [reflexivity | symmetry; apply set_honors_awards_id].
Qed.

Lemma _extract_volunteering_sets (soup : Soup.element) (pd : ProfileData.t) :
  _extract_volunteering soup pd =
  ProfileData.set_volunteering
    (ProfileData.volunteering pd ++
     filter (fun volunteer => truthy (Volunteer.organization volunteer))
            (map _parse_volunteer_item (list_items_of soup "volunteering"))) pd.
Proof.
  unfold _extract_volunteering, list_items_of.
  destruct (_find_section_by_header soup (SECTION_HEADERS "volunteering"));
    [reflexivity | symmetry; apply set_volunteering_id].
Qed.

(** [_extract_basic_profile] writes no list and leaves the company alone. *)
Lemma _extract_basic_profile_keeps (soup : Soup.element) (pd : ProfileData.t) :
  let pd' := _extract_basic_profile soup pd in
  ProfileData.experience pd' = ProfileData.experience pd /\
  ProfileData.education pd' = ProfileData.education pd /\
  ProfileData.skills pd' = ProfileData.skills pd /\
  ProfileData.certifications pd' = ProfileData.certifications pd /\
  ProfileData.projects pd' = ProfileData.projects pd /\
  ProfileData.honors_awards pd' = ProfileData.honors_awards pd /\
  ProfileData.volunteering pd' = ProfileData.volunteering pd /\
  BasicProfile.current_company (ProfileData.basic_profile pd') =
  BasicProfile.current_company (ProfileData.basic_profile pd).
Proof. repeat split. Qed.

(** [_extract_experience] on a structure that has no experience yet. *)
Lemma _extract_experience_fresh (soup : Soup.element) (pd : ProfileData.t) :
  ProfileData.experience pd = [] ->
  let pd' := _extract_experience soup pd in
  ProfileData.experience pd' =
    filter (fun experience => truthy (Experience.job_title experience))
           (map _parse_experience_item (list_items_of soup "experience")) /\
  ProfileData.education pd' = ProfileData.education pd /\
  ProfileData.skills pd' = ProfileData.skills pd /\
  ProfileData.certifications pd' = ProfileData.certifications pd /\
  ProfileData.projects pd' = ProfileData.projects pd /\
  ProfileData.honors_awards pd' = ProfileData.honors_awards pd /\
  ProfileData.volunteering pd' = ProfileData.volunteering pd /\
  BasicProfile.current_company (ProfileData.basic_profile pd') =
    match find is_present (ProfileData.experience pd') with
    | Some exp => Experience.company_name exp
    | None => BasicProfile.current_company (ProfileData.basic_profile pd)
    end.
Proof.
  intros Hnil. unfold _extract_experience, list_items_of.
  destruct (_find_section_by_header soup (SECTION_HEADERS "experience")) as [section|];
    cbv zeta.
  - cbn [ProfileData.experience ProfileData.education ProfileData.skills
         ProfileData.certifications ProfileData.projects ProfileData.honors_awards
         ProfileData.volunteering ProfileData.basic_profile
         ProfileData.set_basic_profile ProfileData.set_experience].
    rewrite Hnil. cbn [app]. repeat split.
    unfold derive_current_company.
    destruct (find is_present _); reflexivity.
  - rewrite Hnil. repeat split.
Qed.

Ltac later_extractors soup :=
  unfold extract;
  rewrite _extract_volunteering_sets, _extract_honors_awards_sets,
    _extract_projects_sets, _extract_certifications_sets,
    _extract_skills_sets, _extract_education_sets;
  cbn [ProfileData.experience ProfileData.education ProfileData.skills
       ProfileData.certifications ProfileData.projects ProfileData.honors_awards
       ProfileData.volunteering ProfileData.basic_profile
       ProfileData.set_education ProfileData.set_skills
       ProfileData.set_certifications ProfileData.set_projects
       ProfileData.set_honors_awards ProfileData.set_volunteering];
  pose proof (_extract_basic_profile_keeps soup _initialize_structure)
    as (Bx & Be & Bs & Bc & Bp & Bh & Bv & Bcc);
  pose proof (_extract_experience_fresh soup
                (_extract_basic_profile soup _initialize_structure) Bx)
    as (Xx & Xe & Xs & Xc & Xp & Xh & Xv & Xcc);
  cbv zeta in *.

Lemma extract_experience (soup : Soup.element) :
  ProfileData.experience (extract soup) =
  filter (fun experience => truthy (Experience.job_title experience))
         (map _parse_experience_item (list_items_of soup "experience")).
Proof. later_extractors soup. exact Xx. Qed.

Lemma extract_education (soup : Soup.element) :
  ProfileData.education (extract soup) =
  filter (fun education => truthy (Education.institution_name education))
         (map _parse_education_item (list_items_of soup "education")).
Proof. later_extractors soup. rewrite Xe, Be. reflexivity. Qed.

Lemma extract_certifications (soup : Soup.element) :
  ProfileData.certifications (extract soup) =
  filter (fun cert => truthy (Certification.name cert))
         (map _parse_certification_item (list_items_of soup "certifications")).
Proof. later_extractors soup. rewrite Xc, Bc. reflexivity. Qed.

Lemma extract_projects (soup : Soup.element) :
  ProfileData.projects (extract soup) =
  filter (fun project => truthy (Project.project_name project))
         (map _parse_project_item (list_items_of soup "projects")).
Proof. later_extractors soup. rewrite Xp, Bp. reflexivity. Qed.

Lemma extract_honors_awards (soup : Soup.element) :
  ProfileData.honors_awards (extract soup) =
  filter (fun honor => truthy (Honor.title honor))
         (map _parse_honor_item (list_items_of soup "honors")).
Proof. later_extractors soup. rewrite Xh, Bh. reflexivity. Qed.

Lemma extract_volunteering (soup : Soup.element) :
  ProfileData.volunteering (extract soup) =
  filter (fun volunteer => truthy (Volunteer.organization volunteer))
         (map _parse_volunteer_item (list_items_of soup "volunteering")).
Proof. later_extractors soup. rewrite Xv, Bv. reflexivity. Qed.

Lemma extract_skills (soup : Soup.element) :
  ProfileData.skills (extract soup) =
  match _find_section_by_header soup (SECTION_HEADERS "skills") with
  | Some skills_section =>
      skills_of (texts (fun _ => true)
                       (Soup.find_all ["span"; "div"; "li"; "p"] skills_section))
  | None => []
  end.
Proof.
  later_extractors soup.
  destruct (_find_section_by_header soup (SECTION_HEADERS "skills"));
    [reflexivity | rewrite Xs, Bs; reflexivity].
Qed.

Lemma extract_current_company (soup : Soup.element) :
  BasicProfile.current_company (ProfileData.basic_profile (extract soup)) =
  match find is_present (ProfileData.experience (extract soup)) with
  | Some exp => Experience.company_name exp
  | None => None
  end.
Proof.
  rewrite extract_experience. later_extractors soup.
  rewrite Xcc, Xx, Bcc. reflexivity.
Qed.
End Orchestrator.

(** ** The orchestrator on an empty document *)

(** C8. On a document that has no node at all, [extract] returns the
    structure as [_initialize_structure] made it: the five fields of the
    basic profile are unset and every record list is empty. [extract] is a
    total function, so no document makes it fail. *)
Theorem extract_empty_document {U : Unicode} :
  extract (Soup.BeautifulSoup []) = _initialize_structure /\
  extract (Soup.BeautifulSoup []) =
  {| ProfileData.basic_profile :=
       {| BasicProfile.full_name := None; BasicProfile.headline := None;
          BasicProfile.location := None; BasicProfile.current_company := None;
          BasicProfile.profile_summary := None |};
     ProfileData.experience := []; ProfileData.education := [];
     ProfileData.skills := []; ProfileData.certifications := [];
     ProfileData.projects := []; ProfileData.honors_awards := [];
     ProfileData.volunteering := [] |}.
Proof. split; reflexivity. Qed.

(** ** Skills *)

(** C10. Every string of the skills list is longer than 2 and shorter than
    50 characters, and its lower-cased form is neither "skills" nor
    "endorsements"; it is one of the fragments of the section, so the
    fragments that fail these tests are dropped. *)
Theorem skills_are_bounded_and_unreserved {U : Unicode} :
  (forall fragments text, In text (skills_of fragments) ->
     In text fragments /\
     2 < length text /\ length text < 50 /\
     lower text <> py "skills" /\ lower text <> py "endorsements") /\
  (forall soup text, In text (ProfileData.skills (extract soup)) ->
     2 < length text /\ length text < 50 /\
     lower text <> py "skills" /\ lower text <> py "endorsements").
Proof.
  assert (Hfrag : forall fragments text, In text (skills_of fragments) ->
            In text fragments /\ skill_shaped text).
  { intros fragments text Hin.
    destruct (skills_of_invariant fragments) as (_ & Hs & Hi).
    split; [apply Hi; exact Hin|].
    rewrite Forall_forall in Hs. apply Hs; exact Hin. }
  split; [exact Hfrag|].
  intros soup text. rewrite extract_skills.
  destruct (_find_section_by_header soup (SECTION_HEADERS "skills")); [|intros []].
  intros Hin. apply Hfrag in Hin. apply Hin.
Qed.

Lemma skills_are_bounded_and_unreserved_witness :
  In Examples.python
     (ProfileData.skills (extract (U := basic_latin) Examples.skills_document)) /\
  (2 < length Examples.python /\ length Examples.python < 50 /\
   lower (Unicode := basic_latin) Examples.python <> py "skills" /\
   lower (Unicode := basic_latin) Examples.python <> py "endorsements").
Proof.
  assert (Hin : In Examples.python
           (ProfileData.skills (extract (U := basic_latin) Examples.skills_document)))
    by (vm_compute; auto).
  split; [exact Hin|].
  exact (proj2 (@skills_are_bounded_and_unreserved basic_latin)
               Examples.skills_document Examples.python Hin).
Defined.

(** C2, as the specification words it, fails: from the fragments "Python",
    "Python Programming", "SQL" in this order the loop keeps all three, so
    the list holds "Python" and a fragment that contains it. *)
Lemma skills_keep_a_later_superstring :
  let skills :=
    skills_of (U := basic_latin)
      [Examples.python; Examples.python_programming; Examples.sql] in
  skills = [Examples.python; Examples.python_programming; Examples.sql] /\
  ProfileData.skills (extract (U := basic_latin) Examples.skills_document) = skills /\
  ~ free_of_substrings skills.
Proof.
  cbv zeta. split; [reflexivity|]. split; [reflexivity|].
  intros H.
  specialize (H Examples.python Examples.python_programming).
  assert (E : contains Examples.python Examples.python_programming = true) by reflexivity.
  rewrite H in E; [discriminate | vm_compute; auto | vm_compute; auto | discriminate].
Qed.

(** C2, amended. No string of the skills list occurs inside a string that
    was accepted before it, so the list has no duplicates either; a fragment
    that contains an earlier skill is still accepted. From "Python", "Python
    Programming", "SQL" the result is all three, and from "Python
    Programming", "Python", "SQL" it is "Python Programming", "SQL". *)
Theorem skills_never_inside_an_earlier_skill {U : Unicode} :
  (forall fragments pre text post,
     skills_of fragments = pre ++ text :: post ->
     forall earlier, In earlier pre -> contains text earlier = false) /\
  skills_of (U := basic_latin)
    [Examples.python; Examples.python_programming; Examples.sql] =
    [Examples.python; Examples.python_programming; Examples.sql] /\
  skills_of (U := basic_latin)
    [Examples.python_programming; Examples.python; Examples.sql] =
    [Examples.python_programming; Examples.sql].
Proof.
  split; [|split; reflexivity].
  intros fragments pre text post E earlier Hin.
  destruct (skills_of_invariant fragments) as (Ho & _).
  exact (Ho pre text post E earlier Hin).
Qed.

Lemma skills_never_inside_an_earlier_skill_witness :
  skills_of (U := basic_latin)
    [Examples.python_programming; Examples.sql; Examples.python] =
    [Examples.python_programming] ++ Examples.sql :: [] /\
  contains Examples.sql Examples.python_programming = false.
Proof.
  assert (E : skills_of (U := basic_latin)
                [Examples.python_programming; Examples.sql; Examples.python] =
              [Examples.python_programming] ++ Examples.sql :: []) by reflexivity.
  split; [exact E|].
  apply (proj1 (@skills_never_inside_an_earlier_skill basic_latin) _ _ _ _ E).
  simpl; auto.
Defined.

(** ** Experience *)

Section ExperienceRules.
Context {U : Unicode}.

Lemma is_title_iff (text : str) : is_title text = true <-> title_like text.
Proof.
  unfold is_title, title_like, any_in. cbn [existsb].
  rewrite andb_true_iff, Nat.ltb_lt, negb_true_iff, orb_false_r, orb_false_iff.
  tauto.
Qed.

Lemma is_title_false_iff (text : str) : is_title text = false <-> ~ title_like text.
Proof.
  rewrite <- is_title_iff. destruct (is_title text); split; congruence.
Qed.

Lemma title_scan_first (pre : list str) (text : str) (post : list str) :
  (forall x, In x pre -> is_title x = false) -> is_title text = true ->
  title_scan (pre ++ text :: post) = Some (text, post).
Proof.
  intros Hpre Ht. induction pre as [|x pre IH]; simpl.
  - rewrite Ht. reflexivity.
  - rewrite (Hpre x) by (left; reflexivity). apply IH.
    intros y Hy. apply Hpre. right; exact Hy.
Qed.

Lemma title_scan_is_title (text_elements : list str) (text : str) (after : list str) :
  title_scan text_elements = Some (text, after) -> is_title text = true.
Proof.
  induction text_elements as [|x l IH]; simpl; [discriminate|].
  destruct (is_title x) eqn:Hx; [|exact IH].
  intros E; inversion E; subst; exact Hx.
Qed.

(** The rules after the title rule, as [experience_rules] runs them on
    the elements left by it. *)
Lemma experience_rules_after_title (text_elements : list str) (text : str)
    (after : list str) (description_list : list Soup.element) :
  title_scan text_elements = Some (text, after) ->
  experience_rules text_elements description_list =
  experience_rules (text :: after) description_list.
Proof.
  intros E. pose proof (title_scan_is_title _ _ _ E) as Ht.
  unfold experience_rules at 2. cbn [title_scan]. rewrite Ht.
  unfold experience_rules. rewrite E.
  destruct text_elements; [discriminate E | reflexivity].
Qed.

Lemma experience_rules_job_title (text_elements : list str)
    (description_list : list Soup.element) :
  Experience.job_title (experience_rules text_elements description_list) =
  option_map fst (title_scan text_elements).
Proof.
  unfold experience_rules. destruct text_elements as [|x l]; [reflexivity|].
  destruct (title_scan (x :: l)) as [[text after]|];
    repeat match goal with
      | |- context [let '(_, _) := ?e in _] => destruct e
      end; reflexivity.
Qed.
End ExperienceRules.

(** C9. The job title is the first fragment that is longer than 3
    characters and whose lower-cased form contains neither "experience" nor
    a middle dot. The record is the one the rules produce from that
    fragment and those after it: the fragments before it are considered by
    no later rule. A fragment of 3 characters or less is never the title. *)
Theorem job_title_is_first_title_like_fragment {U : Unicode} :
  (forall pre text post description_list,
     (forall x, In x pre -> ~ title_like x) -> title_like text ->
     Experience.job_title
       (experience_rules (pre ++ text :: post) description_list) = Some text /\
     experience_rules (pre ++ text :: post) description_list =
     experience_rules (text :: post) description_list) /\
  (forall text_elements description_list text,
     Experience.job_title (experience_rules text_elements description_list)
       = Some text ->
     title_like text /\ 3 < length text).
Proof.
  split.
  - intros pre text post description_list Hpre Ht.
    assert (E : title_scan (pre ++ text :: post) = Some (text, post)).
    { apply title_scan_first; [|apply is_title_iff; exact Ht].
      intros x Hx. apply is_title_false_iff. apply Hpre; exact Hx. }
    split.
    + rewrite experience_rules_job_title, E. reflexivity.
    + apply experience_rules_after_title; exact E.
  - intros text_elements description_list text.
    rewrite experience_rules_job_title.
    destruct (title_scan text_elements) as [[t after]|] eqn:E; [|discriminate].
    cbn [option_map fst]. intros H; inversion H; subst.
    apply title_scan_is_title, is_title_iff in E. split; [exact E | apply E].
Qed.

Lemma job_title_is_first_title_like_fragment_witness :
  (forall x, In x [py "Dev"; py "Experience"] ->
     ~ title_like (U := basic_latin) x) /\
  title_like (U := basic_latin) (py "Software Engineer") /\
  Experience.job_title
    (experience_rules (U := basic_latin)
       ([py "Dev"; py "Experience"] ++ py "Software Engineer" :: [py "Acme Corp"])
       []) = Some (py "Software Engineer") /\
  experience_rules (U := basic_latin)
    ([py "Dev"; py "Experience"] ++ py "Software Engineer" :: [py "Acme Corp"]) [] =
  experience_rules (U := basic_latin)
    (py "Software Engineer" :: [py "Acme Corp"]) [].
Proof.
  assert (Hpre : forall x, In x [py "Dev"; py "Experience"] ->
                   ~ title_like (U := basic_latin) x).
  { intros x [<-|[<-|[]]] (Hlen & Hexp & _).
    - vm_compute in Hlen. lia.
    - vm_compute in Hexp. discriminate. }
  assert (Ht : title_like (U := basic_latin) (py "Software Engineer")).
  { repeat split. vm_compute. lia. }
  split; [exact Hpre|]. split; [exact Ht|].
  exact (proj1 (@job_title_is_first_title_like_fragment basic_latin)
               [py "Dev"; py "Experience"] (py "Software Engineer")
               [py "Acme Corp"] [] Hpre Ht).
Defined.

(** ** Record acceptance *)

Lemma truthy_iff (field : option str) : truthy field = true <-> non_empty field.
Proof.
  unfold non_empty. destruct field as [[|c text]|]; simpl.
  - split; [discriminate|]. intros (x & E & H). inversion E; subst. congruence.
  - split; [|reflexivity]. intros _. exists (c :: text).
    split; [reflexivity | discriminate].
  - split; [discriminate|]. intros (x & E & _). discriminate.
Qed.





(** ** Current company *)

Lemma is_present_iff {U : Unicode} (exp : Experience.t) :
  is_present exp = true <-> ends_present exp.
Proof.
  unfold is_present, ends_present.
  destruct (Experience.end_date exp) as [[|c end_date]|].
  - split; [discriminate | intros (x & E & H & _); congruence].
  - rewrite str_eqb_eq. split.
    + intros H. exists (c :: end_date). repeat split; [discriminate | exact H].
    + intros (x & E & _ & H). inversion E; subst. exact H.
  - split; [discriminate | intros (x & E & _); discriminate].
Qed.

(** C7. After extraction the current company of the basic profile is the
    company name of the first record of the experience list whose end date
    is "Present" in any case, and it is unset when the list has no such
    record. *)
Theorem current_company_is_first_present {U : Unicode} (soup : Soup.element) :
  let result := extract soup in
  (forall pre exp post,
     ProfileData.experience result = pre ++ exp :: post ->
     (forall earlier, In earlier pre -> ~ ends_present earlier) ->
     ends_present exp ->
     BasicProfile.current_company (ProfileData.basic_profile result) =
     Experience.company_name exp) /\
  ((forall exp, In exp (ProfileData.experience result) -> ~ ends_present exp) ->
   BasicProfile.current_company (ProfileData.basic_profile result) = None).
Proof.
  cbv zeta. rewrite extract_current_company. split.
  - intros pre exp post E Hpre Hexp.
    assert (F : find is_present (ProfileData.experience (extract soup)) = Some exp).
    { apply find_split. exists pre, post. split; [exact E|].
      split; [apply is_present_iff; exact Hexp|].
      intros y Hy. specialize (Hpre y Hy). rewrite <- is_present_iff in Hpre.
      destruct (is_present y); congruence. }
    rewrite F. reflexivity.
  - intros Hnone.
    assert (F : find is_present (ProfileData.experience (extract soup)) = None).
    { apply find_none_iff. intros y Hy. specialize (Hnone y Hy).
      rewrite <- is_present_iff in Hnone. destruct (is_present y); congruence. }
    rewrite F. reflexivity.
Qed.

Lemma current_company_is_first_present_witness :
  let result := extract (U := basic_latin) Examples.experience_document in
  let engineer :=
    _parse_experience_item (U := basic_latin)
      (Examples.item_of Examples.experience_document "experience" 0) in
  let intern :=
    _parse_experience_item (U := basic_latin)
      (Examples.item_of Examples.experience_document "experience" 1) in
  ProfileData.experience result = [] ++ engineer :: [intern] /\
  ends_present (U := basic_latin) engineer /\
  BasicProfile.current_company (ProfileData.basic_profile result) =
    Some (py "Acme Corp") /\
  BasicProfile.current_company
    (ProfileData.basic_profile
       (extract (U := basic_latin) Examples.skills_document)) = None.
Proof.
  cbv zeta.
  assert (E : ProfileData.experience
                (extract (U := basic_latin) Examples.experience_document) =
              [] ++ _parse_experience_item (U := basic_latin)
                      (Examples.item_of Examples.experience_document "experience" 0)
                 :: [_parse_experience_item (U := basic_latin)
                       (Examples.item_of Examples.experience_document "experience" 1)])
    by reflexivity.
  assert (P : ends_present (U := basic_latin)
                (_parse_experience_item (U := basic_latin)
                   (Examples.item_of Examples.experience_document "experience" 0))).
  { exists (py "Present"). split; [reflexivity|]. split; [discriminate | reflexivity]. }
  split; [exact E|]. split; [exact P|]. split.
  - exact (proj1 (@current_company_is_first_present basic_latin
                    Examples.experience_document) _ _ _ E (fun _ F => match F with end) P).
  - apply (proj2 (@current_company_is_first_present basic_latin Examples.skills_document)).
    intros exp H. vm_compute in H. destruct H.
Defined.

(** ** The block segmenter *)

Lemma first_repeating_split (pre : list Soup.element) (container : Soup.element)
    (post : list Soup.element) :
  (forall c, In c pre -> length (direct_children c) < 2) ->
  2 <= length (direct_children container) ->
  first_repeating (pre ++ container :: post) = direct_children container.
Proof.
  intros Hpre Hc. induction pre as [|c pre IH]; cbn [app first_repeating].
  - apply Nat.leb_le in Hc. rewrite Hc. reflexivity.
  - assert (Hlt : length (direct_children c) < 2) by (apply Hpre; left; reflexivity).
    apply Nat.leb_gt in Hlt. rewrite Hlt. apply IH.
    intros x Hx. apply Hpre. right; exact Hx.
Qed.

Lemma first_repeating_none (containers : list Soup.element) :
  (forall c, In c containers -> length (direct_children c) < 2) ->
  first_repeating containers = [].
Proof.
  induction containers as [|c l IH]; intros H; cbn [first_repeating]; [reflexivity|].
  assert (Hlt : length (direct_children c) < 2) by (apply H; left; reflexivity).
  apply Nat.leb_gt in Hlt. rewrite Hlt. apply IH.
  intros x Hx. apply H. right; exact Hx.
Qed.

(** C5. The segmenter takes its two tiers in order. When the section has
    list items below it, at any depth, they are the sub-blocks. Otherwise
    the sub-blocks are the [div] children of the first [ul], [ol] or [div]
    below the section that has at least 2 [div] children. Otherwise there
    are none. *)
Theorem segmenter_two_tier_fallback (section : Soup.element) :
  let list_items := Soup.find_all ["li"] section in
  let containers := Soup.find_all ["ul"; "ol"; "div"] section in
  (list_items <> [] -> _get_list_items_from_section section = list_items) /\
  (list_items = [] ->
   forall pre container post,
     containers = pre ++ container :: post ->
     (forall c, In c pre -> length (direct_children c) < 2) ->
     2 <= length (direct_children container) ->
     _get_list_items_from_section section = direct_children container) /\
  (list_items = [] ->
   (forall c, In c containers -> length (direct_children c) < 2) ->
   _get_list_items_from_section section = []).
Proof.
  cbv zeta. unfold _get_list_items_from_section.
  destruct (Soup.find_all ["li"] section) as [|item items].
  - split; [intros H; contradiction H; reflexivity|]. split.
    + intros _ pre container post -> Hpre Hc.
      apply first_repeating_split; assumption.
    + intros _ H. apply first_repeating_none; exact H.
  - split; [reflexivity|]. split; intros H; discriminate H.
Qed.

Lemma segmenter_two_tier_fallback_witness :
  _get_list_items_from_section Examples.list_section =
    Soup.find_all ["li"] Examples.list_section /\
  length (_get_list_items_from_section Examples.list_section) = 2 /\
  _get_list_items_from_section Examples.cards_section =
    direct_children
      (Examples.at_ Examples.cards_div [Soup.node_of Examples.cards_section]) /\
  map Soup.node_of (_get_list_items_from_section Examples.cards_section) =
    [Examples.card "MIT"; Examples.card "ETH"] /\
  _get_list_items_from_section Examples.plain_section = [].
Proof.
  split; [|split; [reflexivity|]].
  - apply (proj1 (segmenter_two_tier_fallback Examples.list_section)).
    vm_compute. discriminate.
  - split; [|split; [reflexivity|]].
    + apply (proj1 (proj2 (segmenter_two_tier_fallback Examples.cards_section))
               eq_refl
               [Examples.at_ Examples.lone_div [Soup.node_of Examples.cards_section]]
               (Examples.at_ Examples.cards_div [Soup.node_of Examples.cards_section])
               [Examples.at_ (Examples.card "MIT")
                  [Examples.cards_div; Soup.node_of Examples.cards_section];
                Examples.at_ (Examples.card "ETH")
                  [Examples.cards_div; Soup.node_of Examples.cards_section]]).
      * reflexivity.
      * intros c [<-|[]]. vm_compute. lia.
      * vm_compute. lia.
    + apply (proj2 (proj2 (segmenter_two_tier_fallback Examples.plain_section)) eq_refl).
      intros c [<-|[]]. vm_compute. lia.
Defined.

(** ** The section locator *)

Section Locator.
Context {U : Unicode}.

Lemma header_matches_iff (header_keywords : list str) (elem : Soup.element) :
  header_matches header_keywords elem = true <-> matches_header header_keywords elem.
Proof.
  unfold header_matches, matches_header.
  destruct (_normalize_text (Soup.get_text elem)) as [text|].
  - rewrite existsb_exists. split.
    + intros (keyword & Hin & H). exists text, keyword.
      apply orb_true_iff in H. rewrite str_eqb_eq in H. auto.
    + intros (t & keyword & E & Hin & H). inversion E; subst t.
      exists keyword. split; [exact Hin|].
      apply orb_true_iff. rewrite str_eqb_eq. exact H.
  - split; [discriminate | intros (t & k & E & _); discriminate].
Qed.

(** The loop over the keywords returns the container of [elem] when a
    keyword matches. *)
Lemma section_of_matches (text_lower : str) (elem : Soup.element)
    (header_keywords : list str) :
  section_of text_lower elem header_keywords =
  if existsb (fun keyword =>
                str_eqb text_lower (lower keyword) ||
                startswith text_lower (lower keyword)) header_keywords
  then container_of elem
  else None.
Proof.
  unfold container_of.
  induction header_keywords as [|keyword l IH]; cbn [section_of existsb];
    [reflexivity|].
  destruct (str_eqb text_lower (lower keyword) || startswith text_lower (lower keyword));
    cbn [orb]; [|exact IH].
  destruct (Soup.find_parent ["section"; "div"] ["recursive"] elem) eqn:E;
    [reflexivity|].
  rewrite IH. destruct (existsb _ l); reflexivity.
Qed.

Lemma find_section_in_step (elem : Soup.element) (elements : list Soup.element)
    (header_keywords : list str) :
  find_section_in (elem :: elements) header_keywords =
  match (if header_matches header_keywords elem then container_of elem else None) with
  | Some section => Some section
  | None => find_section_in elements header_keywords
  end.
Proof.
  cbn [find_section_in]. unfold header_matches.
  destruct (_normalize_text (Soup.get_text elem)) as [text|]; [|reflexivity].
  rewrite section_of_matches. reflexivity.
Qed.

Lemma find_section_in_first (pre : list Soup.element) (elem : Soup.element)
    (post : list Soup.element) (header_keywords : list str) (section : Soup.element) :
  (forall e, In e pre ->
     ~ matches_header header_keywords e \/ container_of e = None) ->
  matches_header header_keywords elem ->
  container_of elem = Some section ->
  find_section_in (pre ++ elem :: post) header_keywords = Some section.
Proof.
  intros Hpre Hm Hp. induction pre as [|e pre IH]; cbn [app];
    rewrite find_section_in_step.
  - apply header_matches_iff in Hm. rewrite Hm, Hp. reflexivity.
  - destruct (Hpre e (or_introl eq_refl)) as [Hn|Hn].
    + rewrite <- header_matches_iff in Hn.
      destruct (header_matches header_keywords e); [congruence|].
      apply IH. intros x Hx. apply Hpre. right; exact Hx.
    + rewrite Hn. destruct (header_matches header_keywords e);
        apply IH; intros x Hx; apply Hpre; right; exact Hx.
Qed.

Lemma find_section_in_none (elements : list Soup.element) (header_keywords : list str) :
  (forall e, In e elements ->
     ~ matches_header header_keywords e \/ container_of e = None) ->
  find_section_in elements header_keywords = None.
Proof.
  induction elements as [|e l IH]; intros H; [reflexivity|].
  rewrite find_section_in_step.
  assert (Hl : find_section_in l header_keywords = None)
    by (apply IH; intros x Hx; apply H; right; exact Hx).
  destruct (H e (or_introl eq_refl)) as [Hn|Hn].
  - rewrite <- header_matches_iff in Hn.
    destruct (header_matches header_keywords e); [congruence | exact Hl].
  - rewrite Hn. destruct (header_matches header_keywords e); exact Hl.
Qed.
End Locator.

(** The first node that matches does not decide, even on documents whose
    containers all pass the lookup of the locator. In [<div recursive=""><h2>Education
    </h2></div>] the first node that matches is the [div] itself, which has
    no container above it, and the locator still answers with that [div],
    the container of the [h2] that matches after it. In [<section
    recursive=""><div recursive=""><h2>Education</h2><p>MIT</p></div>
    </section>] the [h2] is the only scanned node whose text is "Education"
    and it has an ancestor [div], but the locator returns the [section]:
    the [div] matches first, by prefix. *)
Lemma find_section_not_of_the_first_match :
  let keywords := [py "education"] in
  (_find_section_by_header (U := basic_latin) Examples.education_document keywords =
     Some (Examples.at_ Examples.education_div
             [Soup.node_of Examples.education_document]) /\
   spec_find_section (U := basic_latin) Examples.education_document keywords = None) /\
  (let soup := Examples.school_document in
   let heading :=
     Examples.at_ (Examples.leaf "h2" "Education")
       [Examples.school_div; Examples.school_section; Soup.node_of soup] in
   let div :=
     Examples.at_ Examples.school_div [Examples.school_section; Soup.node_of soup] in
   In heading (Soup.find_all HEADER_TAGS soup) /\
   (forall elem, In elem (Soup.find_all HEADER_TAGS soup) ->
      _normalize_text (U := basic_latin) (Soup.get_text elem) = Some (py "Education") ->
      elem = heading) /\
   Soup.find_parent ["div"] [] heading = Some div /\
   Soup.find_parent ["section"; "div"] [] heading = Some div /\
   _find_section_by_header (U := basic_latin) soup keywords =
     Some (Examples.at_ Examples.school_section [Soup.node_of soup]) /\
   _find_section_by_header (U := basic_latin) soup keywords <> Some div).
Proof.
  cbv zeta. split; [split; reflexivity|].
  split; [vm_compute; auto|].
  split.
  - intros elem Hin. vm_compute in Hin.
    destruct Hin as [<-|[<-|[]]]; [|reflexivity].
    vm_compute. discriminate.
  - split; [reflexivity|]. split; [reflexivity|]. split; [reflexivity|].
    vm_compute. discriminate.
Qed.

(** What the locator computes, through the lookup as the source calls it
    ([container_of], which asks for the attribute [recursive]). The locator
    scans the [h2], [h3], [h4], [span] and [div] nodes in document order; a
    node matches when its normalized lower-cased text equals a lower-cased
    keyword or starts with one. The result is the container that this
    lookup finds for the first matching node for which it finds one;
    matching nodes for which it finds none are passed over. When it finds a
    container for no matching node, in particular when no node matches, the
    result is absent. *)
Theorem find_section_is_container_of_first_contained_match {U : Unicode}
    (soup : Soup.element) (header_keywords : list str) :
  (forall pre elem post section,
     Soup.find_all HEADER_TAGS soup = pre ++ elem :: post ->
     (forall e, In e pre ->
        ~ matches_header header_keywords e \/ container_of e = None) ->
     matches_header header_keywords elem ->
     container_of elem = Some section ->
     _find_section_by_header soup header_keywords = Some section) /\
  ((forall e, In e (Soup.find_all HEADER_TAGS soup) ->
      ~ matches_header header_keywords e \/ container_of e = None) ->
   _find_section_by_header soup header_keywords = None) /\
  ((forall e, In e (Soup.find_all HEADER_TAGS soup) ->
      ~ matches_header header_keywords e) ->
   _find_section_by_header soup header_keywords = None).
Proof.
  unfold _find_section_by_header. fold HEADER_TAGS. split; [|split].
  - intros pre elem post section -> Hpre Hm Hp.
    apply find_section_in_first; assumption.
  - apply find_section_in_none.
  - intros H. apply find_section_in_none. intros e He. left. apply H; exact He.
Qed.

Lemma find_section_is_container_of_first_contained_match_witness :
  let soup := Examples.education_document in
  let div := Examples.at_ Examples.education_div [Soup.node_of soup] in
  let heading :=
    Examples.at_ (Examples.leaf "h2" "Education")
      [Examples.education_div; Soup.node_of soup] in
  Soup.find_all HEADER_TAGS soup = [div] ++ heading :: [] /\
  container_of div = None /\
  matches_header (U := basic_latin) [py "education"] heading /\
  container_of heading = Some div /\
  _find_section_by_header (U := basic_latin) soup [py "education"] = Some div /\
  _find_section_by_header (U := basic_latin) soup [py "skills"] = None.
Proof.
  cbv zeta.
  assert (Hm : matches_header (U := basic_latin) [py "education"]
                 (Examples.at_ (Examples.leaf "h2" "Education")
                    [Examples.education_div;
                     Soup.node_of Examples.education_document])).
  { exists (py "Education"), (py "education").
    split; [reflexivity|]. split; [left; reflexivity|]. left; reflexivity. }
  split; [reflexivity|]. split; [reflexivity|]. split; [exact Hm|].
  split; [reflexivity|]. split.
  - apply (proj1 (@find_section_is_container_of_first_contained_match basic_latin
                    Examples.education_document [py "education"])
             [_] _ [] _ eq_refl).
    + intros e [<-|[]]. right; reflexivity.
    + exact Hm.
    + reflexivity.
  - apply (proj2 (proj2
             (@find_section_is_container_of_first_contained_match basic_latin
                Examples.education_document [py "skills"]))).
    intros e He (text & keyword & E & [<-|[]] & H).
    vm_compute in He. destruct He as [<-|[<-|[]]];
      vm_compute in E; inversion E; subst text;
      vm_compute in H; destruct H; discriminate.
Defined.

(** The lookup of the locator only accepts a [section] or [div] that has
    an attribute named [recursive]: in a document where no tag has one, no
    section is found, whatever the keywords. *)
Lemma nearest_needs_the_attributes (names keys : list string) (above : list Soup.node) :
  (forall p, In p above -> Soup.has_attrs keys p = false) ->
  Soup.nearest names keys above = None.
Proof.
  induction above as [|p above IH]; intros H; cbn [Soup.nearest]; [reflexivity|].
  rewrite (H p) by (left; reflexivity). rewrite andb_false_r.
  apply IH. intros q Hq. apply H. right; exact Hq.
Qed.

Lemma find_section_needs_the_attribute {U : Unicode} (soup : Soup.element)
    (header_keywords : list str) :
  (forall e, In e (Soup.find_all HEADER_TAGS soup) ->
   forall p, In p (Soup.parents e) -> Soup.has_attrs ["recursive"] p = false) ->
  _find_section_by_header soup header_keywords = None.
Proof.
  intros H. unfold _find_section_by_header. fold HEADER_TAGS.
  apply find_section_in_none. intros e He. right.
  apply nearest_needs_the_attributes. exact (H e He).
Qed.

Lemma plain_document_has_no_section :
  _find_section_by_header (U := basic_latin) Examples.plain_school_document
    [py "education"] = None /\
  Soup.find_parent ["section"; "div"] []
    (Examples.at_ (Examples.leaf "h2" "Education")
       (match Soup.find_all ["h2"] Examples.plain_school_document with
        | h :: _ => Soup.parents h
        | [] => []
        end)) <> None.
Proof. split; [reflexivity | vm_compute; discriminate]. Qed.

(** ** Dates *)

(** *** The matcher on words of a known shape *)

Section Symbolic.
Context {U : Unicode}.
Import Re.

Lemma over_app (w1 w2 t : str) (st : cursor) :
  over (w1 ++ w2) t st = over w2 t (over w1 (w2 ++ t) st).
Proof.
  revert st; induction w1 as [|c w1 IH]; intros st; cbn [over app]; [reflexivity|].
  rewrite IH, app_assoc. reflexivity.
Qed.

Lemma rest_over (w t : str) (st : cursor) :
  rest st = w ++ t -> rest (over w t st) = t.
Proof.
  revert st; induction w as [|c w IH]; intros st H; cbn [over]; [exact H|].
  apply IH. reflexivity.
Qed.

Lemma groups_over (w t : str) (st : cursor) : groups (over w t st) = groups st.
Proof.
  revert st; induction w as [|c w IH]; intros st; cbn [over]; [reflexivity|].
  rewrite IH. reflexivity.
Qed.

Lemma one_ok (ok : char -> bool) (st : cursor) (k : cursor -> option cursor)
    (c : char) (t : str) :
  rest st = c :: t -> ok c = true -> one ok st k = k (advance c t st).
Proof. intros E H. unfold one. rewrite E, H. reflexivity. Qed.

Lemma one_stop (ok : char -> bool) (st : cursor) (k : cursor -> option cursor) :
  match rest st with c :: _ => ok c = false | [] => True end ->
  one ok st k = None.
Proof. unfold one. destruct (rest st) as [|c t]; [reflexivity|]. intros ->. reflexivity. Qed.

(** A greedy repetition of a character test runs over a whole word of such
    characters, when the text stops or goes on otherwise after it and the
    continuation succeeds there. *)
Lemma repeat_word (ok : char -> bool) (w t : str) (st : cursor)
    (k : cursor -> option cursor) (x : cursor) (fuel : nat) :
  rest st = w ++ t ->
  Forall (fun c => ok c = true) w ->
  match t with c :: _ => ok c = false | [] => True end ->
  length w <= fuel ->
  k (over w t st) = Some x ->
  repeat_ (one ok) true k fuel st = Some x.
Proof.
  revert st fuel. induction w as [|c w IH]; intros st fuel E Hw Ht Hf Hk.
  - cbn [over] in Hk. destruct fuel as [|fuel]; cbn [repeat_]; [exact Hk|].
    rewrite one_stop by (rewrite E; exact Ht). exact Hk.
  - destruct fuel as [|fuel]; [cbn [length] in Hf; lia|]. cbn [repeat_].
    inversion Hw; subst.
    rewrite (one_ok ok st _ c (w ++ t)) by assumption.
    cbn [rest advance]. rewrite E.
    replace (length (w ++ t) <? length ((c :: w) ++ t)) with true
      by (symmetry; apply Nat.ltb_lt; cbn [app length]; lia).
    rewrite (IH (advance c (w ++ t) st) fuel); try assumption; try reflexivity.
    cbn [length] in Hf; lia.
Qed.
End Symbolic.

Section DateGrammar.
Import Re Patterns.
#[local] Existing Instance basic_latin.

Lemma run_set (items : list item) (st : cursor) (k : cursor -> option cursor) :
  run true (Set_ items) st k = one (in_set items) st k.
Proof. reflexivity. Qed.

Lemma run_star_word (items : list item) (w t : str) (st : cursor)
    (k : cursor -> option cursor) (x : cursor) :
  rest st = w ++ t ->
  Forall (fun c => in_set items c = true) w ->
  match t with c :: _ => in_set items c = false | [] => True end ->
  k (over w t st) = Some x ->
  run true (Star true (Set_ items)) st k = Some x.
Proof.
  intros E Hw Ht Hk. cbn [run].
  change (run true (Set_ items)) with (one (in_set items)).
  apply (repeat_word (in_set items) w t); try assumption.
  rewrite E, length_app. lia.
Qed.

Ltac ranges H :=
  unfold is_letter, is_digit, in_range in H;
  rewrite ?orb_true_iff, ?andb_true_iff, ?N.leb_le in H.

Ltac decide_char :=
  match goal with
  | |- ?b = false =>
      let E := fresh "E" in
      destruct b eqn:E; [exfalso | reflexivity];
      cbn in E; unfold in_range in E;
      rewrite ?orb_true_iff, ?andb_true_iff, ?N.leb_le, ?N.eqb_eq, ?orb_false_r in E;
      lia
  end.

Lemma letter_in_set (c : char) :
  is_letter c = true -> in_set [IRange 65 90; IRange 97 122] c = true.
Proof.
  unfold in_set, is_letter. cbn [existsb item_matches]. intros H.
  apply orb_true_iff in H as [H|H]; rewrite H; cbn; rewrite ?orb_true_r; reflexivity.
Qed.

Lemma letter_not_space (c : char) : is_letter c = true -> in_set [ISpace] c = false.
Proof. intros H. ranges H. decide_char. Qed.

Lemma digit_in_set (c : char) : is_digit c = true -> in_set [IDigit] c = true.
Proof. intros H. unfold in_set. cbn. rewrite orb_false_r. exact H. Qed.

Lemma digit_not_space (c : char) : is_digit c = true -> in_set [ISpace] c = false.
Proof. intros H. ranges H. decide_char. Qed.

Lemma caseless (c : char) : (c < 65)%N -> ignorecase c = [].
Proof.
  intros H. cbn.
  repeat match goal with
    | |- context [if ?b then _ else _] =>
        let E := fresh "E" in
        destruct b eqn:E;
        [exfalso; unfold in_range in E;
         rewrite ?orb_true_iff, ?andb_true_iff, ?N.leb_le, ?N.eqb_eq in E; lia|]
    end.
  reflexivity.
Qed.

Lemma digit_not_letter (c : char) :
  is_digit c = true -> in_set [IRange 65 90; IRange 97 122] c = false.
Proof.
  intros H. ranges H. unfold in_set. cbn [existsb item_matches andb].
  rewrite caseless by lia. cbn [existsb]. decide_char.
Qed.

Lemma space_not_digit (c : char) : in_set [ISpace] c = true -> in_set [IDigit] c = false.
Proof.
  unfold in_set. cbn. rewrite !orb_false_r. intros H.
  unfold in_range in H.
  rewrite ?orb_true_iff, ?andb_true_iff, ?N.leb_le, ?N.eqb_eq in H.
  decide_char.
Qed.

Lemma run_seq (ic : bool) (a b : pattern) (st : cursor) (k : cursor -> option cursor) :
  run ic (Seq a b) st k = run ic a st (fun st' => run ic b st' k).
Proof. reflexivity. Qed.

Lemma run_group (ic : bool) (n : nat) (a : pattern) (st : cursor)
    (k : cursor -> option cursor) :
  run ic (Group n a) st k = run ic a st (fun st' => k (close_group n st st')).
Proof. reflexivity. Qed.

Lemma run_alt_first (ic : bool) (a b : pattern) (st : cursor)
    (k : cursor -> option cursor) (x : cursor) :
  run ic a st k = Some x -> run ic (Alt a b) st k = Some x.
Proof. intros H. cbn [run]. rewrite H. reflexivity. Qed.

Lemma run_alt_second (ic : bool) (a b : pattern) (st : cursor)
    (k : cursor -> option cursor) :
  run ic a st k = None -> run ic (Alt a b) st k = run ic b st k.
Proof. intros H. cbn [run]. rewrite H. reflexivity. Qed.

Lemma run_char (items : list item) (st : cursor) (k : cursor -> option cursor)
    (c : char) (t : str) :
  rest st = c :: t -> in_set items c = true ->
  run true (Set_ items) st k = k (over [c] t st).
Proof. intros E H. rewrite run_set. apply one_ok; assumption. Qed.

Lemma run_char_stop (items : list item) (st : cursor) (k : cursor -> option cursor) :
  match rest st with c :: _ => in_set items c = false | [] => True end ->
  run true (Set_ items) st k = None.
Proof. intros H. rewrite run_set. apply one_stop; exact H. Qed.

(** [\d{4}] on four digits. *)
Lemma run_year (y t : str) (st : cursor) (k : cursor -> option cursor) :
  is_year y -> rest st = y ++ t ->
  run true (Rep 4 digit) st k = k (over y t st).
Proof.
  intros (d1 & d2 & d3 & d4 & -> & H1 & H2 & H3 & H4) E.
  cbn [Rep]. unfold digit. rewrite !run_seq.
  rewrite (run_char _ st _ d1 ([d2; d3; d4] ++ t)) by (auto using digit_in_set).
  cbv beta. rewrite !run_seq.
  rewrite (run_char _ _ _ d2 ([d3; d4] ++ t)) by (auto using digit_in_set).
  cbv beta. rewrite !run_seq.
  rewrite (run_char _ _ _ d3 ([d4] ++ t)) by (auto using digit_in_set).
  cbv beta.
  rewrite (run_char _ _ _ d4 t) by (auto using digit_in_set).
  reflexivity.
Qed.

Lemma Forall_letters_in_set (w : str) :
  Forall (fun c => is_letter c = true) w ->
  Forall (fun c => in_set [IRange 65 90; IRange 97 122] c = true) w.
Proof. apply Forall_impl. exact letter_in_set. Qed.

(** [[A-Za-z]+\s+\d{4}] on a month and a year. *)
Lemma run_month_year (s t : str) (st : cursor) (k : cursor -> option cursor)
    (x : cursor) :
  is_month_year s -> rest st = s ++ t ->
  k (over s t st) = Some x ->
  run true month_year st k = Some x.
Proof.
  intros (c & w & y & -> & Hw & Hy) E Hk.
  inversion Hw as [|? ? Hc Hw']; subst.
  rewrite <- !app_assoc in E. cbn [app] in E.
  unfold month_year, Plus, letter, space. cbn [Seqs]. rewrite !run_seq.
  rewrite (run_char _ st _ c (w ++ SPACE :: y ++ t)) by (auto using letter_in_set).
  cbv beta.
  apply (run_star_word _ w (SPACE :: y ++ t));
    [reflexivity | apply Forall_letters_in_set; exact Hw' | reflexivity |].
  rewrite !run_seq.
  rewrite (run_char _ _ _ SPACE (y ++ t));
    [|apply rest_over; reflexivity | reflexivity].
  cbv beta.
  destruct Hy as (d1 & d2 & d3 & d4 & Ey & H1 & H2 & H3 & H4).
  apply (run_star_word _ [] (y ++ t));
    [reflexivity | constructor | subst y; cbn [app]; apply digit_not_space; exact H1 |].
  rewrite (run_year y t);
    [|exists d1, d2, d3, d4; auto | reflexivity].
  rewrite over_app in Hk. cbn [over app] in Hk |- *.
  exact Hk.
Qed.

Lemma firstn_over (s t : str) : firstn (length (s ++ t) - length t) (s ++ t) = s.
Proof.
  replace (length (s ++ t) - length t) with (length s + 0)
    by (rewrite length_app; lia).
  rewrite firstn_app_2. cbn [firstn]. apply app_nil_r.
Qed.

Lemma close_group_over (n : nat) (s t : str) (st : cursor) :
  rest st = s ++ t ->
  close_group n st (over s t st) =
  {| prev := prev (over s t st); rest := t; groups := (n, s) :: groups st |}.
Proof.
  intros E. unfold close_group.
  rewrite (rest_over s t st E), groups_over, E, firstn_over. reflexivity.
Qed.

Lemma month_year_stops_at_digit (y t : str) (st : cursor)
    (k : cursor -> option cursor) :
  is_year y -> rest st = y ++ t -> run true month_year st k = None.
Proof.
  intros (d1 & d2 & d3 & d4 & -> & H1 & _) E.
  unfold month_year, Plus, letter. cbn [Seqs]. rewrite !run_seq.
  apply run_char_stop. rewrite E. cbn [app].
  apply digit_not_letter; exact H1.
Qed.

(** A date where the first group of the date pattern begins. *)
Lemma run_start_date (s t : str) (st : cursor) (k : cursor -> option cursor)
    (x : cursor) :
  is_date s -> rest st = s ++ t ->
  k (over s t st) = Some x ->
  run true (Alt month_year (Rep 4 digit)) st k = Some x.
Proof.
  intros [Hs|Hs] E Hk.
  - apply run_alt_first; apply (run_month_year s t); assumption.
  - rewrite (run_alt_second _ _ _ _ _ (month_year_stops_at_digit s t st k Hs E)).
    rewrite (run_year s t) by assumption. exact Hk.
Qed.

(** A date where the second group begins. *)
Lemma run_end_date (s t : str) (st : cursor) (k : cursor -> option cursor)
    (x : cursor) :
  is_date s -> rest st = s ++ t ->
  k (over s t st) = Some x ->
  run true (Alt month_year (Alt (Rep 4 digit) (Lit "Present"))) st k = Some x.
Proof.
  intros [Hs|Hs] E Hk.
  - apply run_alt_first; apply (run_month_year s t); assumption.
  - rewrite (run_alt_second _ _ _ _ _ (month_year_stops_at_digit s t st k Hs E)).
    apply run_alt_first. rewrite (run_year s t) by assumption. exact Hk.
Qed.

Lemma ascii_lower_inv (c l : char) :
  ascii_lower c = l -> (97 <= l <= 122)%N -> c = l \/ c = (l - 32)%N.
Proof.
  unfold ascii_lower, in_range. intros H Hl.
  destruct ((65 <=? c)%N && (c <=? 90)%N) eqn:E; [right; lia | left; exact H].
Qed.

(** "Present" in some case at the end of the text: the third alternative
    of the second group takes it. *)
Lemma run_present (e : str) (st : cursor) (k : cursor -> option cursor) :
  says_present e -> rest st = e ->
  run true (Alt month_year (Alt (Rep 4 digit) (Lit "Present"))) st k =
  k (over e [] st).
Proof.
  unfold says_present. intros H E.
  destruct e as [|c1 [|c2 [|c3 [|c4 [|c5 [|c6 [|c7 [|c8 e]]]]]]]]; try discriminate H.
  cbn [map] in H. injection H as H1 H2 H3 H4 H5 H6 H7.
  destruct st as [p r g]. cbn [rest] in E. subst r.
  apply ascii_lower_inv in H1, H2, H3, H4, H5, H6, H7; try (cbn; lia).
  cbn in H1, H2, H3, H4, H5, H6, H7.
  destruct H1 as [-> | ->], H2 as [-> | ->], H3 as [-> | ->], H4 as [-> | ->],
    H5 as [-> | ->], H6 as [-> | ->], H7 as [-> | ->]; reflexivity.
Qed.

Lemma gap_in_set (g : str) :
  is_gap g -> Forall (fun c => in_set [ISpace] c = true) g.
Proof.
  apply Forall_impl. intros c H. unfold in_set. cbn [existsb item_matches].
  rewrite H. reflexivity.
Qed.

(** A date or "Present" does not begin with whitespace. *)
Lemma end_starts_solid (e t : str) :
  is_end e ->
  match e ++ t with c :: _ => in_set [ISpace] c = false | [] => True end.
Proof.
  intros [[(c & w & y & -> & Hw & _) | (d1 & d2 & d3 & d4 & -> & H1 & _)] | H].
  - inversion Hw; subst. cbn [app]. apply letter_not_space; assumption.
  - cbn [app]. apply digit_not_space; assumption.
  - unfold says_present in H. destruct e as [|c e]; [discriminate H|].
    cbn [map] in H. injection H as H1 _.
    apply ascii_lower_inv in H1; [|cbn; lia]. cbn in H1.
    destruct H1 as [-> | ->]; reflexivity.
Qed.

(** [date_pattern] on a start, a dash between two gaps, and an end that
    closes the text: the match begins at the first character and its groups
    are the start and the end. *)
Lemma date_pattern_groups (s g1 : str) (dash : char) (g2 e : str) :
  is_date s -> is_gap g1 -> is_dash dash -> is_gap g2 -> is_end e ->
  exists m,
    search true date_pattern (s ++ g1 ++ dash :: g2 ++ e) = Some m /\
    group m 1 = Some s /\ group m 2 = Some e.
Proof.
  intros Hs Hg1 Hd Hg2 He.
  set (text := s ++ g1 ++ dash :: g2 ++ e).
  set (st0 := {| prev := None; rest := text; groups := [] |}).
  set (st1 := {| prev := prev (over s (g1 ++ dash :: g2 ++ e) st0);
                 rest := g1 ++ dash :: g2 ++ e; groups := [(1, s)] |}).
  set (st2 := over [dash] (g2 ++ e) (over g1 (dash :: g2 ++ e) st1)).
  set (st3 := over g2 e st2).
  assert (R3 : rest st3 = e) by (apply rest_over; reflexivity).
  set (st4 := {| prev := prev (over e [] st3); rest := [];
                 groups := [(2, e); (1, s)] |}).
  assert (M : match_at true date_pattern st0 =
              Some {| m_from := st0; m_to := st4 |}).
  { unfold match_at.
    replace (run true date_pattern st0 Some) with (Some st4); [reflexivity|].
    symmetry. unfold date_pattern. cbn [Seqs Alts]. rewrite run_seq, run_group.
    apply (run_start_date s (g1 ++ dash :: g2 ++ e) st0 _ st4 Hs eq_refl).
    rewrite close_group_over by reflexivity. fold st1.
    rewrite run_seq.
    apply (run_star_word _ g1 (dash :: g2 ++ e));
      [reflexivity | apply gap_in_set; exact Hg1
       | destruct Hd as [-> | ->]; reflexivity |].
    rewrite run_seq.
    rewrite (run_char _ _ _ dash (g2 ++ e));
      [|apply rest_over; reflexivity | destruct Hd as [-> | ->]; reflexivity].
    cbv beta. fold st2. rewrite run_seq.
    apply (run_star_word _ g2 e);
      [reflexivity | apply gap_in_set; exact Hg2
       | rewrite <- (app_nil_r e); apply end_starts_solid; exact He |].
    fold st3. rewrite run_group.
    assert (C : close_group 2 st3 (over e [] st3) = st4).
    { rewrite close_group_over by (rewrite app_nil_r; exact R3).
      unfold st4, st3, st2. rewrite !groups_over. reflexivity. }
    destruct He as [He|He].
    - apply (run_end_date e [] st3 _ st4 He (eq_trans R3 (eq_sym (app_nil_r e)))).
      exact (f_equal Some C).
    - rewrite (run_present e st3 _ He R3). exact (f_equal Some C). }
  exists {| m_from := st0; m_to := st4 |}. split; [|split; reflexivity].
  unfold search. destruct text as [|c text'] eqn:T; cbn [search_from];
    fold st0; rewrite M; reflexivity.
Qed.

Lemma lstrip_solid (s : str) : solid s -> lstrip s = s.
Proof. destruct s as [|c s]; [reflexivity|]. cbn [solid lstrip]. intros ->. reflexivity. Qed.

Lemma strip_solid (s : str) : solid s -> solid (rev s) -> strip s = s.
Proof.
  intros H1 H2. unfold strip. rewrite (lstrip_solid s H1), (lstrip_solid _ H2).
  apply rev_involutive.
Qed.

Lemma letter_solid (c : char) : is_letter c = true -> isspace c = false.
Proof.
  intros H. pose proof (letter_not_space c H) as E.
  unfold in_set in E. cbn [existsb item_matches] in E.
  rewrite orb_false_r in E. exact E.
Qed.

Lemma digit_solid (c : char) : is_digit c = true -> isspace c = false.
Proof.
  intros H. pose proof (digit_not_space c H) as E.
  unfold in_set in E. cbn [existsb item_matches] in E.
  rewrite orb_false_r in E. exact E.
Qed.

Lemma present_cases (e : str) :
  says_present e ->
  exists c1 c2 c3 c4 c5 c6 c7, e = [c1; c2; c3; c4; c5; c6; c7] /\
    (c1 = 112 \/ c1 = 80)%N /\ (c2 = 114 \/ c2 = 82)%N /\ (c3 = 101 \/ c3 = 69)%N /\
    (c4 = 115 \/ c4 = 83)%N /\ (c5 = 101 \/ c5 = 69)%N /\ (c6 = 110 \/ c6 = 78)%N /\
    (c7 = 116 \/ c7 = 84)%N.
Proof.
  unfold says_present. intros H.
  destruct e as [|c1 [|c2 [|c3 [|c4 [|c5 [|c6 [|c7 [|c8 e]]]]]]]]; try discriminate H.
  cbn [map] in H. injection H as H1 H2 H3 H4 H5 H6 H7.
  apply ascii_lower_inv in H1, H2, H3, H4, H5, H6, H7; try (cbn; lia).
  exists c1, c2, c3, c4, c5, c6, c7. split; [reflexivity|]. cbn in *. tauto.
Qed.

Lemma end_strip (e : str) : is_end e -> strip e = e.
Proof.
  intros [[(c & w & y & -> & Hw & (d1 & d2 & d3 & d4 & -> & H1 & H2 & H3 & H4))
          | (d1 & d2 & d3 & d4 & -> & H1 & H2 & H3 & H4)] | H].
  - inversion Hw; subst. apply strip_solid.
    + cbn [app solid]. apply letter_solid; assumption.
    + rewrite rev_app_distr. cbn [rev app solid]. apply digit_solid; assumption.
  - apply strip_solid; cbn [rev app solid]; apply digit_solid; assumption.
  - apply present_cases in H
      as (c1 & c2 & c3 & c4 & c5 & c6 & c7 & -> & H1 & _ & _ & _ & _ & _ & H7).
    apply strip_solid; cbn [rev app solid];
      [destruct H1 as [-> | ->] | destruct H7 as [-> | ->]]; reflexivity.
Qed.

Lemma search_dotless (before : option char) (text : str) :
  dotless text -> search_from false duration_pattern before text = None.
Proof.
  assert (Stop : forall st,
            match rest st with c :: _ => c <> MIDDLE_DOT | [] => True end ->
            match_at false duration_pattern st = None).
  { intros st H. unfold match_at, duration_pattern. cbn [Seqs run].
    rewrite one_stop; [reflexivity|].
    destruct (rest st) as [|c t]; [exact I|].
    unfold chr_matches. cbn [andb]. rewrite orb_false_r.
    apply N.eqb_neq. congruence. }
  intros H. revert before. induction H as [|c text Hc H IH]; intros before;
    cbn [search_from]; rewrite Stop by (cbn [rest]; auto); [reflexivity | apply IH].
Qed.

Lemma dotless_app (a b : str) : dotless a -> dotless b -> dotless (a ++ b).
Proof. intros Ha Hb. apply Forall_app; split; assumption. Qed.

Lemma letter_dotless (c : char) : is_letter c = true -> c <> MIDDLE_DOT.
Proof. intros H ->. discriminate H. Qed.

Lemma digit_dotless (c : char) : is_digit c = true -> c <> MIDDLE_DOT.
Proof. intros H ->. discriminate H. Qed.

Lemma gap_dotless (g : str) : is_gap g -> dotless g.
Proof. apply Forall_impl. intros c H ->. discriminate H. Qed.

Lemma end_dotless (e : str) : is_end e -> dotless e.
Proof.
  intros [[(c & w & y & -> & Hw & (d1 & d2 & d3 & d4 & -> & H1 & H2 & H3 & H4))
          | (d1 & d2 & d3 & d4 & -> & H1 & H2 & H3 & H4)] | H].
  - apply dotless_app.
    + revert Hw. apply Forall_impl. exact letter_dotless.
    + repeat constructor; try (apply digit_dotless; assumption). discriminate.
  - repeat constructor; apply digit_dotless; assumption.
  - apply present_cases in H
      as (c1 & c2 & c3 & c4 & c5 & c6 & c7 & -> & H1 & H2 & H3 & H4 & H5 & H6 & H7).
    repeat constructor; intros E; rewrite E in *; unfold MIDDLE_DOT in *; lia.
Qed.

Theorem date_range_of_shapes (s g1 : str) (dash : char) (g2 e : str) :
  is_date s -> is_gap g1 -> is_dash dash -> is_gap g2 -> is_end e ->
  _extract_date_range (s ++ g1 ++ dash :: g2 ++ e) = (Some s, Some e, None).
Proof.
  intros Hs Hg1 Hd Hg2 He.
  destruct (date_pattern_groups s g1 dash g2 e Hs Hg1 Hd Hg2 He)
    as (m & Hm & G1 & G2).
  unfold _extract_date_range. rewrite Hm, G1, G2. cbn [option_map].
  rewrite (end_strip s (or_introl Hs)), (end_strip e He).
  unfold Re.search. rewrite search_dotless; [reflexivity|].
  apply dotless_app; [apply end_dotless; left; exact Hs|].
  apply dotless_app; [apply gap_dotless; exact Hg1|].
  constructor; [destruct Hd as [-> | ->]; discriminate|].
  apply dotless_app; [apply gap_dotless; exact Hg2 | apply end_dotless; exact He].
Qed.
End DateGrammar.

(** *** The duration *)

Section Lazy.
Context {U : Unicode}.
Import Re.

(** A greedy repetition fails when the continuation fails after every run
    of accepted characters it can stop at. *)
Lemma repeat_none (ok : char -> bool) (k : cursor -> option cursor) (fuel : nat)
    (st : cursor) :
  (forall w t, rest st = w ++ t -> Forall (fun c => ok c = true) w ->
               k (over w t st) = None) ->
  repeat_ (one ok) true k fuel st = None.
Proof.
  revert st. induction fuel as [|fuel IH]; intros st H; cbn [repeat_].
  - apply (H [] (rest st)); [reflexivity | constructor].
  - assert (K0 : k st = None) by (apply (H [] (rest st)); [reflexivity | constructor]).
    unfold one at 1. destruct (rest st) as [|c t] eqn:E; [exact K0|].
    destruct (ok c) eqn:Hc; [|exact K0].
    cbn [rest advance].
    replace (length t <? length (c :: t)) with true
      by (symmetry; apply Nat.ltb_lt; cbn [length]; lia).
    rewrite IH; [exact K0|].
    intros w t' E' Hw. cbn [rest advance] in E'. subst t.
    apply (H (c :: w) t'); [reflexivity | constructor; assumption].
  Qed.

(** A lazy repetition stops at the first place where the continuation
    succeeds. *)
Lemma repeat_lazy_word (ok : char -> bool) (d t : str) (st : cursor)
    (k : cursor -> option cursor) (x : cursor) (fuel : nat) :
  rest st = d ++ t ->
  Forall (fun c => ok c = true) d ->
  length d <= fuel ->
  (forall u v, d = u ++ v -> v <> [] -> k (over u (v ++ t) st) = None) ->
  k (over d t st) = Some x ->
  repeat_ (one ok) false k fuel st = Some x.
Proof.
  revert st fuel. induction d as [|c d IH]; intros st fuel E Hd Hf Hnone Hk.
  - cbn [over] in Hk. destruct fuel; cbn [repeat_]; [exact Hk|].
    rewrite Hk. reflexivity.
  - destruct fuel as [|fuel]; [cbn [length] in Hf; lia|]. cbn [repeat_].
    assert (K0 : k st = None) by (apply (Hnone [] (c :: d) eq_refl); discriminate).
    rewrite K0. cbn [orelse].
    inversion Hd; subst.
    rewrite (one_ok ok st _ c (d ++ t)) by assumption.
    cbn [rest advance]. rewrite E.
    replace (length (d ++ t) <? length ((c :: d) ++ t)) with true
      by (symmetry; apply Nat.ltb_lt; cbn [app length]; lia).
    apply IH; try assumption; try reflexivity.
    + cbn [length] in Hf; lia.
    + intros u v -> Hv. rewrite <- app_assoc.
      apply (Hnone (c :: u) v); [reflexivity | exact Hv].
Qed.
End Lazy.

Section Duration.
Import Re Patterns.
#[local] Existing Instance basic_latin.

Lemma sp_isspace (c : char) : sp c = isspace c.
Proof. unfold sp. cbn [existsb item_matches]. apply orb_false_r. Qed.

Lemma run_spaces (st : cursor) (k : cursor -> option cursor) :
  run false (Star true space) st k = repeat_ (one sp) true k (S (length (rest st))) st.
Proof. reflexivity. Qed.

Lemma run_dots (st : cursor) (k : cursor -> option cursor) :
  run false (Star false Dot) st k = repeat_ (one dot) false k (S (length (rest st))) st.
Proof. reflexivity. Qed.

(** A run of whitespace at the start of [v ++ r] stays inside [v] when [v]
    has a character that is not whitespace. *)
Lemma gap_within (w t v r : str) :
  w ++ t = v ++ r -> Forall (fun c => sp c = true) w ->
  (exists c, In c v /\ sp c = false) ->
  exists t0, t0 <> [] /\ v = w ++ t0 /\ t = t0 ++ r.
Proof.
  revert v. induction w as [|a w IH]; intros v E Hw (c & Hin & Hc).
  - exists v. cbn [app] in *. repeat split; auto.
    intros ->. destruct Hin.
  - destruct v as [|b v]; [destruct Hin|].
    cbn [app] in E. injection E as -> E.
    inversion Hw; subst.
    destruct (IH v E) as (t0 & H0 & -> & ->); [assumption| |].
    + destruct Hin as [<-|Hin]; [congruence|]. exists c; auto.
    + exists t0. auto.
Qed.

(** A non-empty end of a text that ends solid has a solid character. *)
Lemma tail_has_solid (u v : str) :
  v <> [] -> solid (rev (u ++ v)) -> exists c, In c v /\ sp c = false.
Proof.
  intros Hv H. rewrite rev_app_distr in H.
  destruct (rev v) as [|c rv] eqn:E.
  - apply (f_equal (@rev char)) in E. rewrite rev_involutive in E. contradiction.
  - cbn [app solid] in H. exists c. split.
    + apply in_rev. rewrite E. left; reflexivity.
    + rewrite sp_isspace. exact H.
Qed.

Lemma run_chr (p : char) (st : cursor) (k : cursor -> option cursor) :
  run false (Chr p) st k = one (chr_matches false p) st k.
Proof. reflexivity. Qed.

Lemma run_eol (st : cursor) (k : cursor -> option cursor) :
  run false Eol st k = guard (at_end st) st k.
Proof. reflexivity. Qed.

Lemma chr_stop (p : char) (t : str) :
  match t with c :: _ => c <> p | [] => True end ->
  match t with c :: _ => chr_matches false p c = false | [] => True end.
Proof.
  destruct t as [|c t]; [auto|]. intros H. unfold chr_matches. cbn [andb].
  rewrite orb_false_r. apply N.eqb_neq. congruence.
Qed.

(** Inside the duration the closing part of the pattern finds nothing. *)
Lemma closer_fails_inside (v r : str) (st : cursor) :
  rest st = v ++ r -> dotless v -> (exists c, In c v /\ sp c = false) ->
  run false closer_pattern st Some = None.
Proof.
  intros E Hdot Hsolid. unfold closer_pattern.
  rewrite run_alt_second.
  - rewrite run_eol. unfold guard, at_end. rewrite E.
    destruct Hsolid as (c & Hin & Hc).
    destruct v as [|b [|b' v]]; [destruct Hin | | reflexivity].
    destruct Hin as [<-|[]]. destruct r; [|reflexivity]. cbn [app].
    destruct (N.eqb_spec b NEWLINE) as [->|]; [discriminate Hc | reflexivity].
  - rewrite run_seq, run_spaces. apply repeat_none.
    intros w t Ew Hw.
    rewrite E in Ew.
    destruct (gap_within w t v r (eq_sym Ew) Hw Hsolid) as (t0 & H0 & -> & ->).
    rewrite run_chr. apply one_stop.
    rewrite (rest_over w (t0 ++ r)) by (rewrite E, <- app_assoc; reflexivity).
    apply chr_stop.
    destruct t0 as [|c t0]; [contradiction|]. cbn [app].
    intros ->.
    apply Forall_app in Hdot as [_ Hdot]. inversion Hdot; subst. congruence.
Qed.

(** After the duration the closing part matches, and keeps the groups. *)
Lemma closer_matches (t : str) (st : cursor) :
  is_closer t -> rest st = t ->
  exists x, run false closer_pattern st Some = Some x /\ groups x = groups st.
Proof.
  intros [-> | (g & r & Hg & ->)] E.
  - exists st. destruct st as [p r g]. cbn [rest] in E. subst r. split; reflexivity.
  - exists (over [MIDDLE_DOT] r (over g (MIDDLE_DOT :: r) st)). split.
    + unfold closer_pattern. apply run_alt_first.
      rewrite run_seq, run_spaces.
      apply (repeat_word sp g (MIDDLE_DOT :: r)); try assumption.
      * revert Hg. apply Forall_impl. intros c Hc. rewrite sp_isspace. exact Hc.
      * reflexivity.
      * rewrite E, length_app. lia.
      * rewrite run_chr.
        rewrite (one_ok _ _ _ MIDDLE_DOT r);
          [reflexivity | apply rest_over; exact E | reflexivity].
    + cbn [over]. unfold advance. cbn [groups]. apply groups_over.
Qed.

(** [duration_pattern] where a middle dot, a gap, a duration and what
    closes it begin: the group is the duration. *)
Lemma duration_pattern_group (g d t : str) (st : cursor) :
  is_gap g -> is_duration d -> is_closer t ->
  rest st = MIDDLE_DOT :: g ++ d ++ t -> groups st = [] ->
  exists m, match_at false duration_pattern st = Some m /\ group m 1 = Some d.
Proof.
  intros Hg (Hne & Hs & He & Hdot & Hnl) Ht E G.
  destruct d as [|c d]; [contradiction|]. clear Hne.
  set (st1 := over g ((c :: d) ++ t) (over [MIDDLE_DOT] (g ++ (c :: d) ++ t) st)).
  assert (R1 : rest st1 = (c :: d) ++ t) by (apply rest_over; reflexivity).
  set (st2 := {| prev := prev (over (c :: d) t st1); rest := t;
                 groups := [(1, c :: d)] |}).
  destruct (closer_matches t st2 Ht eq_refl) as (x & Hx & Gx).
  exists {| m_from := st; m_to := x |}. split.
  - unfold match_at.
    replace (run false duration_pattern st Some) with (Some x); [reflexivity|].
    symmetry. unfold duration_pattern. cbn [Seqs]. rewrite run_seq, run_chr.
    rewrite (one_ok _ _ _ MIDDLE_DOT (g ++ (c :: d) ++ t)) by (auto; reflexivity).
    rewrite run_seq, run_spaces.
    apply (repeat_word sp g ((c :: d) ++ t)).
    + reflexivity.
    + revert Hg. apply Forall_impl. intros a Ha. rewrite sp_isspace. exact Ha.
    + cbn [app]. rewrite sp_isspace. exact Hs.
    + cbn [rest advance]. rewrite length_app. lia.
    + fold st1. rewrite run_seq, run_group. unfold Plus. rewrite run_seq.
      change (run false Dot) with (one dot).
      inversion Hnl as [|? ? Hc Hnl']; subst.
      rewrite (one_ok dot st1 _ c (d ++ t));
        [|exact R1 | unfold dot; apply negb_true_iff, N.eqb_neq; exact Hc].
      rewrite run_dots.
      apply (repeat_lazy_word dot d t).
      * reflexivity.
      * revert Hnl'. apply Forall_impl. intros a Ha.
        unfold dot. apply negb_true_iff, N.eqb_neq. exact Ha.
      * cbn [rest advance]. rewrite length_app. lia.
      * intros u v -> Hv.
        apply (closer_fails_inside v t).
        -- unfold close_group. cbn [rest]. apply rest_over.
           cbn [rest advance]. rewrite <- app_assoc. reflexivity.
        -- inversion Hdot; subst. match goal with H : Forall _ (u ++ v) |- _ =>
             apply Forall_app in H as [_ H]; exact H end.
        -- apply (tail_has_solid (c :: u) v Hv). exact He.
      * assert (C : close_group 1 st1 (over (c :: d) t st1) = st2).
        { rewrite close_group_over by exact R1.
          unfold st2, st1. rewrite !groups_over, G. reflexivity. }
        rewrite <- C in Hx. exact Hx.
  - unfold group. cbn [m_to]. rewrite Gx. reflexivity.
Qed.

(** The duration pattern matches nowhere but at a middle dot. *)
Lemma duration_needs_dot (st : cursor) :
  match rest st with c :: _ => c <> MIDDLE_DOT | [] => True end ->
  match_at false duration_pattern st = None.
Proof.
  intros H. unfold match_at, duration_pattern. cbn [Seqs].
  rewrite run_seq, run_chr, one_stop; [reflexivity|].
  apply chr_stop. exact H.
Qed.

Lemma search_duration (before : option char) (pre g d t : str) :
  dotless pre -> is_gap g -> is_duration d -> is_closer t ->
  exists m,
    search_from false duration_pattern before (pre ++ MIDDLE_DOT :: g ++ d ++ t) = Some m /\
    group m 1 = Some d.
Proof.
  intros Hpre Hg Hd Ht. revert before.
  induction Hpre as [|c pre Hc Hpre IH]; intros before.
  - destruct (duration_pattern_group g d t
                {| prev := before; rest := MIDDLE_DOT :: g ++ d ++ t; groups := [] |}
                Hg Hd Ht eq_refl eq_refl) as (m & Hm & Gm).
    exists m. split; [|exact Gm]. cbn [app search_from]. rewrite Hm. reflexivity.
  - destruct (IH (Some c)) as (m & Hm & Gm). exists m. split; [|exact Gm].
    cbn [app search_from]. rewrite duration_needs_dot by (cbn [rest]; exact Hc).
    exact Hm.
Qed.

Theorem duration_of_shapes (pre g d t : str) :
  dotless pre -> is_gap g -> is_duration d -> is_closer t ->
  snd (_extract_date_range (pre ++ MIDDLE_DOT :: g ++ d ++ t)) = Some d.
Proof.
  intros Hpre Hg Hd Ht.
  destruct (search_duration None pre g d t Hpre Hg Hd Ht) as (m & Hm & Gm).
  unfold _extract_date_range.
  destruct (match search true date_pattern _ with Some _ => _ | None => _ end)
    as [start_date end_date].
  unfold search. rewrite Hm, Gm. cbn [option_map snd].
  destruct Hd as (_ & Hs & He & _). rewrite (strip_solid d Hs He). reflexivity.
Qed.
End Duration.

(** C3. [_extract_date_range] on "Jan 2019 - Present · 3 yrs 2 mos ·" gives
    the start "Jan 2019", the end "Present" and the duration "3 yrs 2 mos".
    The date grammar takes a start of the shape [Month YYYY] or [YYYY], a
    hyphen or an en dash with any whitespace around it, and an end of the
    shape [Month YYYY], [YYYY] or "Present", the month and "Present" in any
    case: on every such text the start and the end are returned as they
    are written. The duration is the text between the first middle dot and
    the next one, or the end of the text, without the whitespace around
    it. *)
Theorem date_range_grammar :
  _extract_date_range (U := basic_latin) Examples.dated_line =
    (Some (py "Jan 2019"), Some (py "Present"), Some (py "3 yrs 2 mos")) /\
  (forall start_date gap1 dash gap2 end_date,
     is_date start_date -> is_gap gap1 -> is_dash dash -> is_gap gap2 ->
     is_end end_date ->
     _extract_date_range (U := basic_latin)
       (start_date ++ gap1 ++ dash :: gap2 ++ end_date) =
     (Some start_date, Some end_date, None)) /\
  (forall before gap duration closer,
     dotless before -> is_gap gap -> is_duration duration -> is_closer closer ->
     snd (_extract_date_range (U := basic_latin)
            (before ++ MIDDLE_DOT :: gap ++ duration ++ closer)) =
     Some duration).
Proof.
  split; [reflexivity|]. split; [exact date_range_of_shapes|].
  exact duration_of_shapes.
Qed.

Lemma date_range_grammar_witness :
  is_date (py "sep 2019") /\ is_gap (py " ") /\ is_dash EN_DASH /\
  is_end (py "pReSent") /\
  dotless (py "Jan 2020 - Present ") /\ is_duration (py "1 yr 2 mos") /\
  is_closer (py " " ++ MIDDLE_DOT :: py " Remote") /\
  _extract_date_range (U := basic_latin)
    (py "sep 2019" ++ py " " ++ EN_DASH :: py " " ++ py "pReSent") =
  (Some (py "sep 2019"), Some (py "pReSent"), None) /\
  snd (_extract_date_range (U := basic_latin)
         (py "Jan 2020 - Present " ++ MIDDLE_DOT :: py " " ++ py "1 yr 2 mos" ++
          (py " " ++ MIDDLE_DOT :: py " Remote"))) =
  Some (py "1 yr 2 mos").
Proof.
  assert (Hs : is_date (py "sep 2019")).
  { left. exists 115%N, (py "ep"), (py "2019"). split; [reflexivity|]. split.
    - repeat constructor.
    - exists 50%N, 48%N, 49%N, 57%N. repeat split. }
  assert (Hg : is_gap (py " ")) by (repeat constructor).
  assert (Hd : is_dash EN_DASH) by (right; reflexivity).
  assert (He : is_end (py "pReSent")) by (right; reflexivity).
  assert (Hb : dotless (py "Jan 2020 - Present "))
    by (repeat constructor; discriminate).
  assert (Hu : is_duration (py "1 yr 2 mos")).
  { split; [discriminate|]. split; [reflexivity|]. split; [reflexivity|].
    split; repeat constructor; discriminate. }
  assert (Hc : is_closer (py " " ++ MIDDLE_DOT :: py " Remote")).
  { right. exists (py " "), (py " Remote"). split; [exact Hg | reflexivity]. }
  repeat (split; [assumption|]). split.
  - exact (proj1 (proj2 date_range_grammar) _ _ _ _ _ Hs Hg Hd Hg He).
  - exact (proj2 (proj2 date_range_grammar) _ _ _ _ Hb Hg Hu Hc).
Defined.

(** ** Education years *)

Section Century.
Context {U : Unicode}.
Import Re.

Lemma one_keeps_groups (ok : char -> bool) (st : cursor)
    (k : cursor -> option cursor) (b : cursor) (g : list (nat * str)) :
  (forall a, groups a = groups st -> k a = Some b -> groups b = g) ->
  one ok st k = Some b -> groups b = g.
Proof.
  unfold one. intros Hk. destruct (rest st) as [|c t]; [discriminate|].
  destruct (ok c); [|discriminate]. apply Hk. reflexivity.
Qed.

Lemma firstn_two {A : Type} (c1 c2 : A) (t : list A) :
  firstn (length (c1 :: c2 :: t) - length t) (c1 :: c2 :: t) = [c1; c2].
Proof.
  replace (length (c1 :: c2 :: t) - length t) with 2 by (cbn [length]; lia).
  reflexivity.
Qed.

Lemma chr_matches_exact (p c : char) : chr_matches false p c = true -> c = p.
Proof.
  unfold chr_matches. cbn [andb]. rewrite orb_false_r, N.eqb_eq. auto.
Qed.

(** Two literal characters inside group 1: the group holds exactly them. *)
Lemma two_chars_captured (p1 p2 : char) (st : cursor)
    (k : cursor -> option cursor) (b : cursor) :
  (forall a, k a = Some b -> groups b = groups a) ->
  one (chr_matches false p1) st
    (fun st0 => one (chr_matches false p2) st0
       (fun st1 => k (close_group 1 st st1))) = Some b ->
  groups b = (1, [p1; p2]) :: groups st.
Proof.
  intros Hk. unfold one.
  destruct (rest st) as [|c1 t1] eqn:E1; [discriminate|].
  destruct (chr_matches false p1 c1) eqn:M1; [|discriminate].
  cbn [rest advance].
  destruct t1 as [|c2 t]; [discriminate|].
  destruct (chr_matches false p2 c2) eqn:M2; [|discriminate].
  apply chr_matches_exact in M1, M2. subst c1 c2.
  intros H. apply Hk in H. rewrite H.
  unfold close_group. cbn [groups rest advance]. rewrite E1, firstn_two.
  reflexivity.
Qed.

(** Wherever the year pattern matches, its group holds "19" or "20". *)
Lemma year_match_century (st : cursor) (m : match_) :
  match_at false Patterns.year_pattern st = Some m ->
  groups (m_to m) = (1, py "19") :: groups st \/
  groups (m_to m) = (1, py "20") :: groups st.
Proof.
  unfold match_at.
  destruct (run false Patterns.year_pattern st Some) as [b|] eqn:E; [|discriminate].
  intros H; inversion H; subst m; clear H. cbn [m_to].
  revert E. unfold Patterns.year_pattern.
  cbn [Seqs run Rep Lit map py list_ascii_of_string digit].
  unfold guard at 1. destruct (at_boundary st); [|discriminate].
  assert (Hk : forall a,
            one (fun c => existsb (fun i => item_matches false i c) [IDigit]) a
              (fun st2 =>
                 one (fun c => existsb (fun i => item_matches false i c) [IDigit]) st2
                   (fun st3 => guard (at_boundary st3) st3 Some)) = Some b ->
            groups b = groups a).
  { intros a. apply one_keeps_groups. intros a1 E1.
    apply one_keeps_groups. intros a2 E2.
    unfold guard. destruct (at_boundary a2); [|discriminate].
    intros H; inversion H; subst. congruence. }
  unfold orelse.
  match goal with
  | |- match ?x with _ => _ end = _ -> _ => destruct x as [b'|] eqn:E19
  end.
  - intros H; inversion H; subst b'. left.
    exact (two_chars_captured _ _ st _ b Hk E19).
  - intros E20. right.
    exact (two_chars_captured _ _ st _ b Hk E20).
Qed.

Lemma search_from_match (ic : bool) (r : pattern) (before : option char)
    (text : str) (m : match_) :
  search_from ic r before text = Some m ->
  exists st, groups st = [] /\ match_at ic r st = Some m.
Proof.
  revert before. induction text as [|c text IH]; intros before; cbn [search_from].
  - destruct (match_at ic r _) eqn:E; [|discriminate].
    intros H; inversion H; subst. eexists; split; [|exact E]. reflexivity.
  - destruct (match_at ic r _) eqn:E.
    + intros H; inversion H; subst. eexists; split; [|exact E]. reflexivity.
    + apply IH.
Qed.

Lemma finditer_from_match (ic : bool) (r : pattern) (fuel : nat)
    (before : option char) (text : str) (m : match_) :
  In m (finditer_from ic fuel r before text) ->
  exists st, groups st = [] /\ match_at ic r st = Some m.
Proof.
  revert before text. induction fuel as [|fuel IH]; intros before text;
    cbn [finditer_from]; [intros []|].
  destruct (search_from ic r before text) as [m0|] eqn:E; [|intros []].
  destruct (length (rest (m_to m0)) <? length (rest (m_from m0))).
  - intros [<-|Hin]; [eapply search_from_match; exact E | eapply IH; exact Hin].
  - intros [<-|Hin]; [eapply search_from_match; exact E|].
    destruct (rest (m_to m0)); [destruct Hin | eapply IH; exact Hin].
Qed.

(** Every string [re.findall] returns for the year pattern is a century. *)
Lemma findall_years_century (text year : str) :
  In year (findall false Patterns.year_pattern text) ->
  year = py "19" \/ year = py "20".
Proof.
  unfold findall, finditer. rewrite in_map_iff. intros (m & <- & Hin).
  apply finditer_from_match in Hin as (st & Hg & Hm).
  apply year_match_century in Hm. rewrite Hg in Hm.
  change (ngroups Patterns.year_pattern) with 1. unfold group.
  destruct Hm as [-> | ->]; cbn; auto.
Qed.
End Century.

(** The years [education_rules] stores are results of [re.findall]. *)
Lemma education_rules_years {U : Unicode} (text_elements : list str) (year : str) :
  Education.start_year (education_rules text_elements) = Some year \/
  Education.end_year (education_rules text_elements) = Some year ->
  exists text, In year (Re.findall false Patterns.year_pattern text).
Proof.
  unfold education_rules.
  destruct text_elements as [|institution_name l]; [intros [H|H]; discriminate|].
  repeat match goal with
    | |- context [let '(_, _) := ?e in _] => destruct e eqn:?
    end.
  cbn [Education.start_year Education.end_year].
  match goal with
  | H : match ?dated with Some _ => _ | None => (None, None) end = (?a, ?b)
    |- ?a = _ \/ ?b = _ -> _ =>
      destruct dated as [text|]; [|inversion H; intros [E|E]; discriminate];
      destruct (Re.findall false Patterns.year_pattern text)
        as [|y0 [|y1 [|y2 ys]]] eqn:F;
      inversion H; subst; intros [E|E]; try discriminate;
      inversion E; subst; exists text; rewrite F; simpl; auto
  end.
Qed.

(** C1, on the code. The year pattern has a capturing group around the
    century, so [re.findall] returns what the group captured and the year
    fields only ever hold "19" or "20": "2015 - 2019" gives start "20" and
    end "20" where the years 2015 and 2019 are expected, and "Graduated
    2020" gives end "20". The count of the years is as specified: two set
    both fields, one sets the end, none or three leave both unset. *)
Theorem education_years_hold_only_the_century {U : Unicode} :
  (forall text year,
     In year (Re.findall false Patterns.year_pattern text) ->
     year = py "19" \/ year = py "20") /\
  (forall text_elements year,
     Education.start_year (education_rules text_elements) = Some year \/
     Education.end_year (education_rules text_elements) = Some year ->
     year = py "19" \/ year = py "20") /\
  (let years := Re.findall (U := basic_latin) false Patterns.year_pattern in
   let parsed := fun text =>
     let education :=
       _parse_education_item (U := basic_latin) (Examples.school_item text) in
     (Education.start_year education, Education.end_year education) in
   years (py "2015 - 2019") = [py "20"; py "20"] /\
   years (py "Graduated 2020") = [py "20"] /\
   years (py "no years here") = [] /\
   parsed "2015 - 2019" = (Some (py "20"), Some (py "20")) /\
   parsed "Graduated 2020" = (None, Some (py "20")) /\
   parsed "no years here" = (None, None) /\
   parsed "1998, 2001 and 2005" = (None, None)).
Proof.
  split; [exact findall_years_century|]. split.
  - intros text_elements year H.
    apply education_rules_years in H as (text & Hin).
    exact (findall_years_century text year Hin).
  - cbv zeta. repeat split; reflexivity.
Qed.

Lemma education_years_hold_only_the_century_witness :
  Education.end_year
    (education_rules (U := basic_latin) [py "MIT"; py "2015 - 2019"]) =
    Some (py "20") /\
  (py "20" = py "19" \/ py "20" = py "20").
Proof.
  assert (E : Education.end_year
                (education_rules (U := basic_latin) [py "MIT"; py "2015 - 2019"]) =
              Some (py "20")) by reflexivity.
  split; [exact E|].
  exact (proj1 (proj2 (@education_years_hold_only_the_century basic_latin))
               [py "MIT"; py "2015 - 2019"] (py "20") (or_intror E)).
Defined.

(** * Further properties *)

(** ** Normalized text *)

Section NormalForm.
Context {U : Unicode}.

Lemma lstrip_suffix (s : str) : exists pre, s = pre ++ lstrip s /\ blank pre.
Proof.
  induction s as [|c s (pre & E & B)]; cbn [lstrip].
  - exists []. split; [reflexivity | constructor].
  - destruct (isspace c) eqn:Hc.
    + exists (c :: pre). split; [cbn [app]; f_equal; exact E | constructor; assumption].
    + exists []. split; [reflexivity | constructor].
Qed.

Lemma lstrip_edge (s : str) : edge_solid (lstrip s).
Proof.
  induction s as [|c s IH]; cbn [lstrip]; [exact I|].
  destruct (isspace c) eqn:Hc; [exact IH | exact Hc].
Qed.

Lemma lstrip_id (s : str) : edge_solid s -> lstrip s = s.
Proof. destruct s as [|c s]; [reflexivity|]. cbn [edge_solid lstrip]. intros ->. reflexivity. Qed.

Lemma lstrip_nil (s : str) : lstrip s = [] <-> blank s.
Proof.
  induction s as [|c s IH]; cbn [lstrip].
  - split; [constructor | reflexivity].
  - destruct (isspace c) eqn:Hc.
    + rewrite IH. split; [constructor; assumption | intros H; inversion H; assumption].
    + split; [discriminate | intros H; inversion H; congruence].
Qed.

Lemma blank_app (a b : str) : blank (a ++ b) <-> blank a /\ blank b.
Proof. apply Forall_app. Qed.

Lemma blank_rev (s : str) : blank (rev s) <-> blank s.
Proof.
  unfold blank. rewrite !Forall_forall. split; intros H c Hc; apply H;
    [apply in_rev in Hc | apply in_rev]; try rewrite rev_involutive; assumption.
Qed.

Lemma edge_rev_suffix (pre s : str) : s <> [] -> edge_solid (rev (pre ++ s)) <-> edge_solid (rev s).
Proof.
  intros Hs. rewrite rev_app_distr.
  destruct (rev s) as [|c r] eqn:E; [|reflexivity].
  apply (f_equal (@rev char)) in E. rewrite rev_involutive in E. contradiction.
Qed.

Lemma strip_edges (s : str) : edge_solid (strip s) /\ edge_solid (rev (strip s)).
Proof.
  unfold strip. rewrite rev_involutive. split; [|apply lstrip_edge].
  destruct (lstrip_suffix (rev (lstrip s))) as (pre & E & _).
  destruct (lstrip (rev (lstrip s))) as [|c r] eqn:L; [exact I|].
  assert (H : edge_solid (rev (pre ++ c :: r))).
  { rewrite <- E, rev_involutive. apply lstrip_edge. }
  apply edge_rev_suffix in H; [exact H | discriminate].
Qed.

Lemma strip_nil (s : str) : strip s = [] <-> blank s.
Proof.
  unfold strip. split.
  - intros H. apply (f_equal (@rev char)) in H. rewrite rev_involutive in H.
    cbn [rev] in H. apply lstrip_nil in H. rewrite blank_rev in H.
    destruct (lstrip_suffix s) as (pre & E & B). rewrite E.
    apply blank_app. split; [exact B | exact H].
  - intros H. apply lstrip_nil in H. rewrite H. reflexivity.
Qed.

Lemma strip_id (s : str) : edge_solid s -> edge_solid (rev s) -> strip s = s.
Proof.
  intros H1 H2. unfold strip. rewrite (lstrip_id s H1), (lstrip_id _ H2).
  apply rev_involutive.
Qed.

Lemma sub_spaces_spaced (s : str) :
  (forall b, spaced b (sub_spaces true s)) /\ spaced false (sub_spaces false s).
Proof.
  induction s as [|c s [IHt IHf]]; [split; intros; exact I|].
  cbn [sub_spaces]. destruct (isspace c) eqn:Hc.
  - split; [exact IHt|]. cbn [spaced].
    destruct (isspace SPACE); [repeat split|]; apply IHt.
  - split; [intros b|]; cbn [spaced]; rewrite Hc; exact IHf.
Qed.

Lemma spaced_fixed (s : str) (b : bool) : spaced b s -> sub_spaces b s = s.
Proof.
  revert b. induction s as [|c s IH]; intros b; [reflexivity|].
  cbn [spaced sub_spaces]. destruct (isspace c).
  - intros (-> & -> & H). f_equal. apply IH; exact H.
  - intros H. f_equal. apply IH; exact H.
Qed.

Lemma sub_spaces_head (s : str) (b : bool) :
  edge_solid s -> edge_solid (sub_spaces b s) /\ (s <> [] -> sub_spaces b s <> []).
Proof.
  destruct s as [|c s]; [split; [exact I | auto]|].
  cbn [edge_solid sub_spaces]. intros Hc. rewrite Hc. split; [exact Hc | discriminate].
Qed.

Lemma sub_spaces_snoc (s : str) (c : char) (b : bool) :
  isspace c = false -> sub_spaces b (s ++ [c]) = sub_spaces b s ++ [c].
Proof.
  intros Hc. revert b. induction s as [|a s IH]; intros b; cbn [app sub_spaces].
  - rewrite Hc. reflexivity.
  - destruct (isspace a); [destruct b|]; rewrite IH; reflexivity.
Qed.

Lemma sub_spaces_last (s : str) (b : bool) :
  edge_solid (rev s) -> edge_solid (rev (sub_spaces b s)).
Proof.
  destruct (rev s) as [|c r] eqn:E.
  - apply (f_equal (@rev char)) in E. rewrite rev_involutive in E. subst s. auto.
  - apply (f_equal (@rev char)) in E. rewrite rev_involutive in E. subst s.
    cbn [rev edge_solid]. intros Hc. rewrite sub_spaces_snoc by exact Hc.
    rewrite rev_app_distr. exact Hc.
Qed.

Lemma _normalize_text_normal (text s : str) :
  _normalize_text text = Some s -> normal s.
Proof.
  unfold _normalize_text. destruct text as [|c0 text0]; [discriminate|].
  set (text := c0 :: text0).
  destruct (sub_spaces false (strip text)) as [|c r] eqn:E; [discriminate|].
  intros H; inversion H; subst s. rewrite <- E.
  destruct (strip_edges text) as [H1 H2].
  split; [rewrite E; discriminate|].
  split; [apply sub_spaces_head; exact H1|].
  split; [apply sub_spaces_last; exact H2 | apply sub_spaces_spaced].
Qed.

Lemma normal_fixed (s : str) : normal s -> _normalize_text s = Some s.
Proof.
  intros (Hne & H1 & H2 & Hs). unfold _normalize_text.
  destruct s as [|c s]; [contradiction|].
  rewrite (strip_id _ H1 H2), (spaced_fixed _ _ Hs). reflexivity.
Qed.

Lemma _normalize_text_none (text : str) :
  _normalize_text text = None <-> blank text.
Proof.
  unfold _normalize_text. destruct text as [|c0 text0]; [split; [constructor | reflexivity]|].
  set (text := c0 :: text0).
  destruct (sub_spaces false (strip text)) as [|c r] eqn:E.
  - split; [intros _ | reflexivity]. apply strip_nil.
    destruct (strip text) as [|a l] eqn:S; [reflexivity|].
    pose proof (proj1 (strip_edges text)) as H1. rewrite S in H1.
    cbn [sub_spaces edge_solid] in *. rewrite H1 in E. discriminate.
  - split; [discriminate|]. intros B. apply strip_nil in B. rewrite B in E. discriminate.
Qed.
Lemma edge_solid_snoc (l : str) (a : char) :
  edge_solid l -> (l = [] -> isspace a = false) -> edge_solid (l ++ [a]).
Proof. destruct l; cbn [app edge_solid]; auto. Qed.

Lemma spaced_inside (b : bool) (pre : str) (c : char) (post : str) :
  spaced b (pre ++ c :: post) -> isspace c = true ->
  c = SPACE /\ edge_solid post /\ edge_solid (rev pre) /\ (pre = [] -> b = false).
Proof.
  revert b. induction pre as [|a pre IH]; intros b; cbn [app spaced].
  - intros H Hc. rewrite Hc in H. destruct H as (E & Eb & H).
    split; [exact E|]. split; [|split; [exact I | intros _; exact Eb]].
    destruct post as [|d post]; [exact I|]. cbn [spaced edge_solid] in *.
    destruct (isspace d); [destruct H as (_ & F & _); discriminate F | reflexivity].
  - intros H Hc. destruct (isspace a) eqn:Ha.
    + destruct H as (_ & _ & H). destruct (IH true H Hc) as (E & Hp & Hr & Hb).
      destruct pre as [|a' pre]; [discriminate (Hb eq_refl)|].
      split; [exact E|]. split; [exact Hp|]. split; [|discriminate].
      cbn [rev] in *. apply edge_solid_snoc; [exact Hr|].
      intros F. destruct (rev pre); discriminate F.
    + destruct (IH false H Hc) as (E & Hp & Hr & _).
      split; [exact E|]. split; [exact Hp|]. split; [|discriminate].
      cbn [rev]. apply edge_solid_snoc; [exact Hr | intros _; exact Ha].
Qed.
End NormalForm.

(** X1. What [_normalize_text] returns is never empty, neither begins nor
    ends with whitespace, and every whitespace character in it is a single
    space with other characters on both sides. *)
Theorem _normalize_text_shape {U : Unicode} (text s : str) :
  _normalize_text text = Some s ->
  s <> [] /\ edge_solid s /\ edge_solid (rev s) /\
  (forall pre c post, s = pre ++ c :: post -> isspace c = true ->
     c = SPACE /\ pre <> [] /\ post <> [] /\
     edge_solid (rev pre) /\ edge_solid post).
Proof.
  intros H. apply _normalize_text_normal in H as (Hne & H1 & H2 & Hs).
  split; [exact Hne|]. split; [exact H1|]. split; [exact H2|].
  intros pre c post -> Hc.
  destruct (spaced_inside false pre c post Hs Hc) as (E & Hp & Hr & _).
  split; [exact E|]. split; [|split; [|split; assumption]].
  - intros ->. cbn [app edge_solid] in H1. congruence.
  - intros ->. rewrite rev_app_distr in H2. cbn [rev app edge_solid] in H2. congruence.
Qed.

Lemma _normalize_text_shape_witness :
  _normalize_text (U := basic_latin) (py "  a   b  c ") = Some (py "a b c") /\
  py "a b c" <> [].
Proof.
  assert (E : _normalize_text (U := basic_latin) (py "  a   b  c ") = Some (py "a b c"))
    by reflexivity.
  split; [exact E|].
  exact (proj1 (@_normalize_text_shape basic_latin _ _ E)).
Defined.

(** X2. [_normalize_text] is idempotent: a text it returned is returned
    unchanged. It returns nothing exactly for the texts that are empty or
    made of whitespace only. *)
Theorem _normalize_text_idempotent {U : Unicode} :
  (forall text s, _normalize_text text = Some s -> _normalize_text s = Some s) /\
  (forall text, _normalize_text text = None <-> blank text).
Proof.
  split.
  - intros text s H. apply normal_fixed. eapply _normalize_text_normal; exact H.
  - exact _normalize_text_none.
Qed.

Lemma _normalize_text_idempotent_witness :
  _normalize_text (U := basic_latin) (py " Acme   Corp ") = Some (py "Acme Corp") /\
  _normalize_text (U := basic_latin) (py "Acme Corp") = Some (py "Acme Corp").
Proof.
  assert (E : _normalize_text (U := basic_latin) (py " Acme   Corp ") =
              Some (py "Acme Corp")) by reflexivity.
  split; [exact E|].
  exact (proj1 (@_normalize_text_idempotent basic_latin) _ _ E).
Defined.


(** ** Groups of a match *)

Section Reaches.
Context {U : Unicode}.
Variable ic : bool.
Import Re.

Lemma grown_refl (g : list (nat * str)) : grown g g.
Proof. exists []. reflexivity. Qed.

Lemma grown_trans (g1 g2 g3 : list (nat * str)) :
  grown g1 g2 -> grown g2 g3 -> grown g1 g3.
Proof. intros (a & ->) (b & ->). exists (b ++ a). apply app_assoc. Qed.

Lemma one_reaches (ok : char -> bool) (st : cursor) (k : cursor -> option cursor)
    (x : cursor) :
  one ok st k = Some x -> exists st', k st' = Some x /\ grown (groups st) (groups st').
Proof.
  unfold one. destruct (rest st) as [|c t]; [discriminate|].
  destruct (ok c); [|discriminate]. intros H.
  eexists; split; [exact H | apply grown_refl].
Qed.

Lemma guard_reaches (b : bool) (st : cursor) (k : cursor -> option cursor)
    (x : cursor) :
  guard b st k = Some x -> exists st', k st' = Some x /\ grown (groups st) (groups st').
Proof.
  unfold guard. destruct b; [|discriminate]. intros H.
  exists st; split; [exact H | apply grown_refl].
Qed.

Lemma repeat_reaches (step : cursor -> (cursor -> option cursor) -> option cursor)
    (greedy : bool) (k : cursor -> option cursor) (x : cursor) :
  (forall st k', step st k' = Some x ->
     exists st', k' st' = Some x /\ grown (groups st) (groups st')) ->
  forall fuel st, repeat_ step greedy k fuel st = Some x ->
  exists st', k st' = Some x /\ grown (groups st) (groups st').
Proof.
  intros Hstep. induction fuel as [|fuel IH]; intros st; cbn [repeat_].
  - intros H. exists st; split; [exact H | apply grown_refl].
  - assert (Again : step st (fun st' =>
                      if length (rest st') <? length (rest st)
                      then repeat_ step greedy k fuel st' else None) = Some x ->
                    exists st', k st' = Some x /\ grown (groups st) (groups st')).
    { intros H. apply Hstep in H as (st1 & H & G1).
      destruct (length (rest st1) <? length (rest st)); [|discriminate].
      apply IH in H as (st2 & H & G2). exists st2; split; [exact H|].
      eapply grown_trans; eassumption. }
    assert (Here : k st = Some x ->
                   exists st', k st' = Some x /\ grown (groups st) (groups st')).
    { intros H. exists st; split; [exact H | apply grown_refl]. }
    destruct greedy; unfold orelse.
    + destruct (step st _).
      * intros H; inversion H; subst. apply Again. reflexivity.
      * exact Here.
    + destruct (k st).
      * intros H; inversion H; subst. apply Here. reflexivity.
      * exact Again.
Qed.

(** Where a pattern matches, its continuation was run at a cursor whose
    groups are those before the pattern and what it closed. *)
Lemma run_reaches (r : pattern) (st : cursor) (k : cursor -> option cursor)
    (x : cursor) :
  run ic r st k = Some x ->
  exists st', k st' = Some x /\ grown (groups st) (groups st').
Proof.
  revert st k. induction r as [| p | items | | | | | a IHa b IHb | a IHa b IHb
                              | greedy a IHa | n a IHa]; intros st k; cbn [run].
  - intros H. exists st; split; [exact H | apply grown_refl].
  - apply one_reaches.
  - apply one_reaches.
  - apply one_reaches.
  - apply guard_reaches.
  - apply guard_reaches.
  - apply guard_reaches.
  - intros H. apply IHa in H as (st1 & H & G1). apply IHb in H as (st2 & H & G2).
    exists st2; split; [exact H | eapply grown_trans; eassumption].
  - unfold orelse. destruct (run ic a st k) eqn:E.
    + intros H; inversion H; subst. apply IHa. exact E.
    + apply IHb.
  - apply repeat_reaches. intros st0 k'. apply IHa.
  - intros H. apply IHa in H as (st1 & H & G1).
    exists (close_group n st st1). split; [exact H|].
    destruct G1 as (more & G1). exists ((n, firstn (length (rest st) - length (rest st1)) (rest st)) :: more).
    unfold close_group. cbn [groups app]. rewrite G1. reflexivity.
Qed.

Lemma run_seq_cont (a b : pattern) (st : cursor) (k : cursor -> option cursor) (x : cursor) :
  run ic (Seq a b) st k = Some x ->
  exists st', run ic b st' k = Some x /\ grown (groups st) (groups st').
Proof. cbn [run]. apply run_reaches. Qed.

Lemma run_group_cont (n : nat) (a : pattern) (st : cursor)
    (k : cursor -> option cursor) (x : cursor) :
  run ic (Group n a) st k = Some x ->
  exists st', k (close_group n st st') = Some x.
Proof. cbn [run]. intros H. apply run_reaches in H as (st1 & H & _). eauto. Qed.

(** A group that closes a pattern is the first of the groups of the match. *)
Lemma run_last_group (n : nat) (a : pattern) (st x : cursor) :
  run ic (Group n a) st Some = Some x -> exists v more, groups x = (n, v) :: more.
Proof.
  cbn [run]. intros H. apply run_reaches in H as (st1 & H & _).
  inversion H; subst. unfold close_group. cbn [groups]. eauto.
Qed.

Lemma grown_group (g g' : list (nat * str)) (n : nat) (v : str) :
  grown ((n, v) :: g) g' -> find (fun e => fst e =? n) g' <> None.
Proof.
  intros (more & ->). induction more as [|e more IH]; cbn [app find].
  - cbn [fst]. rewrite Nat.eqb_refl. discriminate.
  - destruct (fst e =? n); [discriminate | exact IH].
Qed.
End Reaches.

(** Both groups of the date pattern are set wherever it matches. *)
Lemma date_pattern_sets_groups {U : Unicode} (text : str) (m : Re.match_) :
  Re.search true Patterns.date_pattern text = Some m ->
  Re.group m 1 <> None /\ Re.group m 2 <> None.
Proof.
  unfold Re.search. intros H.
  apply search_from_match in H as (st & _ & H). unfold Re.match_at in H.
  destruct (Re.run true Patterns.date_pattern st Some) as [x|] eqn:E; [|discriminate].
  inversion H; subst m; clear H. unfold Re.group. cbn [Re.m_to].
  unfold Patterns.date_pattern in E. cbn [Re.Seqs] in E.
  match type of E with
  | Re.run _ (Re.Seq (Re.Group 1 ?a) ?tail) _ _ = _ =>
      apply (run_group_cont true 1 a st (fun st' => Re.run true tail st' Some)) in E
        as (st1 & E)
  end.
  assert (G1 : grown (Re.groups (Re.close_group 1 st st1)) (Re.groups x)).
  { apply run_reaches in E as (st2 & E & G). inversion E; subst. exact G. }
  split.
  - destruct (find _ (Re.groups x)) eqn:F; [discriminate|].
    exfalso. exact (grown_group _ _ _ _ G1 F).
  - apply run_seq_cont in E as (s2 & E & _).
    apply run_seq_cont in E as (s3 & E & _).
    apply run_seq_cont in E as (s4 & E & _).
    apply run_last_group in E as (v & more & ->).
    cbn [find fst]. discriminate.
Qed.

(** ** The rule chains *)

Lemma remove_first_incl (x : str) (l : list str) : incl (remove_first x l) l.
Proof.
  induction l as [|y l IH]; cbn [remove_first]; [apply incl_refl|].
  destruct (str_eqb x y).
  - apply incl_tl, incl_refl.
  - intros z [<-|Hz]; [left; reflexivity | right; apply IH; exact Hz].
Qed.

Lemma take_first_some (p : str -> bool) (l : list str) (x : str) (l' : list str) :
  take_first p l = (Some x, l') ->
  p x = true /\ incl l' l /\
  exists pre post, l = pre ++ x :: post /\ forall y, In y pre -> p y = false.
Proof.
  unfold take_first. destruct (find p l) as [y|] eqn:F; [|discriminate].
  intros H; inversion H; subst. apply find_split in F as (pre & post & E & Hx & Hpre).
  split; [exact Hx|]. split; [apply remove_first_incl|]. eauto.
Qed.

Lemma take_first_in (p : str -> bool) (l : list str) (x : str) (l' : list str) :
  take_first p l = (Some x, l') -> In x l.
Proof.
  intros H. apply take_first_some in H as (_ & _ & pre & post & -> & _).
  apply in_elt.
Qed.

Lemma take_first_incl (p : str -> bool) (l : list str) (o : option str) (l' : list str) :
  take_first p l = (o, l') -> incl l' l.
Proof.
  destruct o as [x|]; [intros H; apply take_first_some in H; apply H|].
  unfold take_first. destruct (find p l); [discriminate|].
  intros H; inversion H; subst. apply incl_refl.
Qed.

Section ExperienceChain.
Context {U : Unicode}.

Lemma title_scan_some (l : list str) (t : str) (after : list str) :
  title_scan l = Some (t, after) ->
  exists pre, l = pre ++ t :: after /\ is_title t = true /\
              forall x, In x pre -> is_title x = false.
Proof.
  induction l as [|x l IH]; cbn [title_scan]; [discriminate|].
  destruct (is_title x) eqn:Hx.
  - intros H; inversion H; subst. exists []. repeat split; auto. intros y [].
  - intros H. apply IH in H as (pre & -> & Ht & Hpre).
    exists (x :: pre). repeat split; auto. intros y [<-|Hy]; auto.
Qed.

Lemma title_scan_none (l : list str) :
  title_scan l = None <-> forall x, In x l -> is_title x = false.
Proof.
  induction l as [|x l IH]; cbn [title_scan].
  - split; [intros _ y [] | reflexivity].
  - destruct (is_title x) eqn:Hx.
    + split; [discriminate | intros H; specialize (H x (or_introl eq_refl)); congruence].
    + rewrite IH. split; [intros H y [<-|Hy]; auto | intros H y Hy; apply H; right; exact Hy].
Qed.

(** The working lists of [experience_rules], step by step. *)
Lemma experience_rules_steps (text_elements : list str)
    (description_list : list Soup.element) :
  text_elements <> [] ->
  exists title te1 company te2 employment te3 dated te4 place te5,
    match title_scan text_elements with
    | Some (text, after) => (Some text, after)
    | None => (None, text_elements)
    end = (title, te1) /\
    shift te1 = (company, te2) /\
    take_first (any_in EMPLOYMENT_TYPES) te2 = (employment, te3) /\
    take_first has_date_range te3 = (dated, te4) /\
    take_first is_location te4 = (place, te5) /\
    let range := match dated with
                 | Some text => _extract_date_range text
                 | None => (None, None, None)
                 end in
    experience_rules text_elements description_list =
    {| Experience.job_title := title;
       Experience.company_name := company;
       Experience.employment_type := employment;
       Experience.start_date := fst (fst range);
       Experience.end_date := snd (fst range);
       Experience.duration := snd range;
       Experience.location := place;
       Experience.description :=
         match description_list with
         | [] => filter (fun text => 50 <? length text) te5
         | _ => texts (fun _ => true) description_list
         end |}.
Proof.
  intros Hne. unfold experience_rules.
  destruct text_elements as [|x l]; [contradiction|].
  destruct (match title_scan (x :: l) with
            | Some (text, after) => (Some text, after)
            | None => (None, x :: l)
            end) as [title te1] eqn:E1.
  destruct (shift te1) as [company te2] eqn:E2.
  destruct (take_first (any_in EMPLOYMENT_TYPES) te2) as [employment te3] eqn:E3.
  destruct (take_first has_date_range te3) as [dated te4] eqn:E4.
  destruct (take_first is_location te4) as [place te5] eqn:E5.
  exists title, te1, company, te2, employment, te3, dated, te4, place, te5.
  split; [reflexivity|]. repeat (split; [assumption|]). cbv zeta.
  destruct (match dated with Some text => _extract_date_range text | None => _ end)
    as [[start_date end_date] duration].
  reflexivity.
Qed.
End ExperienceChain.

(** ** Experience records *)

Lemma shift_incl (l : list str) (o : option str) (l' : list str) :
  shift l = (o, l') -> incl l' l.
Proof.
  destruct l; cbn [shift]; intros H; inversion H; subst;
    [apply incl_refl | apply incl_tl, incl_refl].
Qed.

Lemma shift_in (l : list str) (x : str) (l' : list str) :
  shift l = (Some x, l') -> In x l.
Proof. destruct l; cbn [shift]; intros H; inversion H; subst. left; reflexivity. Qed.

Section ExperienceFacts.
Context {U : Unicode}.

Lemma after_title_incl (text_elements : list str) (title : option str)
    (te1 : list str) :
  match title_scan text_elements with
  | Some (text, after) => (Some text, after)
  | None => (None, text_elements)
  end = (title, te1) ->
  incl te1 text_elements.
Proof.
  destruct (title_scan text_elements) as [[t' after]|] eqn:S; intros H;
    inversion H; subst; [|apply incl_refl].
  apply title_scan_some in S as (pre & -> & _).
  intros y Hy. apply in_or_app. right. right. exact Hy.
Qed.

Lemma after_title_in (text_elements : list str) (t : str) (te1 : list str) :
  match title_scan text_elements with
  | Some (text, after) => (Some text, after)
  | None => (None, text_elements)
  end = (Some t, te1) ->
  In t text_elements /\ title_like t.
Proof.
  destruct (title_scan text_elements) as [[t' after]|] eqn:S; intros H;
    inversion H; subst.
  apply title_scan_some in S as (pre & -> & Ht & _).
  split; [apply in_elt | apply is_title_iff; exact Ht].
Qed.

Lemma title_like_non_empty (t : str) : title_like t -> t <> [].
Proof. intros (H & _) ->. cbn [length] in H. lia. Qed.

Lemma job_title_iff (text_elements : list str) (description_list : list Soup.element) :
  non_empty (Experience.job_title (experience_rules text_elements description_list)) <->
  exists t, In t text_elements /\ title_like t.
Proof.
  rewrite experience_rules_job_title. split.
  - intros (t & E & _). destruct (title_scan text_elements) as [[t' after]|] eqn:S;
      [|discriminate]. cbn [option_map fst] in E. inversion E; subst t'.
    apply title_scan_some in S as (pre & -> & Ht & _).
    exists t. split; [apply in_elt | apply is_title_iff; exact Ht].
  - intros (t & Hin & Ht). destruct (title_scan text_elements) as [[t' after]|] eqn:S.
    + exists t'. split; [reflexivity|]. apply title_like_non_empty, is_title_iff.
      eapply title_scan_is_title; exact S.
    + exfalso. rewrite title_scan_none in S. apply is_title_iff in Ht.
      rewrite (S t Hin) in Ht. discriminate.
Qed.
End ExperienceFacts.

(** X3. An experience sub-block is kept exactly when one of its fragments
    is longer than 3 characters and has neither "experience" nor a middle
    dot in its lower-cased form. When no fragment is, the record has no job
    title and its company name is the first fragment. *)
Theorem experience_kept_iff_title_like {U : Unicode} :
  (forall text_elements description_list,
     non_empty (Experience.job_title
                  (experience_rules text_elements description_list)) <->
     exists t, In t text_elements /\ title_like t) /\
  (forall text_elements description_list,
     (forall t, In t text_elements -> ~ title_like t) ->
     Experience.job_title (experience_rules text_elements description_list) = None /\
     Experience.company_name (experience_rules text_elements description_list) =
       hd_error text_elements) /\
  (forall soup item,
     In item (list_items_of soup "experience") ->
     (In (_parse_experience_item item) (ProfileData.experience (extract soup)) <->
      exists t, In t (texts (fun _ => true) (Soup.find_all FRAGMENT_TAGS item)) /\
                title_like t)).
Proof.
  split; [exact job_title_iff|]. split.
  - intros text_elements description_list Hnone.
    assert (S : title_scan text_elements = None).
    { apply title_scan_none. intros x Hx. apply is_title_false_iff. auto. }
    split; [rewrite experience_rules_job_title, S; reflexivity|].
    destruct text_elements as [|x l]; [reflexivity|].
    destruct (experience_rules_steps (x :: l) description_list)
      as (title & te1 & company & te2 & emp & te3 & dated & te4 & place & te5 &
          E1 & E2 & _ & _ & _ & ->); [discriminate|].
    rewrite S in E1. inversion E1; subst. cbn [shift] in E2. inversion E2; subst.
    reflexivity.
  - intros soup item Hitem. rewrite extract_experience, filter_In, truthy_iff.
    pose proof (job_title_iff
                  (texts (fun _ => true) (Soup.find_all FRAGMENT_TAGS item))
                  (Soup.find_all ["li"] item)) as J.
    fold (_parse_experience_item item) in J. rewrite J.
    split; [tauto|]. intros H. split; [apply in_map; exact Hitem | exact H].
Qed.

Lemma experience_kept_iff_title_like_witness :
  (forall t, In t [py "Dev"; py "Experience"] -> ~ title_like (U := basic_latin) t) /\
  Experience.job_title
    (experience_rules (U := basic_latin) [py "Dev"; py "Experience"] []) = None /\
  Experience.company_name
    (experience_rules (U := basic_latin) [py "Dev"; py "Experience"] []) =
    Some (py "Dev").
Proof.
  assert (H : forall t, In t [py "Dev"; py "Experience"] ->
                ~ title_like (U := basic_latin) t).
  { intros t [<-|[<-|[]]] (Hlen & Hexp & _).
    - vm_compute in Hlen. lia.
    - vm_compute in Hexp. discriminate. }
  split; [exact H|].
  exact (proj1 (proj2 (@experience_kept_iff_title_like basic_latin)) _ [] H).
Defined.

(** X4. The company name of an experience record is the fragment that
    follows the job title, and it is unset when the title is the last
    fragment. *)
Theorem company_follows_the_title {U : Unicode} (pre : list str) (t : str)
    (post : list str) (description_list : list Soup.element) :
  (forall x, In x pre -> ~ title_like x) -> title_like t ->
  Experience.company_name
    (experience_rules (pre ++ t :: post) description_list) = hd_error post.
Proof.
  intros Hpre Ht.
  assert (S : title_scan (pre ++ t :: post) = Some (t, post)).
  { apply title_scan_first; [|apply is_title_iff; exact Ht].
    intros x Hx. apply is_title_false_iff. auto. }
  destruct (experience_rules_steps (pre ++ t :: post) description_list)
    as (title & te1 & company & te2 & emp & te3 & dated & te4 & place & te5 &
        E1 & E2 & _ & _ & _ & ->); [destruct pre; discriminate|].
  rewrite S in E1. inversion E1; subst.
  destruct te1; cbn [shift] in E2; inversion E2; reflexivity.
Qed.

Lemma company_follows_the_title_witness :
  (forall x, In x [py "Exp"] -> ~ title_like (U := basic_latin) x) /\
  title_like (U := basic_latin) (py "Software Engineer") /\
  Experience.company_name
    (experience_rules (U := basic_latin)
       ([py "Exp"] ++ py "Software Engineer" :: [py "Acme Corp"; py "Remote"]) []) =
  Some (py "Acme Corp").
Proof.
  assert (Hpre : forall x, In x [py "Exp"] -> ~ title_like (U := basic_latin) x).
  { intros x [<-|[]] (Hlen & _). vm_compute in Hlen. lia. }
  assert (Ht : title_like (U := basic_latin) (py "Software Engineer")).
  { repeat split. vm_compute. lia. }
  split; [exact Hpre|]. split; [exact Ht|].
  exact (@company_follows_the_title basic_latin _ _ _ [] Hpre Ht).
Defined.

(** X5. The dates of an experience record come together from one
    fragment: either the start date, the end date and the duration are all
    unset, or the start date is a non-empty text, the end date is set, and
    the three are what [_extract_date_range] finds in one of the fragments. *)
Theorem experience_dates_all_or_none {U : Unicode} (text_elements : list str)
    (description_list : list Soup.element) :
  let exp := experience_rules text_elements description_list in
  (Experience.start_date exp = None /\ Experience.end_date exp = None /\
   Experience.duration exp = None) \/
  (non_empty (Experience.start_date exp) /\ Experience.end_date exp <> None /\
   exists text, In text text_elements /\
     _extract_date_range text =
     (Experience.start_date exp, Experience.end_date exp, Experience.duration exp)).
Proof.
  cbv zeta. destruct text_elements as [|x l]; [left; repeat split|].
  destruct (experience_rules_steps (x :: l) description_list)
    as (title & te1 & company & te2 & emp & te3 & dated & te4 & place & te5 &
        E1 & E2 & E3 & E4 & _ & ->); [discriminate|].
  cbn [Experience.start_date Experience.end_date Experience.duration].
  destruct dated as [text|]; [right | left; repeat split].
  pose proof (take_first_some _ _ _ _ E4) as (Hp & _ & _).
  pose proof (take_first_in _ _ _ _ E4) as Hin.
  unfold has_date_range in Hp. apply andb_true_iff in Hp as [_ Hp].
  apply truthy_iff in Hp.
  split; [exact Hp|]. split.
  - destruct Hp as (s & Es & _). revert Es. unfold _extract_date_range.
    destruct (Re.search true Patterns.date_pattern text) as [m|] eqn:M;
      [|discriminate].
    apply date_pattern_sets_groups in M as [_ G2].
    destruct (Re.group m 2); [cbn; discriminate | contradiction].
  - exists text. split.
    + apply (after_title_incl _ _ _ E1), (shift_incl _ _ _ E2),
        (take_first_incl _ _ _ _ E3). exact Hin.
    + destruct (_extract_date_range text) as [[a b] c]. reflexivity.
Qed.

(** X6. The job title, the company name, the employment type and the
    location of an experience record are fragments of its sub-block. The
    employment type contains one of the six employment keywords as they are
    written, and the location is shorter than 100 characters and has a comma
    or, in lower case, "remote" or "hybrid". *)
Theorem experience_fields_are_fragments {U : Unicode} (text_elements : list str)
    (description_list : list Soup.element) (t : str) :
  let exp := experience_rules text_elements description_list in
  (Experience.job_title exp = Some t -> In t text_elements /\ title_like t) /\
  (Experience.company_name exp = Some t -> In t text_elements) /\
  (Experience.employment_type exp = Some t ->
     In t text_elements /\
     exists keyword, In keyword EMPLOYMENT_TYPES /\ contains keyword t = true) /\
  (Experience.location exp = Some t ->
     In t text_elements /\ length t < 100 /\
     (contains (py ",") t = true \/
      contains (py "remote") (lower t) = true \/
      contains (py "hybrid") (lower t) = true)).
Proof.
  cbv zeta. destruct text_elements as [|x l];
    [split; [|split; [|split]]; intros H; discriminate H|].
  destruct (experience_rules_steps (x :: l) description_list)
    as (title & te1 & company & te2 & emp & te3 & dated & te4 & place & te5 &
        E1 & E2 & E3 & E4 & E5 & ->); [discriminate|].
  cbn [Experience.job_title Experience.company_name Experience.employment_type
       Experience.location].
  pose proof (after_title_incl _ _ _ E1) as I1.
  pose proof (shift_incl _ _ _ E2) as I2.
  pose proof (take_first_incl _ _ _ _ E3) as I3.
  pose proof (take_first_incl _ _ _ _ E4) as I4.
  split; [|split; [|split]].
  - intros ->. eapply after_title_in; exact E1.
  - intros ->. apply I1. eapply shift_in; exact E2.
  - intros ->. pose proof (take_first_some _ _ _ _ E3) as (Hp & _ & _).
    split; [apply I1, I2; eapply take_first_in; exact E3|].
    unfold any_in in Hp. apply existsb_exists in Hp as (keyword & Hk & Hc). eauto.
  - intros ->. pose proof (take_first_some _ _ _ _ E5) as (Hp & _ & _).
    split; [apply I1, I2, I3, I4; eapply take_first_in; exact E5|].
    unfold is_location in Hp. apply andb_true_iff in Hp as [Hp Hlen].
    apply Nat.ltb_lt in Hlen. split; [exact Hlen|].
    apply orb_true_iff in Hp as [Hp|Hp]; [left; exact Hp|].
    unfold any_in in Hp. cbn [existsb] in Hp. rewrite orb_false_r in Hp.
    apply orb_true_iff in Hp as [Hp|Hp]; auto.
Qed.

Lemma experience_fields_are_fragments_witness :
  let fragments :=
    [py "Software Engineer"; py "Acme Corp"; py "Full-time"; py "Pune, India"] in
  Experience.location (experience_rules (U := basic_latin) fragments []) =
    Some (py "Pune, India") /\
  In (py "Pune, India") fragments /\ length (py "Pune, India") < 100.
Proof.
  cbv zeta.
  assert (E : Experience.location
                (experience_rules (U := basic_latin)
                   [py "Software Engineer"; py "Acme Corp"; py "Full-time";
                    py "Pune, India"] []) = Some (py "Pune, India")) by reflexivity.
  split; [exact E|].
  destruct (proj2 (proj2 (proj2
              (@experience_fields_are_fragments basic_latin _ [] (py "Pune, India")))) E)
    as (Hin & Hlen & _).
  split; [exact Hin | exact Hlen].
Defined.

(** X7. The description of an experience record: a sub-block without any
    fragment gets the empty record, whatever list items it has; otherwise
    the description is the normalized texts of the list items of the
    sub-block when it has some, and else the fragments longer than 50
    characters among those no rule took. *)
Theorem experience_description_source {U : Unicode} (text_elements : list str)
    (description_list : list Soup.element) :
  let exp := experience_rules text_elements description_list in
  (text_elements = [] ->
   Experience.description exp = [] /\ Experience.job_title exp = None /\
   Experience.company_name exp = None) /\
  (text_elements <> [] -> description_list <> [] ->
   Experience.description exp = texts (fun _ => true) description_list) /\
  (description_list = [] ->
   forall d, In d (Experience.description exp) ->
     In d text_elements /\ 50 < length d).
Proof.
  cbv zeta. split; [intros ->; repeat split|].
  destruct text_elements as [|x l].
  - split; [intros H; contradiction H; reflexivity | intros _ d []].
  - destruct (experience_rules_steps (x :: l) description_list)
      as (title & te1 & company & te2 & emp & te3 & dated & te4 & place & te5 &
          E1 & E2 & E3 & E4 & E5 & ->); [discriminate|].
    cbn [Experience.description]. split.
    + intros _ Hd. destruct description_list; [contradiction Hd|]; reflexivity.
    + intros -> d Hd. apply filter_In in Hd as [Hin Hlen].
      apply Nat.ltb_lt in Hlen. split; [|exact Hlen].
      apply (after_title_incl _ _ _ E1), (shift_incl _ _ _ E2),
        (take_first_incl _ _ _ _ E3), (take_first_incl _ _ _ _ E4),
        (take_first_incl _ _ _ _ E5). exact Hin.
Qed.

Lemma experience_description_source_witness :
  let long := py "Built the billing pipeline and led a team of five engineers." in
  let exp :=
    experience_rules (U := basic_latin) [py "Engineer"; py "Acme"; long] [] in
  In long (Experience.description exp) /\ 50 < length long.
Proof.
  cbv zeta.
  assert (Hin : In (py "Built the billing pipeline and led a team of five engineers.")
                  (Experience.description
                     (experience_rules (U := basic_latin)
                        [py "Engineer"; py "Acme";
                         py "Built the billing pipeline and led a team of five engineers."]
                        []))) by (vm_compute; auto).
  split; [exact Hin|].
  exact (proj2 (proj2 (proj2 (@experience_description_source basic_latin _ [])) eq_refl
                  _ Hin)).
Defined.

(** ** Education records *)

Lemma split_head (sep : char) (text : str) :
  exists piece pieces, split sep text = piece :: pieces /\ ~ In sep piece.
Proof.
  induction text as [|c text IH]; cbn [split].
  - exists [], []. split; [reflexivity | intros []].
  - destruct (c =? sep)%N eqn:E.
    + exists [], (split sep text). split; [reflexivity | intros []].
    + destruct IH as (piece & pieces & -> & Hn). exists (c :: piece), pieces.
      split; [reflexivity|]. intros [->|H]; [|auto].
      rewrite N.eqb_refl in E. discriminate.
Qed.

Lemma take_first_found (p : str -> bool) (l : list str) :
  fst (take_first p l) <> None <-> exists t, In t l /\ p t = true.
Proof.
  unfold take_first. destruct (find p l) as [x|] eqn:F; cbn [fst].
  - split; [intros _ | discriminate].
    apply find_split in F as (pre & post & -> & Hx & _).
    exists x. split; [apply in_elt | exact Hx].
  - split; [intros H; contradiction H; reflexivity|].
    intros (t & Hin & Ht). rewrite find_none_iff in F.
    rewrite (F t Hin) in Ht. discriminate.
Qed.

Section EducationFacts.
Context {U : Unicode}.

Lemma lstrip_incl (s : str) : incl (lstrip s) s.
Proof.
  induction s as [|c s IH]; cbn [lstrip]; [apply incl_refl|].
  destruct (isspace c); [apply incl_tl, IH | apply incl_refl].
Qed.

Lemma strip_incl (s : str) : incl (strip s) s.
Proof.
  intros x Hx. unfold strip in Hx. apply in_rev, lstrip_incl in Hx.
  apply in_rev in Hx. apply lstrip_incl. exact Hx.
Qed.

Lemma texts_In (keep : str -> bool) (elems : list Soup.element) (t : str) :
  In t (texts keep elems) <->
  exists elem, In elem elems /\
               _normalize_text (Soup.get_text elem) = Some t /\ keep t = true.
Proof.
  unfold texts. rewrite in_flat_map. split.
  - intros (elem & Hin & Ht).
    destruct (_normalize_text (Soup.get_text elem)) as [text|] eqn:N; [|destruct Ht].
    destruct (keep text) eqn:K; [|destruct Ht]. destruct Ht as [->|[]]. eauto.
  - intros (elem & Hin & N & K). exists elem. rewrite N, K.
    split; [exact Hin | left; reflexivity].
Qed.

Lemma texts_non_empty (keep : str -> bool) (elems : list Soup.element) (t : str) :
  In t (texts keep elems) -> t <> [].
Proof.
  rewrite texts_In. intros (elem & _ & Hn & _).
  apply _normalize_text_normal in Hn as (Hne & _). exact Hne.
Qed.

Lemma hd_texts_truthy (keep : str -> bool) (elems : list Soup.element) :
  truthy (hd_error (texts keep elems)) = true <-> texts keep elems <> [].
Proof.
  destruct (texts keep elems) as [|t l] eqn:E; cbn [hd_error truthy].
  - split; [discriminate | intros H; contradiction H; reflexivity].
  - assert (Hne : t <> []).
    { apply (texts_non_empty keep elems). rewrite E. left; reflexivity. }
    destruct t; [contradiction Hne; reflexivity|]. split; [discriminate | reflexivity].
Qed.
End EducationFacts.

(** X8. The fields of an education record. The institution is the first
    fragment, and no later rule looks at it. The degree is set exactly when
    a later fragment contains one of the seven degree words; it is the part
    of that fragment before its first comma, stripped, so it has no comma
    and no white space at either end. The field of study is never set
    without the degree, nor the start year without the end year. The grade
    and the activities are later fragments that pass their tests. *)
Theorem education_fields_follow_the_rules {U : Unicode} (text_elements : list str) :
  let edu := education_rules text_elements in
  let others := tl text_elements in
  Education.institution_name edu = hd_error text_elements /\
  (Education.degree edu <> None <->
   exists t, In t others /\ any_in DEGREES t = true) /\
  (forall d, Education.degree edu = Some d ->
     ~ In COMMA d /\ edge_solid d /\ edge_solid (rev d)) /\
  (Education.field_of_study edu <> None -> Education.degree edu <> None) /\
  (Education.start_year edu <> None -> Education.end_year edu <> None) /\
  (forall g, Education.grade edu = Some g ->
     In g others /\
     any_in [py "gpa"; py "grade"; py "cgpa"; py "score"] (lower g) = true) /\
  (forall a, Education.activities edu = Some a ->
     In a others /\
     (contains (py "activities") (lower a) = true \/ 30 < length a)).
Proof.
  cbv zeta. destruct text_elements as [|institution_name others].
  - cbn [education_rules tl hd_error Education.institution_name Education.degree
         Education.field_of_study Education.start_year Education.end_year
         Education.grade Education.activities].
    split; [reflexivity|]. split.
    { split; [intros H; contradiction H; reflexivity | intros (t & [] & _)]. }
    split; [discriminate|]. split; [tauto|]. split; [tauto|].
    split; discriminate.
  - unfold education_rules. cbn [tl hd_error].
    pose proof (take_first_found (any_in DEGREES) others) as Found.
    destruct (take_first (any_in DEGREES) others) as [graded te1] eqn:E1.
    cbn [fst] in Found.
    destruct (take_first has_years te1) as [dated te2] eqn:E2.
    destruct (take_first
                (fun text =>
                   any_in [py "gpa"; py "grade"; py "cgpa"; py "score"] (lower text))
                te2) as [grade te3] eqn:E3.
    pose proof (take_first_incl _ _ _ _ E1) as I1.
    pose proof (take_first_incl _ _ _ _ E2) as I2.
    pose proof (take_first_incl _ _ _ _ E3) as I3.
    assert (Degree :
      exists degree field_of_study,
        match graded with
        | None => (None, None)
        | Some text =>
            match split COMMA text with
            | part0 :: part1 :: _ => (Some (strip part0), Some (strip part1))
            | part0 :: [] => (Some (strip part0), None)
            | [] => (None, None)
            end
        end = (degree, field_of_study) /\
        (degree <> None <-> graded <> None) /\
        (field_of_study <> None -> degree <> None) /\
        (forall d, degree = Some d ->
           ~ In COMMA d /\ edge_solid d /\ edge_solid (rev d))).
    { destruct graded as [text|].
      - destruct (split_head COMMA text) as (part0 & pieces & -> & Hn).
        assert (Shape : ~ In COMMA (strip part0) /\ edge_solid (strip part0) /\
                        edge_solid (rev (strip part0))).
        { split; [intros H; apply strip_incl in H; auto | apply strip_edges]. }
        destruct pieces as [|part1 pieces]; eexists _, _;
          (split; [reflexivity|]);
          (split; [split; discriminate|]);
          (split; [discriminate|]);
          intros d E; inversion E; subst; exact Shape.
      - exists None, None. split; [reflexivity|].
        split; [tauto|]. split; [tauto | discriminate]. }
    destruct Degree as (degree & field_of_study & -> & Dset & Fset & Dshape).
    assert (Years :
      exists start_year end_year,
        match dated with
        | None => (None, None)
        | Some text =>
            match Re.findall false Patterns.year_pattern text with
            | [year0; year1] => (Some year0, Some year1)
            | [year0] => (None, Some year0)
            | _ => (None, None)
            end
        end = (start_year, end_year) /\
        (start_year <> None -> end_year <> None)).
    { destruct dated as [text|]; [|exists None, None; split; [reflexivity | tauto]].
      destruct (Re.findall false Patterns.year_pattern text)
        as [|y0 [|y1 [|y2 ys]]]; eexists _, _;
        (split; [reflexivity|]); try tauto; discriminate. }
    destruct Years as (start_year & end_year & -> & Yset).
    cbn [Education.institution_name Education.degree Education.field_of_study
         Education.start_year Education.end_year Education.grade
         Education.activities].
    split; [reflexivity|]. split; [rewrite Dset; exact Found|].
    split; [exact Dshape|]. split; [exact Fset|]. split; [exact Yset|]. split.
    + intros g ->. pose proof (take_first_some _ _ _ _ E3) as (Hp & _ & _).
      split; [apply I1, I2; eapply take_first_in; exact E3 | exact Hp].
    + intros a Ha. apply find_split in Ha as (pre & post & -> & Hp & _).
      split; [apply I1, I2, I3, in_elt|].
      apply orb_true_iff in Hp as [Hp|Hp]; [left; exact Hp|].
      right. apply Nat.ltb_lt. exact Hp.
Qed.

Lemma education_fields_follow_the_rules_witness :
  let edu :=
    education_rules (U := basic_latin)
      [py "MIT"; py " Bachelor of Science , Physics"; py "GPA 3.9"] in
  Education.degree edu = Some (py "Bachelor of Science") /\
  ~ In COMMA (py "Bachelor of Science") /\
  Education.grade edu = Some (py "GPA 3.9") /\
  In (py "GPA 3.9") [py " Bachelor of Science , Physics"; py "GPA 3.9"].
Proof.
  cbv zeta.
  pose proof (@education_fields_follow_the_rules basic_latin
                [py "MIT"; py " Bachelor of Science , Physics"; py "GPA 3.9"]) as H.
  cbv zeta in H. destruct H as (_ & _ & Hd & _ & _ & Hg & _).
  assert (Ed : Education.degree
                 (education_rules (U := basic_latin)
                    [py "MIT"; py " Bachelor of Science , Physics"; py "GPA 3.9"]) =
               Some (py "Bachelor of Science")) by reflexivity.
  assert (Eg : Education.grade
                 (education_rules (U := basic_latin)
                    [py "MIT"; py " Bachelor of Science , Physics"; py "GPA 3.9"]) =
               Some (py "GPA 3.9")) by reflexivity.
  split; [exact Ed|]. split; [exact (proj1 (Hd _ Ed))|].
  split; [exact Eg | exact (proj1 (Hg _ Eg))].
Defined.

(** ** Which sub-blocks are kept *)

Section Identity.
Context {U : Unicode}.

Lemma certification_rules_name (l : list str) :
  Certification.name (certification_rules l) = hd_error l /\
  Certification.issuing_organization (certification_rules l) = hd_error (tl l).
Proof.
  unfold certification_rules. destruct l as [|name l]; [split; reflexivity|].
  destruct (shift l) as [org l'] eqn:S.
  destruct (fold_left certification_dates l' (None, None)).
  cbn [Certification.name Certification.issuing_organization hd_error tl].
  destruct l; cbn [shift] in S; inversion S; split; reflexivity.
Qed.

Lemma project_rules_name (l : list str) :
  Project.project_name (project_rules l) = hd_error l /\
  Project.role (project_rules l) = None.
Proof.
  unfold project_rules. destruct l as [|name l]; [split; reflexivity|].
  destruct (take_first (found true Patterns.dated_pattern) l).
  split; reflexivity.
Qed.

Lemma honor_rules_title (l : list str) :
  Honor.title (honor_rules l) = hd_error l /\
  Honor.issuer (honor_rules l) = hd_error (tl l).
Proof.
  unfold honor_rules. destruct l as [|title l]; [split; reflexivity|].
  destruct (shift l) as [issuer l'] eqn:S.
  destruct (take_first (found true Patterns.dated_pattern) l').
  cbn [Honor.title Honor.issuer hd_error tl].
  destruct l; cbn [shift] in S; inversion S; split; reflexivity.
Qed.

Lemma volunteer_rules_role (l : list str) :
  Volunteer.role (volunteer_rules l) = hd_error l /\
  Volunteer.organization (volunteer_rules l) = hd_error (tl l).
Proof.
  unfold volunteer_rules. destruct l as [|role l]; [split; reflexivity|].
  destruct (shift l) as [organization l'] eqn:S.
  destruct (take_first (found true Patterns.dated_or_present_pattern) l')
    as [date_range l''].
  destruct (take_first _ l'').
  cbn [Volunteer.role Volunteer.organization hd_error tl].
  destruct l; cbn [shift] in S; inversion S; split; reflexivity.
Qed.

Lemma education_rules_institution (l : list str) :
  Education.institution_name (education_rules l) = hd_error l.
Proof.
  unfold education_rules. destruct l as [|name l]; [reflexivity|].
  repeat match goal with
    | |- context [let '(_, _) := ?e in _] => destruct e
    end.
  reflexivity.
Qed.

Lemma kept_in_filter {A R : Type} (parse : A -> R) (keep : R -> bool)
    (items : list A) (item : A) :
  In item items ->
  (In (parse item) (filter keep (map parse items)) <-> keep (parse item) = true).
Proof.
  intros Hin. rewrite filter_In. split; [tauto|].
  intros H. split; [apply in_map; exact Hin | exact H].
Qed.

Lemma fragments_truthy (l : list str) :
  (forall t, In t l -> t <> []) ->
  (truthy (hd_error l) = true <-> l <> []) /\
  (truthy (hd_error (tl l)) = true <-> 2 <= length l).
Proof.
  intros Hne. destruct l as [|a [|b l]]; cbn [hd_error tl truthy length].
  - split; (split; [discriminate|]); [intros H; contradiction H; reflexivity | lia].
  - assert (Ha : a <> []) by (apply Hne; left; reflexivity).
    destruct a; [contradiction Ha; reflexivity|].
    split; [split; [discriminate | reflexivity]|]. split; [discriminate | lia].
  - assert (Ha : a <> []) by (apply Hne; left; reflexivity).
    assert (Hb : b <> []) by (apply Hne; right; left; reflexivity).
    destruct a; [contradiction Ha; reflexivity|].
    destruct b; [contradiction Hb; reflexivity|].
    split; (split; [|reflexivity]); intros _; [discriminate | lia].
Qed.

Lemma texts_filter (keep : str -> bool) (elems : list Soup.element) :
  texts keep elems = filter keep (texts (fun _ => true) elems).
Proof.
  unfold texts. induction elems as [|e l IH]; [reflexivity|].
  cbn [flat_map]. rewrite filter_app, IH. f_equal.
  destruct (_normalize_text (Soup.get_text e)) as [text|]; [|reflexivity].
  cbn [filter]. destruct (keep text); reflexivity.
Qed.

Lemma hd_filter (keep : str -> bool) (l : list str) :
  hd_error (filter keep l) = find keep l.
Proof.
  induction l as [|t l IH]; [reflexivity|].
  cbn [filter find]. destruct (keep t); [reflexivity | exact IH].
Qed.
End Identity.

(** X9. Which sub-blocks of the education, certification, project and
    honor sections get a record in the output. A certification, project or
    honor sub-block is kept exactly when it has a fragment; its name or
    title is then the first fragment, and a project record never has a
    role. An education sub-block is kept exactly when it has a fragment
    other than "education" in any case, and the institution is the first
    such fragment. *)
Theorem kept_iff_it_has_a_fragment {U : Unicode} (soup item : Soup.element) :
  (In item (list_items_of soup "education") ->
   (In (_parse_education_item item) (ProfileData.education (extract soup)) <->
    exists t, In t (fragments item) /\ lower t <> py "education") /\
   Education.institution_name (_parse_education_item item) =
     find (fun t => negb (str_eqb (lower t) (py "education"))) (fragments item)) /\
  (In item (list_items_of soup "certifications") ->
   (In (_parse_certification_item item)
       (ProfileData.certifications (extract soup)) <-> fragments item <> []) /\
   Certification.name (_parse_certification_item item) = hd_error (fragments item)) /\
  (In item (list_items_of soup "projects") ->
   (In (_parse_project_item item)
       (ProfileData.projects (extract soup)) <-> fragments item <> []) /\
   Project.project_name (_parse_project_item item) = hd_error (fragments item) /\
   Project.role (_parse_project_item item) = None) /\
  (In item (list_items_of soup "honors") ->
   (In (_parse_honor_item item)
       (ProfileData.honors_awards (extract soup)) <-> fragments item <> []) /\
   Honor.title (_parse_honor_item item) = hd_error (fragments item)).
Proof.
  assert (Solid : forall keep elems t, In t (texts keep elems) -> t <> [])
    by (intros keep elems t; apply texts_non_empty).
  split; [|split; [|split]]; intros Hitem.
  - rewrite extract_education, (kept_in_filter _ _ _ _ Hitem).
    unfold _parse_education_item. rewrite education_rules_institution.
    set (keep := fun text => negb (str_eqb (lower text) (py "education"))).
    split.
    + rewrite (proj1 (fragments_truthy _ (Solid _ _))), texts_filter.
      fold (fragments item). split.
      * destruct (filter keep (fragments item)) as [|t l] eqn:F;
          [intros H; contradiction H; reflexivity | intros _].
        assert (Ht : In t (filter keep (fragments item)))
          by (rewrite F; left; reflexivity).
        apply filter_In in Ht as [Hin Hk]. exists t. split; [exact Hin|].
        unfold keep in Hk. apply negb_true_iff, str_eqb_neq in Hk. exact Hk.
      * intros (t & Hin & Hk) E.
        assert (Ht : In t (filter keep (fragments item))).
        { apply filter_In. split; [exact Hin|]. unfold keep.
          apply negb_true_iff, str_eqb_neq. exact Hk. }
        rewrite E in Ht. destruct Ht.
    + rewrite texts_filter. fold (fragments item). apply hd_filter.
  - rewrite extract_certifications, (kept_in_filter _ _ _ _ Hitem).
    unfold _parse_certification_item. fold (fragments item).
    rewrite (proj1 (certification_rules_name _)).
    split; [apply fragments_truthy, Solid | reflexivity].
  - rewrite extract_projects, (kept_in_filter _ _ _ _ Hitem).
    unfold _parse_project_item. fold (fragments item).
    rewrite (proj1 (project_rules_name _)), (proj2 (project_rules_name _)).
    split; [apply fragments_truthy, Solid | split; reflexivity].
  - rewrite extract_honors_awards, (kept_in_filter _ _ _ _ Hitem).
    unfold _parse_honor_item. fold (fragments item).
    rewrite (proj1 (honor_rules_title _)).
    split; [apply fragments_truthy, Solid | reflexivity].
Qed.

Lemma kept_iff_it_has_a_fragment_witness :
  let soup := Samples.licences_document in
  let item := Examples.item_of soup "certifications" 0 in
  In item (list_items_of (U := basic_latin) soup "certifications") /\
  In (_parse_certification_item (U := basic_latin) item)
     (ProfileData.certifications (extract (U := basic_latin) soup)).
Proof.
  cbv zeta.
  assert (Hitem : In (Examples.item_of Samples.licences_document "certifications" 0)
                     (list_items_of (U := basic_latin) Samples.licences_document
                                    "certifications")) by (vm_compute; auto).
  split; [exact Hitem|].
  apply (proj1 (proj1 (proj2 (@kept_iff_it_has_a_fragment basic_latin _ _)) Hitem)).
  vm_compute. discriminate.
Defined.

(** ** Volunteering and certification records *)

Section LaterFragments.
Context {U : Unicode}.

Lemma shift_skip (l : list str) (o : option str) (l' : list str) :
  shift l = (o, l') -> l' = tl l.
Proof. destruct l; cbn [shift tl]; intros H; inversion H; reflexivity. Qed.

Lemma certification_dates_read (l rest : list str) (dates : option str * option str) :
  incl rest l ->
  read_from Patterns.issued_pattern l (fst dates) ->
  read_from Patterns.expires_pattern l (snd dates) ->
  read_from Patterns.issued_pattern l
    (fst (fold_left certification_dates rest dates)) /\
  read_from Patterns.expires_pattern l
    (snd (fold_left certification_dates rest dates)).
Proof.
  revert dates. induction rest as [|text rest IH]; intros dates Hin Hi He;
    cbn [fold_left]; [split; assumption|].
  apply IH; [intros x Hx; apply Hin; right; exact Hx | |];
    unfold certification_dates;
    destruct (found true Patterns.issued_or_expires_pattern text);
    cbn [fst snd]; try assumption.
  - destruct (Re.search true Patterns.issued_pattern text) as [m|] eqn:S;
      [|exact Hi].
    intros d Hd. exists text, m.
    split; [apply Hin; left; reflexivity | split; [exact S | exact Hd]].
  - destruct (Re.search true Patterns.expires_pattern text) as [m|] eqn:S;
      [|exact He].
    intros d Hd. exists text, m.
    split; [apply Hin; left; reflexivity | split; [exact S | exact Hd]].
Qed.
End LaterFragments.

(** X10. A volunteering sub-block is kept exactly when it has two
    fragments or more: the role is the first fragment and the organization
    the second, so a sub-block that only names a role gives no record. The
    date range, the cause and the description are fragments from the third
    on that pass their tests. *)
Theorem volunteer_needs_two_fragments {U : Unicode} :
  (forall text_elements,
     let volunteer := volunteer_rules text_elements in
     let later := skipn 2 text_elements in
     Volunteer.role volunteer = hd_error text_elements /\
     Volunteer.organization volunteer = hd_error (tl text_elements) /\
     (forall t, Volunteer.date_range volunteer = Some t ->
        In t later /\ found true Patterns.dated_or_present_pattern t = true) /\
     (forall t, Volunteer.cause volunteer = Some t ->
        In t later /\
        (contains (py "cause") (lower t) = true \/
         any_in [py "Education"; py "Environment"; py "Health"] t = true)) /\
     (forall t, Volunteer.description volunteer = Some t ->
        In t later /\ 30 < length t)) /\
  (forall soup item,
     In item (list_items_of soup "volunteering") ->
     (In (_parse_volunteer_item item) (ProfileData.volunteering (extract soup)) <->
      2 <= length (fragments item))).
Proof.
  split.
  - intros text_elements. cbv zeta.
    split; [apply volunteer_rules_role|]. split; [apply volunteer_rules_role|].
    unfold volunteer_rules. destruct text_elements as [|role l];
      [repeat split; discriminate|].
    destruct (shift l) as [organization l1] eqn:S. apply shift_skip in S.
    change (skipn 2 (role :: l)) with (skipn 1 l).
    assert (L : skipn 1 l = l1) by (subst l1; destruct l; reflexivity).
    rewrite L. clear L S.
    destruct (take_first (found true Patterns.dated_or_present_pattern) l1)
      as [date_range l2] eqn:E2.
    destruct (take_first
                (fun text =>
                   contains (py "cause") (lower text) ||
                   any_in [py "Education"; py "Environment"; py "Health"] text) l2)
      as [cause l3] eqn:E3.
    pose proof (take_first_incl _ _ _ _ E2) as I2.
    pose proof (take_first_incl _ _ _ _ E3) as I3.
    cbn [Volunteer.date_range Volunteer.cause Volunteer.description].
    split; [|split].
    + intros t ->. pose proof (take_first_some _ _ _ _ E2) as (Hp & _ & _).
      split; [eapply take_first_in; exact E2 | exact Hp].
    + intros t ->. pose proof (take_first_some _ _ _ _ E3) as (Hp & _ & _).
      split; [apply I2; eapply take_first_in; exact E3|].
      apply orb_true_iff in Hp. exact Hp.
    + intros t Ht. apply find_split in Ht as (pre & post & -> & Hp & _).
      split; [apply I2, I3, in_elt | apply Nat.ltb_lt; exact Hp].
  - intros soup item Hitem.
    rewrite extract_volunteering, (kept_in_filter _ _ _ _ Hitem).
    unfold _parse_volunteer_item. fold (fragments item).
    rewrite (proj2 (volunteer_rules_role _)).
    apply fragments_truthy. intros t. apply texts_non_empty.
Qed.

Lemma volunteer_needs_two_fragments_witness :
  let soup := Samples.volunteering_document in
  let tutor := Examples.item_of soup "volunteering" 0 in
  let lone := Examples.item_of soup "volunteering" 1 in
  In (_parse_volunteer_item (U := basic_latin) tutor)
     (ProfileData.volunteering (extract (U := basic_latin) soup)) /\
  ~ In (_parse_volunteer_item (U := basic_latin) lone)
       (ProfileData.volunteering (extract (U := basic_latin) soup)).
Proof.
  cbv zeta.
  pose proof (proj2 (@volunteer_needs_two_fragments basic_latin)
                Samples.volunteering_document) as H.
  split.
  - apply H; [vm_compute; auto | vm_compute; lia].
  - intros Hin. apply H in Hin; [vm_compute in Hin; lia | vm_compute; auto].
Defined.

(** X11. A certification record takes its issuing organization from the
    second fragment, and its dates only from the fragments after the
    second: the issue date is what follows "issued" in one of them, the
    expiration date what follows "expires". A sub-block of one or two
    fragments never has a date, whatever the two fragments say. *)
Theorem certification_dates_come_from_later_fragments {U : Unicode}
    (text_elements : list str) :
  let cert := certification_rules text_elements in
  let later := skipn 2 text_elements in
  Certification.issuing_organization cert = hd_error (tl text_elements) /\
  (forall d, Certification.issue_date cert = Some d ->
     exists text m, In text later /\
       Re.search true Patterns.issued_pattern text = Some m /\
       Re.group m 1 = Some d) /\
  (forall d, Certification.expiration_date cert = Some d ->
     exists text m, In text later /\
       Re.search true Patterns.expires_pattern text = Some m /\
       Re.group m 1 = Some d) /\
  (length text_elements <= 2 ->
   Certification.issue_date cert = None /\
   Certification.expiration_date cert = None).
Proof.
  cbv zeta. split; [apply certification_rules_name|].
  assert (Read :
    read_from Patterns.issued_pattern (skipn 2 text_elements)
      (Certification.issue_date (certification_rules text_elements)) /\
    read_from Patterns.expires_pattern (skipn 2 text_elements)
      (Certification.expiration_date (certification_rules text_elements))).
  { unfold certification_rules. destruct text_elements as [|name l];
      [split; intros d H; discriminate H|].
    destruct (shift l) as [organization l1] eqn:S. apply shift_skip in S.
    change (skipn 2 (name :: l)) with (skipn 1 l).
    assert (L : skipn 1 l = l1) by (subst l1; destruct l; reflexivity).
    rewrite L. clear L S.
    pose proof (certification_dates_read l1 l1 (None, None) (incl_refl _)) as R.
    destruct (fold_left certification_dates l1 (None, None)) as [issued expires].
    cbn [Certification.issue_date Certification.expiration_date].
    apply R; intros d H; discriminate H. }
  destruct Read as [Ri Re]. split; [exact Ri|]. split; [exact Re|].
  intros Hlen.
  assert (L : skipn 2 text_elements = []).
  { destruct text_elements as [|a [|b [|c l]]]; try reflexivity.
    cbn [length] in Hlen. lia. }
  rewrite L in Ri, Re. split.
  - destruct (Certification.issue_date _) as [d|]; [|reflexivity].
    destruct (Ri d eq_refl) as (text & m & [] & _).
  - destruct (Certification.expiration_date _) as [d|]; [|reflexivity].
    destruct (Re d eq_refl) as (text & m & [] & _).
Qed.

Lemma certification_dates_come_from_later_fragments_witness :
  let cert :=
    certification_rules (U := basic_latin)
      [py "Cloud Architect"; py "Issued Jan 2020"] in
  Certification.issuing_organization cert = Some (py "Issued Jan 2020") /\
  Certification.issue_date cert = None /\
  Certification.expiration_date cert = None.
Proof.
  cbv zeta.
  pose proof (@certification_dates_come_from_later_fragments basic_latin
                [py "Cloud Architect"; py "Issued Jan 2020"]) as H.
  cbv zeta in H. destruct H as (Ho & _ & _ & Hn).
  split; [exact Ho|]. apply Hn. cbn [length]. lia.
Defined.

(** ** The skills loop *)

Lemma subsequence_snoc_skip {A : Type} (s l : list A) (x : A) :
  subsequence s l -> subsequence s (l ++ [x]).
Proof.
  induction 1; cbn [app]; [apply subsequence_skip, subsequence_nil | |];
    constructor; assumption.
Qed.

Lemma subsequence_snoc_keep {A : Type} (s l : list A) (x : A) :
  subsequence s l -> subsequence (s ++ [x]) (l ++ [x]).
Proof.
  induction 1; cbn [app]; [apply subsequence_keep, subsequence_nil | |];
    constructor; assumption.
Qed.

Section SkillsLoop.
Context {U : Unicode}.

Lemma skills_loop_order (fragments seen skills : list str) :
  subsequence skills seen ->
  subsequence (fold_left skills_step fragments skills) (seen ++ fragments).
Proof.
  revert seen skills. induction fragments as [|text fragments IH];
    intros seen skills H; cbn [fold_left]; [rewrite app_nil_r; exact H|].
  replace (seen ++ text :: fragments) with ((seen ++ [text]) ++ fragments)
    by (rewrite <- app_assoc; reflexivity).
  apply IH. destruct (skills_step_cases skills text) as [-> | (-> & _)];
    [apply subsequence_snoc_skip | apply subsequence_snoc_keep]; exact H.
Qed.

(** The loop never takes a skill back. *)
Lemma skills_loop_grows (fragments skills : list str) :
  incl skills (fold_left skills_step fragments skills).
Proof.
  revert skills. induction fragments as [|text fragments IH]; intros skills;
    cbn [fold_left]; [apply incl_refl|].
  intros x Hx. apply IH.
  destruct (skills_step_cases skills text) as [-> | (-> & _)];
    [exact Hx | apply in_or_app; left; exact Hx].
Qed.

Lemma skill_shaped_passes (text : str) :
  skill_shaped text ->
  (2 <? length text) && (length text <? 50) &&
  negb (mem (lower text) [py "skills"; py "endorsements"]) = true.
Proof.
  intros (H2 & H50 & Hs & He).
  apply Nat.ltb_lt in H2, H50. rewrite H2, H50. cbn [andb].
  apply negb_true_iff, mem_false. intros y [<-|[<-|[]]]; assumption.
Qed.

(** A candidate is in the list after its turn, or inside a skill of it. *)
Lemma skills_step_covers (skills : list str) (text : str) :
  skill_shaped text ->
  exists s, In s (skills_step skills text) /\ contains text s = true.
Proof.
  intros Hshape. unfold skills_step. rewrite (skill_shaped_passes _ Hshape).
  destruct (mem text skills) eqn:Hm; cbn [negb andb].
  - unfold mem in Hm. apply existsb_exists in Hm as (s & Hs & E).
    apply str_eqb_eq in E. subst s. exists text. split; [exact Hs | apply contains_refl].
  - destruct (existsb (contains text) skills) eqn:He; cbn [negb].
    + apply existsb_exists in He as (s & Hs & Hc). exists s. split; assumption.
    + exists text. split; [apply in_or_app; right; left; reflexivity|].
      apply contains_refl.
Qed.

(** On a list of candidates none of which is inside an earlier one, the
    loop accepts them all. *)
Lemma skills_of_apart (skills : list str) :
  Forall skill_shaped skills -> ordered_apart skills -> skills_of skills = skills.
Proof.
  unfold skills_of. induction skills as [|x l IH] using rev_ind; intros Hs Ho;
    [reflexivity|].
  apply Forall_app in Hs as [Hl Hx]. inversion Hx as [|? ? Hshape _]; subst.
  rewrite fold_left_app. cbn [fold_left]. rewrite IH; [|exact Hl|].
  - unfold skills_step. rewrite (skill_shaped_passes _ Hshape).
    assert (Hnew : forall y, In y l -> contains x y = false)
      by (intros y Hy; exact (Ho l x [] eq_refl y Hy)).
    assert (Hm : mem x l = false).
    { apply mem_false. intros y Hy <-.
      pose proof (contains_refl x) as C. rewrite (Hnew x Hy) in C. discriminate. }
    assert (He : existsb (contains x) l = false).
    { destruct (existsb (contains x) l) eqn:E; [|reflexivity].
      apply existsb_exists in E as (y & Hy & Hc). rewrite (Hnew y Hy) in Hc.
      discriminate. }
    rewrite Hm, He. reflexivity.
  - intros pre y post E z Hz. apply (Ho pre y (post ++ [x])); [|exact Hz].
    rewrite E, <- app_assoc. reflexivity.
Qed.
End SkillsLoop.

(** X12. The skills list keeps the document order: it is the list of the
    texts of the skills section with some of them left out. Running the
    loop again on its own result changes nothing. *)
Theorem skills_keep_the_document_order {U : Unicode} (fragments : list str) :
  subsequence (skills_of fragments) fragments /\
  skills_of (skills_of fragments) = skills_of fragments.
Proof.
  split.
  - exact (skills_loop_order fragments [] [] subsequence_nil).
  - destruct (skills_of_invariant fragments) as (Ho & Hs & _).
    apply skills_of_apart; assumption.
Qed.

(** X13. The skills loop loses no candidate: every text of the skills
    section that passes the length test and is not a reserved word is in
    the skills list, or is part of a skill of the list. *)
Theorem skills_cover_every_candidate {U : Unicode} (fragments : list str) (t : str) :
  In t fragments -> skill_shaped t ->
  exists s, In s (skills_of fragments) /\ contains t s = true.
Proof.
  intros Hin Hshape. unfold skills_of. generalize (@nil str) as skills.
  induction fragments as [|text fragments IH]; intros skills; [destruct Hin|].
  cbn [fold_left]. destruct Hin as [->|Hin].
  - destruct (skills_step_covers skills t Hshape) as (s & Hs & Hc).
    exists s. split; [apply skills_loop_grows; exact Hs | exact Hc].
  - apply IH. exact Hin.
Qed.

Lemma skills_cover_every_candidate_witness :
  exists s,
    In s (skills_of (U := basic_latin)
            [Examples.python_programming; Examples.python; Examples.sql]) /\
    contains Examples.python s = true.
Proof.
  apply (@skills_cover_every_candidate basic_latin
           [Examples.python_programming; Examples.python; Examples.sql]
           Examples.python).
  - right; left; reflexivity.
  - repeat split; [vm_compute; lia | vm_compute; lia | discriminate | discriminate].
Defined.

(** ** The section locator and the segmenter *)

Lemma node_induction (P : Soup.node -> Prop) :
  (forall text, P (Soup.NavigableString text)) ->
  (forall name attrs contents,
     Forall P contents -> P (Soup.Tag name attrs contents)) ->
  forall n, P n.
Proof.
  intros Hs Ht. fix IH 1. intros [text|name attrs contents]; [apply Hs|].
  apply Ht. induction contents as [|c l IHl]; constructor; [apply IH | exact IHl].
Qed.

Lemma in_descendants (above : list Soup.node) (n : Soup.node) (e : Soup.element) :
  In e (Soup.descendants above n) <->
  exists name attrs contents c,
    n = Soup.Tag name attrs contents /\ In c contents /\
    (e = {| Soup.node_of := c; Soup.parents := n :: above |} \/
     In e (Soup.descendants (n :: above) c)).
Proof.
  destruct n as [text|name attrs contents]; cbn [Soup.descendants].
  - split; [intros [] | intros (? & ? & ? & ? & E & _); discriminate E].
  - rewrite in_flat_map. split.
    + intros (c & Hc & [<-|He]); exists name, attrs, contents, c; auto.
    + intros (? & ? & ? & c & E & Hc & He). inversion E; subst.
      exists c. split; [exact Hc|]. destruct He as [->|He]; [left | right]; auto.
Qed.

(** The children of a node are below it, and so are the children of
    whatever is below it. *)
Lemma children_descendants (e : Soup.element) :
  incl (Soup.children e) (Soup.descendants (Soup.parents e) (Soup.node_of e)).
Proof.
  destruct e as [n above]. unfold Soup.children. cbn [Soup.node_of Soup.parents].
  destruct n as [text|name attrs contents]; [intros x []|].
  intros x Hx. apply in_map_iff in Hx as (c & <- & Hc).
  apply in_descendants. exists name, attrs, contents, c. auto.
Qed.

Lemma descendants_trans (n : Soup.node) :
  forall above e x,
    In e (Soup.descendants above n) ->
    In x (Soup.descendants (Soup.parents e) (Soup.node_of e)) ->
    In x (Soup.descendants above n).
Proof.
  induction n as [text|name attrs contents IH] using node_induction;
    intros above e x He Hx; [destruct He|].
  apply in_descendants in He as (? & ? & ? & c & E & Hc & He).
  symmetry in E. inversion E; subst. clear E.
  apply in_descendants. exists name, attrs, contents, c.
  split; [reflexivity|]. split; [exact Hc|]. right.
  destruct He as [->|He]; [exact Hx|].
  rewrite Forall_forall in IH. exact (IH c Hc _ e x He Hx).
Qed.

Lemma lacks_no_attribute (key : string) (n : Soup.node) :
  lacks key n = true -> Soup.has_attrs [key] n = false.
Proof.
  destruct n as [text|name attrs contents]; [reflexivity|].
  cbn [lacks Soup.has_attrs forallb]. intros H.
  apply andb_true_iff in H as [H _]. apply negb_true_iff in H.
  rewrite H. reflexivity.
Qed.

Lemma lacks_above (key : string) (n : Soup.node) :
  forall above e,
    lacks key n = true ->
    (forall p, In p above -> Soup.has_attrs [key] p = false) ->
    In e (Soup.descendants above n) ->
    forall p, In p (Soup.parents e) -> Soup.has_attrs [key] p = false.
Proof.
  induction n as [text|name attrs contents IH] using node_induction;
    intros above e Hn Habove He; [destruct He|].
  apply in_descendants in He as (? & ? & ? & c & E & Hc & He).
  symmetry in E. inversion E; subst. clear E.
  assert (Hup : forall p, In p (Soup.Tag name attrs contents :: above) ->
                  Soup.has_attrs [key] p = false).
  { intros p [<-|Hp]; [apply lacks_no_attribute; exact Hn | apply Habove; exact Hp]. }
  destruct He as [->|He]; [exact Hup|].
  rewrite Forall_forall in IH.
  apply (IH c Hc (Soup.Tag name attrs contents :: above) e); [|exact Hup | exact He].
  cbn [lacks] in Hn. apply andb_true_iff in Hn as [_ Hn].
  rewrite forallb_forall in Hn. apply Hn. exact Hc.
Qed.

Lemma nearest_some (names keys : list string) (above : list Soup.node)
    (section : Soup.element) :
  Soup.nearest names keys above = Some section ->
  Soup.named names (Soup.node_of section) = true /\
  Soup.has_attrs keys (Soup.node_of section) = true /\
  exists near,
    above = near ++ Soup.node_of section :: Soup.parents section /\
    forall p, In p near -> Soup.named names p && Soup.has_attrs keys p = false.
Proof.
  induction above as [|p above IH]; cbn [Soup.nearest]; [discriminate|].
  destruct (Soup.named names p && Soup.has_attrs keys p) eqn:E.
  - intros H. inversion H; subst. cbn [Soup.node_of Soup.parents].
    apply andb_true_iff in E as [En Ea]. split; [exact En|]. split; [exact Ea|].
    exists []. split; [reflexivity | intros q []].
  - intros H. destruct (IH H) as (Hn & Ha & near & -> & Hnear).
    split; [exact Hn|]. split; [exact Ha|]. exists (p :: near).
    split; [reflexivity|]. intros q [<-|Hq]; [exact E | apply Hnear; exact Hq].
Qed.

Section LocatorResult.
Context {U : Unicode}.

Lemma find_section_in_some (elements : list Soup.element) (header_keywords : list str)
    (section : Soup.element) :
  find_section_in elements header_keywords = Some section ->
  exists pre elem post,
    elements = pre ++ elem :: post /\
    matches_header header_keywords elem /\
    container_of elem = Some section /\
    forall e, In e pre -> ~ matches_header header_keywords e \/ container_of e = None.
Proof.
  induction elements as [|e l IH]; [discriminate|].
  rewrite find_section_in_step.
  destruct (header_matches header_keywords e) eqn:M.
  - destruct (container_of e) as [s|] eqn:C.
    + intros H. inversion H; subst. exists [], e, l.
      split; [reflexivity|]. split; [apply header_matches_iff; exact M|].
      split; [exact C | intros x []].
    + intros H. destruct (IH H) as (pre & elem & post & -> & Hm & Hc & Hpre).
      exists (e :: pre), elem, post. split; [reflexivity|]. split; [exact Hm|].
      split; [exact Hc|]. intros x [<-|Hx]; [right; exact C | apply Hpre; exact Hx].
  - intros H. destruct (IH H) as (pre & elem & post & -> & Hm & Hc & Hpre).
    exists (e :: pre), elem, post. split; [reflexivity|]. split; [exact Hm|].
    split; [exact Hc|]. intros x [<-|Hx]; [|apply Hpre; exact Hx].
    left. rewrite <- header_matches_iff, M. discriminate.
Qed.

Lemma extract_basic_profile_fields (soup : Soup.element) :
  let bp := ProfileData.basic_profile (extract soup) in
  let bp0 :=
    ProfileData.basic_profile (_extract_basic_profile soup _initialize_structure) in
  BasicProfile.full_name bp = BasicProfile.full_name bp0 /\
  BasicProfile.headline bp = BasicProfile.headline bp0 /\
  BasicProfile.location bp = BasicProfile.location bp0 /\
  BasicProfile.profile_summary bp = BasicProfile.profile_summary bp0.
Proof.
  cbv zeta. unfold extract.
  rewrite _extract_volunteering_sets, _extract_honors_awards_sets,
    _extract_projects_sets, _extract_certifications_sets,
    _extract_skills_sets, _extract_education_sets.
  cbn [ProfileData.basic_profile
       ProfileData.set_education ProfileData.set_skills
       ProfileData.set_certifications ProfileData.set_projects
       ProfileData.set_honors_awards ProfileData.set_volunteering].
  unfold _extract_experience.
  destruct (_find_section_by_header soup (SECTION_HEADERS "experience"));
    [|repeat split].
  cbv zeta. cbn [ProfileData.basic_profile ProfileData.set_basic_profile].
  unfold derive_current_company. destruct (find is_present _); repeat split.
Qed.
End LocatorResult.

(** X14. What the section locator returns, when it returns a section: a
    [section] or [div] tag that has an attribute named [recursive], and
    that is the nearest such ancestor of a scanned node whose text matches
    a keyword; every scanned node before that one fails the match or has
    no such ancestor. *)
Theorem find_section_result {U : Unicode} (soup : Soup.element)
    (header_keywords : list str) (section : Soup.element) :
  _find_section_by_header soup header_keywords = Some section ->
  Soup.named ["section"; "div"] (Soup.node_of section) = true /\
  Soup.has_attrs ["recursive"] (Soup.node_of section) = true /\
  exists pre elem post near,
    Soup.find_all HEADER_TAGS soup = pre ++ elem :: post /\
    matches_header header_keywords elem /\
    Soup.parents elem = near ++ Soup.node_of section :: Soup.parents section /\
    (forall p, In p near ->
       Soup.named ["section"; "div"] p && Soup.has_attrs ["recursive"] p = false) /\
    (forall e, In e pre ->
       ~ matches_header header_keywords e \/ container_of e = None).
Proof.
  unfold _find_section_by_header. fold HEADER_TAGS. intros H.
  apply find_section_in_some in H as (pre & elem & post & E & Hm & Hc & Hpre).
  unfold container_of, Soup.find_parent in Hc.
  apply nearest_some in Hc as (Hn & Ha & near & Hp & Hnear).
  split; [exact Hn|]. split; [exact Ha|].
  exists pre, elem, post, near. repeat split; assumption.
Qed.

Lemma find_section_result_witness :
  exists section,
    _find_section_by_header (U := basic_latin) Examples.school_document
      [py "education"] = Some section /\
    Soup.named ["section"; "div"] (Soup.node_of section) = true /\
    Soup.has_attrs ["recursive"] (Soup.node_of section) = true.
Proof.
  exists (Examples.at_ Examples.school_section
            [Soup.node_of Examples.school_document]).
  assert (E : _find_section_by_header (U := basic_latin) Examples.school_document
                [py "education"] =
              Some (Examples.at_ Examples.school_section
                      [Soup.node_of Examples.school_document])) by reflexivity.
  split; [exact E|].
  destruct (@find_section_result basic_latin _ _ _ E) as (Hn & Ha & _).
  split; [exact Hn | exact Ha].
Defined.

(** X15. On a document in which no tag has an attribute named
    [recursive], the extractor finds no section at all: the seven lists of
    the result are empty, and the current company and the profile summary
    are unset, whatever headings and items the document has. *)
Theorem nothing_found_without_the_attribute {U : Unicode}
    (contents : list Soup.node) :
  forallb (lacks "recursive") contents = true ->
  let pd := extract (Soup.BeautifulSoup contents) in
  ProfileData.experience pd = [] /\ ProfileData.education pd = [] /\
  ProfileData.skills pd = [] /\ ProfileData.certifications pd = [] /\
  ProfileData.projects pd = [] /\ ProfileData.honors_awards pd = [] /\
  ProfileData.volunteering pd = [] /\
  BasicProfile.current_company (ProfileData.basic_profile pd) = None /\
  BasicProfile.profile_summary (ProfileData.basic_profile pd) = None.
Proof.
  intros Hlacks. cbv zeta. set (soup := Soup.BeautifulSoup contents).
  assert (No : forall header_keywords,
                 _find_section_by_header soup header_keywords = None).
  { intros header_keywords. apply find_section_needs_the_attribute.
    intros e He p Hp. unfold Soup.find_all in He. apply filter_In in He as [He _].
    apply (lacks_above "recursive" _ _ e) with (p := p) in He;
      [exact He | | intros q [] | exact Hp].
    cbn [soup Soup.BeautifulSoup Soup.node_of lacks existsb negb andb].
    exact Hlacks. }
  assert (Items : forall key, list_items_of soup key = []).
  { intros key. unfold list_items_of. rewrite No. reflexivity. }
  rewrite extract_current_company, extract_experience, extract_education,
    extract_skills, extract_certifications, extract_projects,
    extract_honors_awards, extract_volunteering, !Items, No.
  cbn [map filter find].
  repeat (split; [reflexivity|]).
  rewrite (proj2 (proj2 (proj2 (extract_basic_profile_fields soup)))).
  unfold _extract_basic_profile. rewrite No. reflexivity.
Qed.

Lemma nothing_found_without_the_attribute_witness :
  let pd := extract (U := basic_latin) Examples.plain_school_document in
  ProfileData.education pd = [] /\ ProfileData.skills pd = [].
Proof.
  cbv zeta.
  destruct (@nothing_found_without_the_attribute basic_latin
              [Soup.Tag "section" []
                 [Soup.Tag "div" []
                    [Examples.leaf "h2" "Education"; Examples.leaf "p" "MIT"]]]
              eq_refl) as (_ & He & Hs & _).
  split; [exact He | exact Hs].
Defined.

Lemma first_repeating_some (containers : list Soup.element) :
  first_repeating containers = [] \/
  exists pre container post,
    containers = pre ++ container :: post /\
    (forall c, In c pre -> length (direct_children c) < 2) /\
    2 <= length (direct_children container) /\
    first_repeating containers = direct_children container.
Proof.
  induction containers as [|c l IH]; cbn [first_repeating]; [left; reflexivity|].
  destruct (2 <=? length (direct_children c)) eqn:E.
  - right. exists [], c, l. apply Nat.leb_le in E.
    split; [reflexivity|]. split; [intros x []|]. split; [exact E | reflexivity].
  - apply Nat.leb_gt in E. destruct IH as [IH | (pre & container & post & -> & Hpre & Hc & IH)];
      [left; exact IH | right].
    exists (c :: pre), container, post. split; [reflexivity|].
    split; [intros x [<-|Hx]; [exact E | apply Hpre; exact Hx]|].
    split; [exact Hc | exact IH].
Qed.

(** X16. What the segmenter returns. Every sub-block is a tag below the
    section. Either the sub-blocks are all the [li] tags below the section,
    or the section has no [li] tag and the sub-blocks are the [div]
    children, two or more, of one [ul], [ol] or [div] below the section
    that no such container with two [div] children comes before; so a lone
    [div] is never a sub-block. *)
Theorem sub_blocks_are_list_items_or_sibling_divs (section item : Soup.element) :
  In item (_get_list_items_from_section section) ->
  In item (Soup.descendants (Soup.parents section) (Soup.node_of section)) /\
  ((Soup.named ["li"] (Soup.node_of item) = true /\
    _get_list_items_from_section section = Soup.find_all ["li"] section) \/
   (Soup.find_all ["li"] section = [] /\
    Soup.named ["div"] (Soup.node_of item) = true /\
    exists pre container post,
      Soup.find_all ["ul"; "ol"; "div"] section = pre ++ container :: post /\
      (forall c, In c pre -> length (direct_children c) < 2) /\
      _get_list_items_from_section section = direct_children container /\
      2 <= length (_get_list_items_from_section section) /\
      Soup.parents item = Soup.node_of container :: Soup.parents container)).
Proof.
  unfold _get_list_items_from_section.
  destruct (Soup.find_all ["li"] section) as [|li lis] eqn:L.
  - intros Hitem.
    destruct (first_repeating_some (Soup.find_all ["ul"; "ol"; "div"] section))
      as [E | (pre & container & post & E & Hpre & Hc & R)];
      [rewrite E in Hitem; destruct Hitem|].
    rewrite R in *. unfold direct_children in Hitem.
    apply filter_In in Hitem as [Hchild Hdiv].
    assert (Hcont : In container
                      (Soup.descendants (Soup.parents section) (Soup.node_of section))).
    { assert (H : In container (Soup.find_all ["ul"; "ol"; "div"] section))
        by (rewrite E; apply in_elt).
      unfold Soup.find_all in H. apply filter_In in H as [H _]. exact H. }
    split.
    + eapply descendants_trans; [exact Hcont|].
      apply children_descendants. exact Hchild.
    + right. split; [reflexivity|]. split; [exact Hdiv|].
      exists pre, container, post. repeat split; try assumption.
      unfold Soup.children in Hchild.
      destruct (Soup.node_of container); [destruct Hchild|].
      apply in_map_iff in Hchild as (c & <- & _). reflexivity.
  - intros Hitem. rewrite <- L in Hitem. unfold Soup.find_all in Hitem.
    apply filter_In in Hitem as [Hbelow Hli].
    split; [exact Hbelow|]. left. split; [exact Hli | reflexivity].
Qed.

Lemma sub_blocks_are_list_items_or_sibling_divs_witness :
  let item := nth 1 (_get_list_items_from_section Examples.cards_section)
                    Examples.cards_section in
  In item (_get_list_items_from_section Examples.cards_section) /\
  Soup.named ["div"] (Soup.node_of item) = true /\
  In item (Soup.descendants (Soup.parents Examples.cards_section)
             (Soup.node_of Examples.cards_section)).
Proof.
  cbv zeta.
  assert (Hitem : In (nth 1 (_get_list_items_from_section Examples.cards_section)
                        Examples.cards_section)
                     (_get_list_items_from_section Examples.cards_section))
    by (vm_compute; auto).
  split; [exact Hitem|].
  destruct (sub_blocks_are_list_items_or_sibling_divs _ _ Hitem) as (Hbelow & _).
  split; [reflexivity | exact Hbelow].
Defined.

(** ** The basic profile *)

Section BasicProfileFacts.
Context {U : Unicode}.

Lemma first_text_some (p : str -> bool) (elems : list Soup.element) (t : str) :
  first_text p elems = Some t <->
  exists pre e post,
    elems = pre ++ e :: post /\
    _normalize_text (Soup.get_text e) = Some t /\ p t = true /\
    forall e' t', In e' pre ->
      _normalize_text (Soup.get_text e') = Some t' -> p t' = false.
Proof.
  unfold first_text, texts. induction elems as [|e l IH]; cbn [flat_map hd_error].
  - split; [discriminate | intros ([|? ?] & ? & ? & E & _); discriminate E].
  - destruct (_normalize_text (Soup.get_text e)) as [text|] eqn:N.
    + destruct (p text) eqn:P; cbn [app hd_error].
      * split.
        -- intros H. inversion H; subst. exists [], e, l.
           split; [reflexivity|]. split; [exact N|]. split; [exact P|].
           intros e' t' [].
        -- intros ([|e0 pre] & e1 & post & E & N1 & P1 & Hpre); inversion E; subst.
           ++ rewrite N in N1. exact N1.
           ++ rewrite (Hpre e0 text (or_introl eq_refl) N) in P. discriminate.
      * rewrite IH. split.
        -- intros (pre & e1 & post & -> & N1 & P1 & Hpre).
           exists (e :: pre), e1, post. split; [reflexivity|].
           split; [exact N1|]. split; [exact P1|].
           intros e' t' [<-|He'] N'; [|eapply Hpre; eassumption].
           rewrite N in N'. inversion N'; subst. exact P.
        -- intros ([|e0 pre] & e1 & post & E & N1 & P1 & Hpre); inversion E; subst.
           ++ rewrite N in N1. inversion N1; subst. rewrite P in P1. discriminate.
           ++ exists pre, e1, post. split; [reflexivity|].
              split; [exact N1|]. split; [exact P1|].
              intros e' t' He'. apply Hpre. right; exact He'.
    + cbn [app]. rewrite IH. split.
      * intros (pre & e1 & post & -> & N1 & P1 & Hpre).
        exists (e :: pre), e1, post. split; [reflexivity|].
        split; [exact N1|]. split; [exact P1|].
        intros e' t' [<-|He'] N'; [|eapply Hpre; eassumption].
        rewrite N in N'. discriminate.
      * intros ([|e0 pre] & e1 & post & E & N1 & P1 & Hpre); inversion E; subst.
        -- rewrite N in N1. discriminate.
        -- exists pre, e1, post. split; [reflexivity|].
           split; [exact N1|]. split; [exact P1|].
           intros e' t' He'. apply Hpre. right; exact He'.
Qed.

(** [max(paragraphs, key=len)] is the first of the longest. *)
Lemma max_by_len_first (l before : list str) (best : str) (after : list str) :
  (forall t, In t before -> length t < length best) ->
  (forall t, In t after -> length t <= length best) ->
  exists pre post,
    before ++ best :: after ++ l = pre ++ max_by_len best l :: post /\
    (forall t, In t pre -> length t < length (max_by_len best l)) /\
    (forall t, In t post -> length t <= length (max_by_len best l)).
Proof.
  revert before best after. induction l as [|text l IH];
    intros before best after Hb Ha; cbn [max_by_len].
  - exists before, after. rewrite app_nil_r. repeat split; assumption.
  - destruct (length best <? length text) eqn:E.
    + apply Nat.ltb_lt in E.
      destruct (IH (before ++ best :: after) text []) as (pre & post & Eq & Hpre & Hpost).
      * intros t Ht. apply in_app_or in Ht as [Ht|[<-|Ht]];
          [specialize (Hb t Ht) | | specialize (Ha t Ht)]; lia.
      * intros t [].
      * exists pre, post. split; [|split; assumption].
        rewrite <- Eq, <- app_assoc. reflexivity.
    + apply Nat.ltb_ge in E.
      destruct (IH before best (after ++ [text])) as (pre & post & Eq & Hpre & Hpost).
      * exact Hb.
      * intros t Ht. apply in_app_or in Ht as [Ht|[<-|[]]]; [apply Ha; exact Ht | exact E].
      * exists pre, post. split; [|split; assumption].
        rewrite <- Eq, <- app_assoc. reflexivity.
Qed.
End BasicProfileFacts.

(** X17. The full name of the result is the normalized text of the first
    [h1] of the document whose text is not blank and is shorter than 100
    characters; an [h1] with a longer text is passed over. A document
    without any [h1] has neither a full name nor a headline. *)
Theorem full_name_is_first_short_heading {U : Unicode} (soup : Soup.element) :
  let bp := ProfileData.basic_profile (extract soup) in
  (forall name,
     BasicProfile.full_name bp = Some name <->
     exists pre h1 post,
       Soup.find_all ["h1"] soup = pre ++ h1 :: post /\
       _normalize_text (Soup.get_text h1) = Some name /\ length name < 100 /\
       forall h t, In h pre ->
         _normalize_text (Soup.get_text h) = Some t -> 100 <= length t) /\
  (Soup.find_all ["h1"] soup = [] ->
   BasicProfile.full_name bp = None /\ BasicProfile.headline bp = None).
Proof.
  cbv zeta. destruct (extract_basic_profile_fields soup) as (-> & -> & _).
  unfold _extract_basic_profile. cbv zeta.
  cbn [ProfileData.basic_profile ProfileData.set_basic_profile _initialize_structure
       BasicProfile.full_name BasicProfile.headline]. split.
  - intros name.
    assert (E : match first_text (fun name0 => length name0 <? 100)
                        (Soup.find_all ["h1"] soup) with
                | Some name0 => Some name0
                | None => None
                end = first_text (fun name0 => length name0 <? 100)
                        (Soup.find_all ["h1"] soup))
      by (destruct (first_text _ _); reflexivity).
    rewrite E, first_text_some. split.
    + intros (pre & h1 & post & Eq & N & P & Hpre). exists pre, h1, post.
      split; [exact Eq|]. split; [exact N|]. split; [apply Nat.ltb_lt; exact P|].
      intros h t Hh Ht. apply Nat.ltb_ge. exact (Hpre h t Hh Ht).
    + intros (pre & h1 & post & Eq & N & P & Hpre). exists pre, h1, post.
      split; [exact Eq|]. split; [exact N|]. split; [apply Nat.ltb_lt; exact P|].
      intros h t Hh Ht. apply Nat.ltb_ge. exact (Hpre h t Hh Ht).
  - intros ->. split; reflexivity.
Qed.

Lemma full_name_is_first_short_heading_witness :
  let bp :=
    ProfileData.basic_profile (extract (U := basic_latin) Examples.skills_document) in
  Soup.find_all ["h1"] Examples.skills_document = [] /\
  BasicProfile.full_name bp = None /\ BasicProfile.headline bp = None.
Proof.
  cbv zeta. split; [reflexivity|].
  apply (proj2 (@full_name_is_first_short_heading basic_latin Examples.skills_document)).
  reflexivity.
Defined.

(** X18. The headline of the result is looked for only below the nearest
    [div] or [section] above the first [h1] of the document. It is the
    normalized text of a [div], [p] or [span] there, longer than 10 and
    shorter than 200 characters, it is never the full name, and its
    lower-cased form has none of the words "area", "region" and "country". *)
Theorem headline_is_near_the_first_heading {U : Unicode} (soup : Soup.element)
    (text : str) :
  let bp := ProfileData.basic_profile (extract soup) in
  BasicProfile.headline bp = Some text ->
  10 < length text /\ length text < 200 /\
  BasicProfile.full_name bp <> Some text /\
  found false Patterns.region_pattern (lower text) = false /\
  exists h1 others parent elem,
    Soup.find_all ["h1"] soup = h1 :: others /\
    Soup.find_parent ["div"; "section"] [] h1 = Some parent /\
    In elem (Soup.find_all ["div"; "p"; "span"] parent) /\
    _normalize_text (Soup.get_text elem) = Some text.
Proof.
  cbv zeta. destruct (extract_basic_profile_fields soup) as (-> & -> & _).
  unfold _extract_basic_profile. cbv zeta.
  cbn [ProfileData.basic_profile ProfileData.set_basic_profile _initialize_structure
       BasicProfile.full_name BasicProfile.headline].
  set (full_name := match first_text _ (Soup.find_all ["h1"] soup) with
                    | Some name => Some name
                    | None => None
                    end).
  destruct (Soup.find_all ["h1"] soup) as [|h1 others] eqn:H1; [discriminate|].
  destruct (Soup.find_parent ["div"; "section"] [] h1) as [parent|] eqn:Hparent;
    [|discriminate].
  match goal with
  | |- match ?f with Some _ => _ | None => _ end = _ -> _ =>
      destruct f as [t|] eqn:F; [|discriminate]
  end.
  intros H. inversion H; subst t; clear H.
  apply first_text_some in F as (pre & elem & post & Eq & N & P & _).
  apply andb_true_iff in P as [P Hregion].
  apply andb_true_iff in P as [P Hname].
  apply andb_true_iff in P as [H10 H200].
  apply Nat.ltb_lt in H10, H200. apply negb_true_iff in Hname, Hregion.
  split; [exact H10|]. split; [exact H200|]. split.
  - intros E. rewrite E in Hname. cbn [opt_eqb] in Hname.
    rewrite str_eqb_refl in Hname. discriminate.
  - split; [exact Hregion|]. exists h1, others, parent, elem.
    split; [reflexivity|]. split; [exact Hparent|].
    split; [rewrite Eq; apply in_elt | exact N].
Qed.

Lemma headline_is_near_the_first_heading_witness :
  let bp :=
    ProfileData.basic_profile (extract (U := basic_latin) Samples.profile_document) in
  BasicProfile.headline bp = Some (py "Analyst of the Analytical Engine.") /\
  BasicProfile.full_name bp <> Some (py "Analyst of the Analytical Engine.").
Proof.
  cbv zeta.
  assert (E : BasicProfile.headline
                (ProfileData.basic_profile
                   (extract (U := basic_latin) Samples.profile_document)) =
              Some (py "Analyst of the Analytical Engine.")) by (vm_compute; reflexivity).
  split; [exact E|].
  exact (proj1 (proj2 (proj2
           (@headline_is_near_the_first_heading basic_latin _ _ E)))).
Defined.

(** X19. The profile summary of the result is a paragraph of the about
    section: the normalized text of a [p], [div] or [span] below it that is
    longer than 20 characters and is not "about" or "summary" in any case.
    Among these it is the longest, and of several longest ones the first. *)
Theorem profile_summary_is_first_longest {U : Unicode} (soup : Soup.element)
    (summary : str) :
  BasicProfile.profile_summary (ProfileData.basic_profile (extract soup)) =
    Some summary ->
  exists about_section pre post,
    _find_section_by_header soup (SECTION_HEADERS "about") = Some about_section /\
    texts (fun text =>
             negb (mem (lower text) (SECTION_HEADERS "about")) && (20 <? length text))
          (Soup.find_all ["p"; "div"; "span"] about_section) =
      pre ++ summary :: post /\
    (forall t, In t pre -> length t < length summary) /\
    (forall t, In t post -> length t <= length summary) /\
    20 < length summary /\
    lower summary <> py "about" /\ lower summary <> py "summary".
Proof.
  destruct (extract_basic_profile_fields soup) as (_ & _ & _ & ->).
  unfold _extract_basic_profile. cbv zeta.
  cbn [ProfileData.basic_profile ProfileData.set_basic_profile _initialize_structure
       BasicProfile.profile_summary].
  destruct (_find_section_by_header soup (SECTION_HEADERS "about"))
    as [about_section|]; [|discriminate].
  set (keep := fun text =>
                 negb (mem (lower text) (SECTION_HEADERS "about")) &&
                 (20 <? length text)).
  destruct (texts keep (Soup.find_all ["p"; "div"; "span"] about_section))
    as [|text paragraphs] eqn:T; [discriminate|].
  intros H. inversion H as [E]; clear H.
  destruct (max_by_len_first paragraphs [] text []) as (pre & post & Eq & Hpre & Hpost);
    [intros t [] | intros t [] |].
  cbn [app] in Eq. rewrite E in *.
  exists about_section, pre, post. split; [reflexivity|].
  split; [fold keep; rewrite T; exact Eq|].
  split; [exact Hpre|]. split; [exact Hpost|].
  assert (Hin : In summary (texts keep (Soup.find_all ["p"; "div"; "span"] about_section)))
    by (rewrite T, Eq; apply in_elt).
  apply texts_In in Hin as (elem & _ & _ & K). unfold keep in K.
  apply andb_true_iff in K as [Hm Hlen]. apply Nat.ltb_lt in Hlen.
  apply negb_true_iff in Hm. rewrite mem_false in Hm.
  split; [exact Hlen|].
  split; apply Hm; [left; reflexivity | right; left; reflexivity].
Qed.

Lemma profile_summary_is_first_longest_witness :
  BasicProfile.profile_summary
    (ProfileData.basic_profile (extract (U := basic_latin) Samples.profile_document)) =
    Some (py "I study the flight of birds too") /\
  20 < length (py "I study the flight of birds too").
Proof.
  assert (E : BasicProfile.profile_summary
                (ProfileData.basic_profile
                   (extract (U := basic_latin) Samples.profile_document)) =
              Some (py "I study the flight of birds too")) by (vm_compute; reflexivity).
  split; [exact E|].
  destruct (@profile_summary_is_first_longest basic_latin _ _ E)
    as (about_section & pre & post & _ & _ & _ & _ & Hlen & _).
  exact Hlen.
Defined.

(** ** The location line *)

Section Eaten.
Context {U : Unicode}.
Variable ic : bool.
Variable ok : char -> Prop.
Import Re.

Lemma fed_refl (st : cursor) : fed ok st st.
Proof. exists []. split; [reflexivity | constructor]. Qed.

Lemma fed_trans (st1 st2 st3 : cursor) :
  fed ok st1 st2 -> fed ok st2 st3 -> fed ok st1 st3.
Proof.
  intros (a & Ea & Ha) (b & Eb & Hb). exists (a ++ b).
  split; [rewrite Ea, Eb; apply app_assoc | apply Forall_app; split; assumption].
Qed.

Lemma one_eats (test : char -> bool) (st : cursor) (k : cursor -> option cursor)
    (x : cursor) :
  (forall c, test c = true -> ok c) ->
  one test st k = Some x ->
  exists c t, rest st = c :: t /\ ok c /\ k (advance c t st) = Some x.
Proof.
  intros Hok. unfold one. destruct (rest st) as [|c t]; [discriminate|].
  destruct (test c) eqn:T; [|discriminate]. intros H.
  exists c, t. split; [reflexivity|]. split; [apply Hok; exact T | exact H].
Qed.

Lemma one_fed (test : char -> bool) (st : cursor) (k : cursor -> option cursor)
    (x : cursor) :
  (forall c, test c = true -> ok c) ->
  one test st k = Some x -> exists st', k st' = Some x /\ fed ok st st'.
Proof.
  intros Hok H. apply one_eats in H as (c & t & E & Hc & H); [|exact Hok].
  exists (advance c t st). split; [exact H|]. exists [c].
  split; [exact E | constructor; [exact Hc | constructor]].
Qed.

Lemma guard_fed (b : bool) (st : cursor) (k : cursor -> option cursor) (x : cursor) :
  guard b st k = Some x -> exists st', k st' = Some x /\ fed ok st st'.
Proof.
  unfold guard. destruct b; [|discriminate]. intros H.
  exists st; split; [exact H | apply fed_refl].
Qed.

Lemma repeat_fed (step : cursor -> (cursor -> option cursor) -> option cursor)
    (greedy : bool) (k : cursor -> option cursor) (x : cursor) :
  (forall st k', step st k' = Some x -> exists st', k' st' = Some x /\ fed ok st st') ->
  forall fuel st, repeat_ step greedy k fuel st = Some x ->
  exists st', k st' = Some x /\ fed ok st st'.
Proof.
  intros Hstep. induction fuel as [|fuel IH]; intros st; cbn [repeat_].
  - intros H. exists st; split; [exact H | apply fed_refl].
  - assert (Again : step st (fun st' =>
                      if length (rest st') <? length (rest st)
                      then repeat_ step greedy k fuel st' else None) = Some x ->
                    exists st', k st' = Some x /\ fed ok st st').
    { intros H. apply Hstep in H as (st1 & H & G1).
      destruct (length (rest st1) <? length (rest st)); [|discriminate].
      apply IH in H as (st2 & H & G2). exists st2; split; [exact H|].
      eapply fed_trans; eassumption. }
    assert (Here : k st = Some x -> exists st', k st' = Some x /\ fed ok st st').
    { intros H. exists st; split; [exact H | apply fed_refl]. }
    destruct greedy; unfold orelse.
    + destruct (step st _).
      * intros H; inversion H; subst. apply Again. reflexivity.
      * exact Here.
    + destruct (k st).
      * intros H; inversion H; subst. apply Here. reflexivity.
      * exact Again.
Qed.

(** Where a pattern matches, its continuation was run further on in the
    text, past characters that the pattern can take. *)
Lemma run_fed (r : pattern) (st : cursor) (k : cursor -> option cursor) (x : cursor) :
  eats ic ok r ->
  run ic r st k = Some x -> exists st', k st' = Some x /\ fed ok st st'.
Proof.
  revert st k. induction r as [| p | items | | | | | a IHa b IHb | a IHa b IHb
                              | greedy a IHa | n a IHa]; intros st k He;
    cbn [run]; cbn [eats] in He.
  - intros H. exists st; split; [exact H | apply fed_refl].
  - apply one_fed. exact He.
  - apply one_fed. exact He.
  - apply one_fed. intros c Hc. apply He. apply negb_true_iff. exact Hc.
  - apply guard_fed.
  - apply guard_fed.
  - apply guard_fed.
  - destruct He as [Ha Hb]. intros H.
    apply IHa in H as (st1 & H & G1); [|exact Ha].
    apply IHb in H as (st2 & H & G2); [|exact Hb].
    exists st2; split; [exact H | eapply fed_trans; eassumption].
  - destruct He as [Ha Hb]. unfold orelse. destruct (run ic a st k) eqn:E.
    + intros H; inversion H; subst. apply IHa; assumption.
    + apply IHb; assumption.
  - apply repeat_fed. intros st0 k'. apply IHa. exact He.
  - intros H. apply IHa in H as (st1 & H & G1); [|exact He].
    exists (close_group n st st1). split; [exact H | exact G1].
Qed.

Lemma run_bol_cont (b : pattern) (st : cursor) (k : cursor -> option cursor)
    (x : cursor) :
  run ic (Seq Bol b) st k = Some x -> prev st = None /\ run ic b st k = Some x.
Proof.
  cbn [run]. unfold guard. destruct (prev st); [discriminate|].
  intros H. split; [reflexivity | exact H].
Qed.

Lemma run_plus_set_cont (greedy : bool) (items : list item) (b : pattern)
    (st : cursor) (k : cursor -> option cursor) (x : cursor) :
  eats ic ok (Set_ items) ->
  run ic (Seq (Plus greedy (Set_ items)) b) st k = Some x ->
  exists w st', w <> [] /\ Forall ok w /\ rest st = w ++ rest st' /\
                run ic b st' k = Some x.
Proof.
  intros He. unfold Plus.
  change (run ic (Seq (Seq (Set_ items) (Star greedy (Set_ items))) b) st k)
    with (one (fun c => existsb (fun i => item_matches ic i c) items) st
            (fun st1 => run ic (Star greedy (Set_ items)) st1
                          (fun st2 => run ic b st2 k))).
  intros H. apply one_eats in H as (c & t & E & Hc & H); [|exact He].
  apply run_fed in H as (st' & H & (w & Ew & Hw)); [|exact He].
  cbn [advance rest] in Ew. exists (c :: w), st'.
  split; [discriminate|]. split; [constructor; assumption|].
  split; [rewrite E, Ew; reflexivity | exact H].
Qed.

Lemma run_eol_end (st x : cursor) :
  run ic Eol st Some = Some x -> rest st = [] \/ rest st = [NEWLINE].
Proof.
  cbn [run]. unfold guard, at_end. destruct (rest st) as [|c [|d t]]; auto.
  - destruct (c =? NEWLINE)%N eqn:E; [|discriminate].
    apply N.eqb_eq in E. subst c. auto.
  - discriminate.
Qed.

Lemma search_from_where (r : pattern) (before : option char) (text : str)
    (m : match_) :
  search_from ic r before text = Some m ->
  exists skipped here at_,
    text = skipped ++ here /\
    match_at ic r {| prev := at_; rest := here; groups := [] |} = Some m /\
    ((skipped = [] /\ at_ = before) \/ exists c, at_ = Some c).
Proof.
  revert before. induction text as [|c text IH]; intros before; cbn [search_from].
  - destruct (match_at ic r _) eqn:E; [|discriminate].
    intros H; inversion H; subst. exists [], [], before.
    split; [reflexivity|]. split; [exact E | left; split; reflexivity].
  - destruct (match_at ic r _) eqn:E.
    + intros H; inversion H; subst. exists [], (c :: text), before.
      split; [reflexivity|]. split; [exact E | left; split; reflexivity].
    + intros H. apply IH in H as (skipped & here & at_ & Eq & M & Hat).
      exists (c :: skipped), here, at_.
      split; [rewrite Eq; reflexivity|]. split; [exact M|]. right.
      destruct Hat as [[_ ->]|Hat]; [exists c; reflexivity | exact Hat].
Qed.
End Eaten.

Section PlaceLine.
Context {U : Unicode}.
Import Re.

Lemma run_chr_cont (p : char) (b : pattern) (st : cursor)
    (k : cursor -> option cursor) (x : cursor) :
  run false (Seq (Chr p) b) st k = Some x ->
  exists t, rest st = p :: t /\ run false b (advance p t st) k = Some x.
Proof.
  cbn [run]. unfold one. destruct (rest st) as [|c t]; [discriminate|].
  unfold chr_matches. cbn [andb]. rewrite orb_false_r.
  destruct (p =? c)%N eqn:E; [|discriminate]. apply N.eqb_eq in E. subst c.
  intros H. exists t. split; [reflexivity | exact H].
Qed.

Lemma place_set_eats :
  eats false (fun c => isword c = true \/ isspace c = true \/ c = COMMA)
       (Set_ [IWord; ISpace; IChar COMMA]).
Proof.
  cbn [eats existsb item_matches]. intros c H. unfold chr_matches in H.
  cbn [andb] in H. rewrite !orb_false_r in H.
  apply orb_true_iff in H as [H|H]; [auto|].
  apply orb_true_iff in H as [H|H]; [auto|].
  apply N.eqb_eq in H. auto.
Qed.

(** What [^[\w\s,]+,[\w\s,]+$] finds is the whole text but a final
    newline. *)
Lemma place_pattern_shape (text : str) :
  found false Patterns.place_pattern text = true ->
  exists before after tail,
    text = before ++ COMMA :: after ++ tail /\ before <> [] /\ after <> [] /\
    Forall (fun c => isword c = true \/ isspace c = true \/ c = COMMA)
           (before ++ COMMA :: after) /\
    (tail = [] \/ tail = [NEWLINE]).
Proof.
  unfold found, search.
  destruct (search_from false Patterns.place_pattern None text) as [m|] eqn:S;
    [intros _ | discriminate].
  apply search_from_where in S as (skipped & here & at_ & Eq & M & Hat).
  unfold match_at in M.
  destruct (run false Patterns.place_pattern _ Some) as [x|] eqn:E; [|discriminate].
  clear M. unfold Patterns.place_pattern in E. cbn [Seqs] in E.
  apply run_bol_cont in E as [Hprev E]. cbn [prev] in Hprev.
  destruct Hat as [[-> _]|[c Hc]]; [|congruence]. cbn [app] in Eq. subst here.
  apply (run_plus_set_cont false
           (fun c => isword c = true \/ isspace c = true \/ c = COMMA) true) in E
    as (w1 & st1 & Hne1 & Hw1 & E1 & E); [|exact place_set_eats].
  cbn [rest] in E1.
  apply run_chr_cont in E as (t & E2 & E).
  apply (run_plus_set_cont false
           (fun c => isword c = true \/ isspace c = true \/ c = COMMA) true) in E
    as (w2 & st3 & Hne2 & Hw2 & E3 & E); [|exact place_set_eats].
  cbn [advance rest] in E3. apply run_eol_end in E.
  exists w1, w2, (rest st3). split; [rewrite E1, E2, E3; reflexivity|].
  split; [exact Hne1|]. split; [exact Hne2|]. split; [|exact E].
  apply Forall_app. split; [exact Hw1|]. constructor; [auto | exact Hw2].
Qed.

Lemma normal_spaces (s : str) (c : char) :
  normal s -> In c s -> isspace c = true -> c = SPACE.
Proof.
  intros (_ & _ & _ & Hs) Hin Hc. apply in_split in Hin as (pre & post & ->).
  apply (spaced_inside false pre c post Hs Hc).
Qed.
End PlaceLine.

(** X20. The location of the result, on tables in which the newline is
    white space as it is in Python: the normalized text of a [span], [div]
    or [p] of the document, shorter than 100 characters, made of word
    characters, spaces and commas only, with a comma that has a character
    before it and a character after it. *)
Theorem location_is_a_comma_line {U : Unicode} (soup : Soup.element) (text : str) :
  isspace NEWLINE = true ->
  BasicProfile.location (ProfileData.basic_profile (extract soup)) = Some text ->
  length text < 100 /\
  Forall place_char text /\
  (exists before after,
     text = before ++ COMMA :: after /\ before <> [] /\ after <> []) /\
  exists elem,
    In elem (Soup.find_all ["span"; "div"; "p"] soup) /\
    _normalize_text (Soup.get_text elem) = Some text.
Proof.
  intros Hnl. destruct (extract_basic_profile_fields soup) as (_ & _ & -> & _).
  unfold _extract_basic_profile. cbv zeta.
  cbn [ProfileData.basic_profile ProfileData.set_basic_profile _initialize_structure
       BasicProfile.location].
  match goal with
  | |- match ?f with Some _ => _ | None => _ end = _ -> _ =>
      destruct f as [t|] eqn:F; [|discriminate]
  end.
  intros H. inversion H; subst t; clear H.
  apply first_text_some in F as (pre & elem & post & Eq & N & P & _).
  apply andb_true_iff in P as [P Hlen]. apply andb_true_iff in P as [_ Hplace].
  apply Nat.ltb_lt in Hlen. split; [exact Hlen|].
  pose proof (_normalize_text_normal _ _ N) as Hnormal.
  apply place_pattern_shape in Hplace
    as (before & after & tail & Et & Hb & Ha & Hall & Htail).
  assert (Tail : tail = []).
  { destruct Htail as [->| ->]; [reflexivity|]. exfalso.
    destruct Hnormal as (_ & _ & Hedge & _). rewrite Et in Hedge.
    replace (before ++ COMMA :: after ++ [NEWLINE])
      with ((before ++ COMMA :: after) ++ [NEWLINE]) in Hedge
      by (rewrite <- app_assoc; reflexivity).
    rewrite rev_unit in Hedge. cbn [edge_solid] in Hedge. congruence. }
  subst tail. rewrite app_nil_r in Et. split; [|split].
  - rewrite Forall_forall. intros c Hc. pose proof Hc as Hin. rewrite Et in Hc.
    rewrite Forall_forall in Hall. destruct (Hall c Hc) as [Hw|[Hs|Hcomma]].
    + left; exact Hw.
    + right; left. exact (normal_spaces text c Hnormal Hin Hs).
    + right; right; exact Hcomma.
  - exists before, after. repeat split; assumption.
  - exists elem. split; [rewrite Eq; apply in_elt | exact N].
Qed.

Lemma location_is_a_comma_line_witness :
  BasicProfile.location
    (ProfileData.basic_profile (extract (U := basic_latin) Samples.profile_document)) =
    Some (py "London, United Kingdom") /\
  Forall (place_char (U := basic_latin)) (py "London, United Kingdom").
Proof.
  assert (E : BasicProfile.location
                (ProfileData.basic_profile
                   (extract (U := basic_latin) Samples.profile_document)) =
              Some (py "London, United Kingdom")) by (vm_compute; reflexivity).
  split; [exact E|].
  exact (proj1 (proj2 (@location_is_a_comma_line basic_latin _ _ eq_refl E))).
Defined.

(** ** Honor and project records *)

(** X21. The details of an honor and of a project record. The issuer of
    an honor is the second fragment; its date and its description come
    from the third fragment on, the date being the first of them that has
    four digits in a row or a month abbreviation, the description a
    fragment longer than 20 characters. A project has no issuer: its dates
    and its description, longer than 30 characters, come from the second
    fragment on. *)
Theorem honor_and_project_details {U : Unicode} (text_elements : list str) :
  (let honor := honor_rules text_elements in
   let later := skipn 2 text_elements in
   Honor.issuer honor = hd_error (tl text_elements) /\
   (forall t, Honor.date honor = Some t ->
      In t later /\ found true Patterns.dated_pattern t = true /\
      exists pre post, later = pre ++ t :: post /\
        forall y, In y pre -> found true Patterns.dated_pattern y = false) /\
   (forall t, Honor.description honor = Some t -> In t later /\ 20 < length t)) /\
  (let project := project_rules text_elements in
   let later := tl text_elements in
   (forall t, Project.associated_dates project = Some t ->
      In t later /\ found true Patterns.dated_pattern t = true /\
      exists pre post, later = pre ++ t :: post /\
        forall y, In y pre -> found true Patterns.dated_pattern y = false) /\
   (forall t, Project.description project = Some t -> In t later /\ 30 < length t)).
Proof.
  split; cbv zeta.
  - split; [apply honor_rules_title|].
    unfold honor_rules. destruct text_elements as [|title l];
      [split; intros t H; discriminate H|].
    destruct (shift l) as [issuer l1] eqn:S. apply shift_skip in S.
    change (skipn 2 (title :: l)) with (skipn 1 l).
    assert (L : skipn 1 l = l1) by (subst l1; destruct l; reflexivity).
    rewrite L. clear L S.
    destruct (take_first (found true Patterns.dated_pattern) l1) as [date l2] eqn:E.
    pose proof (take_first_incl _ _ _ _ E) as I.
    cbn [Honor.date Honor.description]. split.
    + intros t ->. pose proof (take_first_some _ _ _ _ E) as (Hp & _ & Hfirst).
      split; [eapply take_first_in; exact E|]. split; [exact Hp | exact Hfirst].
    + intros t Ht. apply find_split in Ht as (pre & post & -> & Hp & _).
      split; [apply I, in_elt | apply Nat.ltb_lt; exact Hp].
  - unfold project_rules. destruct text_elements as [|name l];
      [split; intros t H; discriminate H|].
    cbn [tl].
    destruct (take_first (found true Patterns.dated_pattern) l) as [dates l1] eqn:E.
    pose proof (take_first_incl _ _ _ _ E) as I.
    cbn [Project.associated_dates Project.description]. split.
    + intros t ->. pose proof (take_first_some _ _ _ _ E) as (Hp & _ & Hfirst).
      split; [eapply take_first_in; exact E|]. split; [exact Hp | exact Hfirst].
    + intros t Ht. apply find_split in Ht as (pre & post & -> & Hp & _).
      split; [apply I, in_elt | apply Nat.ltb_lt; exact Hp].
Qed.

Lemma honor_and_project_details_witness :
  let fragments := [py "Dean's List"; py "MIT"; py "May 2019"] in
  Honor.date (honor_rules (U := basic_latin) fragments) = Some (py "May 2019") /\
  In (py "May 2019") (skipn 2 fragments) /\
  found (U := basic_latin) true Patterns.dated_pattern (py "May 2019") = true.
Proof.
  cbv zeta.
  assert (E : Honor.date
                (honor_rules (U := basic_latin)
                   [py "Dean's List"; py "MIT"; py "May 2019"]) =
              Some (py "May 2019")) by (vm_compute; reflexivity).
  split; [exact E|].
  pose proof (proj1 (@honor_and_project_details basic_latin
                       [py "Dean's List"; py "MIT"; py "May 2019"])) as H.
  cbv zeta in H. destruct H as (_ & Hd & _).
  destruct (Hd _ E) as (Hin & Hf & _). split; [exact Hin | exact Hf].
Defined.

(** * The container lookup of the locator *)

(** With the attribute in place the lookup still passes over the nearest
    container: in [<div recursive=""><div><h2>Intro</h2><h3>Education</h3>
    </div></div>] the nearest [div] above the heading is the inner one, and
    the locator returns the outer one. *)
Lemma find_section_skips_the_nearest_container :
  let soup := Samples.nested_document in
  let outer := Examples.at_ Samples.outer_div [Soup.node_of soup] in
  let inner := Examples.at_ Samples.inner_div [Samples.outer_div; Soup.node_of soup] in
  let heading :=
    Examples.at_ (Examples.leaf "h3" "Education")
      [Samples.inner_div; Samples.outer_div; Soup.node_of soup] in
  find (header_matches (U := basic_latin) [py "education"])
       (Soup.find_all HEADER_TAGS soup) = Some heading /\
  Soup.find_parent ["section"; "div"] [] heading = Some inner /\
  spec_find_section (U := basic_latin) soup [py "education"] = Some inner /\
  _find_section_by_header (U := basic_latin) soup [py "education"] = Some outer.
Proof. cbv zeta. repeat split. Qed.

(** C4. The locator does not return the nearest [section] or [div] above
    the first node that matches. Its lookup is written
    [find_parent(['section', 'div'], recursive=True)], and [find_parent]
    reads [recursive=True] as a filter on an attribute named [recursive].
    On a document in which no tag has that attribute the locator returns
    nothing, for every keyword and whatever headings the document has; so
    whenever the lookup that the specification describes finds a container,
    the locator does not return it. *)
Theorem find_section_misses_plain_containers {U : Unicode}
    (contents : list Soup.node) (header_keywords : list str) :
  forallb (lacks "recursive") contents = true ->
  let soup := Soup.BeautifulSoup contents in
  _find_section_by_header soup header_keywords = None /\
  (forall section,
     spec_find_section soup header_keywords = Some section ->
     _find_section_by_header soup header_keywords <> Some section).
Proof.
  intros Hlacks. cbv zeta.
  assert (No : _find_section_by_header (Soup.BeautifulSoup contents)
                 header_keywords = None).
  { apply find_section_needs_the_attribute. intros e He p Hp.
    unfold Soup.find_all in He. apply filter_In in He as [He _].
    apply (lacks_above "recursive" _ _ e) with (p := p) in He;
      [exact He | | intros q [] | exact Hp].
    cbn [Soup.BeautifulSoup Soup.node_of lacks existsb negb andb].
    exact Hlacks. }
  split; [exact No|]. intros section _. rewrite No. discriminate.
Qed.

Lemma find_section_misses_plain_containers_witness :
  let soup := Samples.plain_heading_document in
  let div := Examples.at_ Samples.plain_heading_div [Soup.node_of soup] in
  let heading :=
    Examples.at_ (Examples.leaf "h2" "Education")
      [Samples.plain_heading_div; Soup.node_of soup] in
  filter (header_matches (U := basic_latin) [py "education"])
         (Soup.find_all HEADER_TAGS soup) = [heading] /\
  Soup.find_parent ["section"; "div"] [] heading = Some div /\
  spec_find_section (U := basic_latin) soup [py "education"] = Some div /\
  _find_section_by_header (U := basic_latin) soup [py "education"] = None /\
  _find_section_by_header (U := basic_latin) soup [py "education"] <> Some div.
Proof.
  cbv zeta.
  pose proof (@find_section_misses_plain_containers basic_latin
                [Samples.plain_heading_div] [py "education"] eq_refl) as H.
  cbv zeta in H. destruct H as [Hnone Hmiss].
  split; [reflexivity|]. split; [reflexivity|].
  split; [reflexivity|]. split; [exact Hnone|].
  apply Hmiss. reflexivity.
Defined.
